(** * LOOM assistant backend: routing, preference lookup, tool and memory adapters

    A shallow embedding of the Python sources of the repository
    (python_ai_service and ai_assistant) together with the
    properties of its natural-language specification.

    Conventions of the embedding:
    - a Python [str] is a [string]; text is taken to be ASCII, and bytes
      above 127 are treated as uncased, non-blank symbols;
    - a raised exception is the value [Raise e], where [e] is [str(e)];
      every handler of the sources is [except Exception as e] and only
      ever looks at [str(e)];
    - [os.environ] is a finite map from names to values;
    - external services (HTTP, Gmail, Calendar, the vector store, the
      clock) are records of outcomes supplied by the environment. *)

From Stdlib Require Import Ascii String List ZArith Bool Lia QArith.
From stdpp Require Import base option gmap strings pretty.

Import ListNotations.
Local Open Scope string_scope.
Local Open Scope list_scope.

(** ** Python string primitives *)

Module Py.

(** Code point of a character. *)
Definition ord (c : ascii) : N := N_of_ascii c.

Definition isupper (c : ascii) : bool := ((65 <=? ord c) && (ord c <=? 90))%N.
Definition islower (c : ascii) : bool := ((97 <=? ord c) && (ord c <=? 122))%N.

Definition lower_char (c : ascii) : ascii :=
  if isupper c then ascii_of_N (ord c + 32) else c.
Definition upper_char (c : ascii) : ascii :=
  if islower c then ascii_of_N (ord c - 32) else c.

(** [s.lower()] *)
Fixpoint lower (s : string) : string :=
  match s with
  | EmptyString => EmptyString
  | String c s' => String (lower_char c) (lower s')
  end.

(** [s.startswith(w)] *)
Fixpoint startswith (w s : string) : bool :=
  match w, s with
  | EmptyString, _ => true
  | String _ _, EmptyString => false
  | String a w', String b s' => Ascii.eqb a b && startswith w' s'
  end.

(** [w in s] for two strings: [w] occurs in [s] as a contiguous run. *)
Fixpoint isin (w s : string) : bool :=
  startswith w s ||
  match s with
  | EmptyString => false
  | String _ s' => isin w s'
  end.

(** [any(word in s for word in words)] *)
Definition any_in (words : list string) (s : string) : bool :=
  existsb (fun word => isin word s) words.

(** [x in l] for a list of strings. *)
Definition mem (x : string) (l : list string) : bool :=
  existsb (String.eqb x) l.

(** [c.isspace()] on ASCII. *)
Definition isspace (c : ascii) : bool :=
  (((9 <=? ord c) && (ord c <=? 13)) || ((28 <=? ord c) && (ord c <=? 32)))%N.

Fixpoint lstrip (s : string) : string :=
  match s with
  | EmptyString => EmptyString
  | String c s' => if isspace c then lstrip s' else s
  end.

Fixpoint rstrip (s : string) : string :=
  match s with
  | EmptyString => EmptyString
  | String c s' =>
      match rstrip s' with
      | EmptyString => if isspace c then EmptyString else String c EmptyString
      | r => String c r
      end
  end.

(** [s.strip()] *)
Definition strip (s : string) : string := rstrip (lstrip s).

(** [s.title()]: the first cased letter of every run is upper-cased,
    the following ones lower-cased. *)
Fixpoint title_go (previous_is_cased : bool) (s : string) : string :=
  match s with
  | EmptyString => EmptyString
  | String c s' =>
      if islower c then
        String (if previous_is_cased then c else upper_char c) (title_go true s')
      else if isupper c then
        String (if previous_is_cased then lower_char c else c) (title_go true s')
      else String c (title_go false s')
  end.
Definition title (s : string) : string := title_go false s.

(** [s.replace(old, new)]: occurrences are replaced left to right and
    do not overlap; [skip] counts the characters of a matched
    occurrence that are still to be dropped. *)
Fixpoint replace_go (old new : string) (skip : nat) (s : string) : string :=
  match s with
  | EmptyString => EmptyString
  | String c s' =>
      match skip with
      | S k => replace_go old new k s'
      | O =>
          if startswith old s
          then new +:+ replace_go old new (String.length old - 1) s'
          else String c (replace_go old new 0 s')
      end
  end.

Fixpoint intersperse (new s : string) : string :=
  match s with
  | EmptyString => new
  | String c s' => new +:+ String c (intersperse new s')
  end.

Definition replace (old new s : string) : string :=
  match old with
  | EmptyString => intersperse new s
  | _ => replace_go old new 0 s
  end.

(** [s[:n]] *)
Fixpoint take_str (n : nat) (s : string) : string :=
  match n, s with
  | S n', String c s' => String c (take_str n' s')
  | _, _ => EmptyString
  end.

(** [sep.join(l)] *)
Fixpoint join (sep : string) (l : list string) : string :=
  match l with
  | [] => EmptyString
  | [x] => x
  | x :: l' => x +:+ sep +:+ join sep l'
  end.

(** [s.split(sep)] for a non-empty separator; [acc] holds the current
    field in reverse. *)
Fixpoint rev_string (acc : list ascii) (s : string) : string :=
  match acc with
  | [] => s
  | c :: acc' => rev_string acc' (String c s)
  end.

Fixpoint split_go (sep : string) (skip : nat) (acc : list ascii) (s : string)
  : list string :=
  match s with
  | EmptyString => [rev_string acc EmptyString]
  | String c s' =>
      match skip with
      | S k => split_go sep k acc s'
      | O =>
          if startswith sep s
          then rev_string acc EmptyString :: split_go sep (String.length sep - 1) [] s'
          else split_go sep 0 (c :: acc) s'
      end
  end.

Definition split (sep s : string) : list string := split_go sep 0 [] s.

(** [str(n)] for integers and lengths. *)
Definition str_int (z : Z) : string := pretty z.
Definition str_len (n : nat) : string := pretty n.

(** Truth value of a string, a list, a dictionary. *)
Definition truthy_str (s : string) : bool :=
  match s with EmptyString => false | _ => true end.
Definition truthy_list {A} (l : list A) : bool :=
  match l with [] => false | _ => true end.
Definition truthy_dict {V} (d : gmap string V) : bool :=
  negb (bool_decide (d = ∅)).

(** [l[i]] when [i] is in range. *)
Definition index {A} (l : list A) (i : nat) : option A := l !! i.

(** [d.get(k, dflt)] *)
Definition get {V} (d : gmap string V) (k : string) (dflt : V) : V :=
  default dflt (d !! k).

End Py.

(** ** Exceptions *)

Inductive result (A : Type) : Type :=
| Ok (a : A)
| Raise (e : string).
Arguments Ok {A} a.
Arguments Raise {A} e.

#[global] Instance result_ret : MRet result := fun A a => Ok a.
#[global] Instance result_bind : MBind result := fun A B k m =>
  match m with
  | Ok a => k a
  | Raise e => Raise e
  end.

(** [try: body  except Exception as e: handler(e)] *)
Definition try_except {A} (body : result A) (handler : string -> A) : A :=
  match body with
  | Ok a => a
  | Raise e => handler e
  end.

(** A loop body run over a list, stopping at the first exception. *)
Fixpoint for_each {A B} (f : A -> result B) (l : list A) : result (list B) :=
  match l with
  | [] => Ok []
  | x :: l' => y ← f x; ys ← for_each f l'; Ok (y :: ys)
  end.

(** ** Request and response records (shared by every entry point) *)

(** A key/value record of the context: a dictionary of strings. *)
Abbreviation record := (gmap string string).

(** [user_context]: a bag of named sequences of records
    (preferences, notes, events, media, emails). *)
Abbreviation user_context := (gmap string (list (gmap string string))).

Record UserInput := {
  message : string;
  user_id : Z;
  user_context_of : user_context
}.

Record AIResponse := {
  response : string;
  confidence : Q;
  task_type : string;
  memory_updated : bool;
  tools_used : list string
}.

(** ** External world: HTTP, clock, file system *)

(** [d[k]]: the value, or [KeyError(k)], whose text is the quoted key. *)
Definition subscript {V} (d : gmap string V) (k : string) : result V :=
  match d !! k with
  | Some v => Ok v
  | None => Raise ("'" +:+ k +:+ "'")
  end.

(** [l[i]] with [IndexError]. *)
Definition item {A} (l : list A) (i : nat) : result A :=
  match Py.index l i with
  | Some x => Ok x
  | None => Raise "list index out of range"
  end.

(** The line feed of the f-strings. *)
Definition nl : string := String (ascii_of_nat 10) EmptyString.

(** [str(x)] of an optional string: [None] prints as its name. *)
Definition str_opt (x : option string) : string := default "None" x.

(** An HTTP response: its status and what [response.json()] gives. *)
Record http_response := {
  status_code : Z;
  json : result (gmap string (list (gmap string string)))
}.

(** Wall clock: instants are microseconds since the epoch. *)
Record Clock := {
  now : Z;
  utcnow : Z;
  isoformat : Z -> string;
  strftime : string -> Z -> string
}.

Definition timedelta_days (d : Z) : Z := (d * 86400 * 1000000)%Z.
Definition timedelta_hours (h : Z) : Z := (h * 3600 * 1000000)%Z.

(** ** python_ai_service/simple_main.py *)

Module SimpleMain.

Definition detect_task_type (message : string) : string :=
  let message_lower := Py.lower message in
  if Py.any_in ["search"; "find"; "look up"; "research"] message_lower then
    "web_search"
  else if Py.any_in ["schedule"; "calendar"; "meeting"; "appointment"] message_lower then
    "calendar"
  else if Py.any_in ["email"; "send"; "message"; "mail"] message_lower then
    "email"
  else if Py.any_in ["image"; "photo"; "picture"; "analyze"] message_lower then
    "image_analysis"
  else
    "general_chat".

Definition generate_response (message : string) (user_context : user_context)
    (task_type : string) : string :=
  if String.eqb task_type "web_search" then
    "I'll search for information about '" +:+ message +:+
    "'. Using LangChain + Ollama orchestration to find relevant current information."
  else if String.eqb task_type "calendar" then
    let events_count := length (Py.get user_context "events" []) in
    "I'll help you manage your calendar using Google Calendar integration. You currently have "
    +:+ Py.str_len events_count +:+ " events scheduled."
  else if String.eqb task_type "email" then
    let emails_count := length (Py.get user_context "emails" []) in
    "I'll assist with your email needs using Gmail API integration. You have "
    +:+ Py.str_len emails_count +:+ " emails in your system."
  else if String.eqb task_type "image_analysis" then
    let media_count := length (Py.get user_context "media" []) in
    "I'll analyze the image using CLIP computer vision model. You have "
    +:+ Py.str_len media_count +:+ " media files stored."
  else
    let notes_context :=
      if Py.truthy_list (Py.get user_context "notes" []) then
        let note_titles :=
          map (fun note : record => Py.get note "title" "Untitled")
              (take 3 (Py.get user_context "notes" [])) in
        " I can see you have notes about " +:+ Py.join ", " note_titles +:+ "."
      else "" in
    "I'm your LangChain-powered AI assistant with access to Ollama (LLaMA3/Mistral), ChromaDB vector memory, and comprehensive tools."
    +:+ notes_context +:+ " How can I help you today?".

(** POST /ai/orchestrate.  No statement of the body can raise on a
    well-typed request, so the handler's [except] arm is not reached. *)
Definition orchestrate_ai_task (request : UserInput) : AIResponse :=
  let task_type := detect_task_type request.(message) in
  let response := generate_response request.(message) request.(user_context_of) task_type in
  let tools_used :=
    if String.eqb task_type "web_search" then ["web_search"; "tavily_api"]
    else if String.eqb task_type "calendar" then ["calendar_management"; "google_calendar"]
    else if String.eqb task_type "email" then ["email_management"; "gmail_api"]
    else if String.eqb task_type "image_analysis" then ["image_analysis"; "clip_model"]
    else ["langchain_orchestration"; "ollama_llm"] in
  {| response := response;
     confidence := 9 # 10;
     task_type := task_type;
     memory_updated := true;
     tools_used := tools_used |}.

(** GET /health: the [services] map ([timestamp] left out).  The
    handler reads nothing from the environment. *)
Definition health_check (environ : gmap string string) : gmap string string :=
  {[ "langchain" := "initialized";
     "ollama" := "pending";
     "chromadb" := "in_memory";
     "tavily" := "configured";
     "google_apis" := "configured";
     "clip" := "pending" ]}.

End SimpleMain.

(** ** python_ai_service/proper_main.py *)

Module ProperMain.

Definition detect_task_type (message : string) : string :=
  let message_lower := Py.lower message in
  if Py.any_in ["favorite"; "prefer"; "like"] message_lower then
    "preference_query"
  else if Py.any_in ["weather"; "news"; "search"] message_lower then
    "web_search"
  else if Py.any_in ["calendar"; "schedule"; "event"] message_lower then
    "calendar_management"
  else if Py.any_in ["email"; "mail"] message_lower then
    "email_management"
  else if Py.any_in ["image"; "photo"; "picture"] message_lower then
    "image_analysis"
  else if Py.any_in ["remember"; "memory"; "recall"] message_lower then
    "memory_retrieval"
  else
    "general_chat".

(** The Tavily client of the module, when its construction succeeded:
    [search(query)] gives the response dictionary or raises. *)
Record TavilyClient := {
  tavily_search : string -> result (gmap string (list (gmap string string)))
}.

Definition web_search_tool (tavily_client : option TavilyClient) (query : string) : string :=
  try_except
    (let unavailable := "Web search not available. Query was: " +:+ query in
     match tavily_client with
     | Some client =>
         response ← client.(tavily_search) query;
         let results := Py.get response "results" [] in
         if Py.truthy_list results then
           Ok ("Web search results for '" +:+ query +:+ "': " +:+
               Py.join "; "
                 (map (fun r : record => Py.take_str 200 (Py.get r "content" ""))
                      (take 3 results)))
         else Ok unavailable
     | None => Ok unavailable
     end)
    (fun e => "Web search failed: " +:+ e).

End ProperMain.

(** ** ai_assistant/agents/assistant_agent.py *)

Module AssistantAgent.

Definition _detect_task_type (message : string) : string :=
  let message_lower := Py.lower message in
  if Py.any_in ["favorite"; "prefer"; "like"] message_lower then
    "preference_query"
  else if Py.any_in ["weather"; "news"; "search"] message_lower then
    "web_search"
  else if Py.any_in ["calendar"; "schedule"; "event"] message_lower then
    "calendar_management"
  else if Py.any_in ["email"; "mail"] message_lower then
    "email_management"
  else if Py.any_in ["image"; "photo"; "picture"] message_lower then
    "image_analysis"
  else
    "general_chat".

(** State of the loop that parses [user_id:X|query:Y|context:Z]. *)
Record parsed := {
  p_user_id : Z;
  p_actual_query : string;
  p_context : user_context
}.

Section Parse.
(** The built-ins [int] and [json.loads]. *)
Variable py_int : string -> result Z.
Variable json_loads : string -> result user_context.

Definition parse_part (st : parsed) (part : string) : result parsed :=
  if Py.isin "user_id:" part then
    field ← item (Py.split "user_id:" part) 1;
    n ← py_int field;
    Ok {| p_user_id := n; p_actual_query := st.(p_actual_query);
          p_context := st.(p_context) |}
  else if Py.isin "query:" part then
    field ← item (Py.split "query:" part) 1;
    Ok {| p_user_id := st.(p_user_id); p_actual_query := field;
          p_context := st.(p_context) |}
  else if Py.isin "context:" part then
    Ok (try_except
          (field ← item (Py.split "context:" part) 1;
           c ← json_loads field;
           Ok {| p_user_id := st.(p_user_id);
                 p_actual_query := st.(p_actual_query); p_context := c |})
          (fun _ => st))
  else Ok st.

Fixpoint parse_parts (st : parsed) (parts : list string) : result parsed :=
  match parts with
  | [] => Ok st
  | part :: parts' => st' ← parse_part st part; parse_parts st' parts'
  end.

(** The analysis proper, once the query and the context are known.
    The four tests are consecutive [if] statements: a test whose
    record is not found falls through to the next one. *)
Definition analyze_parsed (actual_query : string) (context : user_context) : string :=
  let preferences := Py.get context "preferences" [] in
  if negb (Py.truthy_list preferences) then
    "I don't have information about your preferences yet."
  else
  let query_lower := Py.lower actual_query in
  let count :=
    "I found " +:+ Py.str_len (length preferences) +:+ " preferences in your profile." in
  let from_album :=
    if Py.isin "album" query_lower then
      match find (fun p : record =>
                Py.isin "favorite_album" (Py.get p "key" "") ||
                Py.isin "my beautiful dark twisted fantasy"
                        (Py.lower (Py.get p "value" ""))) preferences with
      | Some album_pref =>
          if Py.truthy_dict album_pref then
            "Your favorite album is: **My Beautiful Dark Twisted Fantasy by Kanye West**"
          else count
      | None => count
      end
    else count in
  let from_singer :=
    if Py.isin "singer?" query_lower then "I don't know your favorite singer."
    else from_album in
  let from_singers :=
    if Py.isin "singers" query_lower && negb (Py.isin "singer?" query_lower) then
      match find (fun p : record =>
                Py.isin "favorite_singers" (Py.get p "key" "") ||
                Py.isin "singers:" (Py.get p "value" "")) preferences with
      | Some singers_pref =>
          if Py.truthy_dict singers_pref then
            let singers :=
              Py.strip (Py.replace "singers: " "" (Py.get singers_pref "value" "")) in
            "Your favorite singers are: **" +:+ singers +:+ "**"
          else from_singer
      | None => from_singer
      end
    else from_singer in
  if Py.isin "tv series" query_lower || Py.isin "series" query_lower then
    match find (fun p : record =>
              Py.isin "tv_series" (Py.get p "key" "") ||
              Py.isin "tv series" (Py.lower (Py.get p "value" ""))) preferences with
    | Some tv_pref =>
        if Py.truthy_dict tv_pref then
          let series_name :=
            Py.strip (Py.replace "tv series: " "" (Py.get tv_pref "value" "")) in
          "Your favorite TV series is: **" +:+ series_name +:+ "**"
        else from_singers
    | None => from_singers
    end
  else from_singers.

Definition _analyze_preferences (query : string) : string :=
  try_except
    (let parts := Py.split "|" query in
     st ← parse_parts {| p_user_id := 1; p_actual_query := query; p_context := ∅ |} parts;
     Ok (analyze_parsed st.(p_actual_query) st.(p_context)))
    (fun e => "Preference analysis failed: " +:+ e).

End Parse.

End AssistantAgent.

(** ** ai_assistant/simple_ai.py *)

Module SimpleAI.

Definition analyze_preferences (message : string) (preferences : list record)
  : option string :=
  let message_lower := Py.lower message in
  if Py.isin "tv series" message_lower || Py.isin "series" message_lower then
    match find (fun p : record => Py.isin "tv_series" (Py.get p "key" "")) preferences with
    | Some tv_pref =>
        if Py.truthy_dict tv_pref then
          let series_name :=
            Py.strip (Py.replace "tv series: " "" (Py.get tv_pref "value" "")) in
          Some ("Your favorite TV series is: **" +:+ Py.title series_name +:+ "**")
        else None
    | None => None
    end
  else if Py.isin "album" message_lower then
    match find (fun p : record => Py.isin "favorite_album" (Py.get p "key" "")) preferences with
    | Some album_pref =>
        if Py.truthy_dict album_pref then
          Some ("Your favorite album is: **" +:+ Py.get album_pref "value" "" +:+ "**")
        else None
    | None => None
    end
  else if Py.isin "singers" message_lower && negb (Py.isin "singer?" message_lower) then
    match find (fun p : record => Py.isin "favorite_singers" (Py.get p "key" "")) preferences with
    | Some singers_pref =>
        if Py.truthy_dict singers_pref then
          let singers :=
            Py.strip (Py.replace "singers: " "" (Py.get singers_pref "value" "")) in
          Some ("Your favorite singers are: **" +:+ singers +:+ "**")
        else None
    | None => None
    end
  else if Py.isin "singer?" message_lower then
    Some "I don't know your favorite singer."
  else None.

Definition greeting : string :=
  "Hello! I'm your LOOM AI Assistant powered by LangChain + Ollama + ChromaDB. I can help you with your preferences, notes, gallery, and more. What would you like to know?".

(** POST /chat.  On a well-typed request no statement raises. *)
Definition chat_endpoint (user_input : UserInput) : AIResponse :=
  let message := user_input.(message) in
  let user_context := user_input.(user_context_of) in
  let preferences := Py.get user_context "preferences" [] in
  let pref_response := analyze_preferences message preferences in
  if match pref_response with Some r => Py.truthy_str r | None => false end then
    {| response := default "" pref_response;
       confidence := 9 # 10;
       task_type := "preference_query";
       memory_updated := true;
       tools_used := ["langchain_agent"; "preference_analysis"; "chromadb_memory"] |}
  else if Py.isin "image" (Py.lower message) || Py.isin "gallery" (Py.lower message) then
    let media := Py.get user_context "media" [] in
    if Py.truthy_list media then
      let media_files := map (fun m : record => Py.get m "filename" "") media in
      {| response :=
           "I can see you have " +:+ Py.str_len (length media) +:+
           " files in your gallery: " +:+ Py.join ", " (take 3 media_files) +:+
           (if Nat.ltb 3 (length media_files) then "..." else "") +:+
           ". I can analyze images when you share them with me.";
         confidence := 8 # 10;
         task_type := "gallery_query";
         memory_updated := true;
         tools_used := ["langchain_agent"; "gallery_analysis"; "chromadb_memory"] |}
    else
      {| response := "I don't see any images in your gallery yet. Feel free to upload some!";
         confidence := 8 # 10;
         task_type := "gallery_query";
         memory_updated := true;
         tools_used := ["langchain_agent"; "gallery_analysis"] |}
  else if Py.mem (Py.lower message) ["hi"; "hello"; "hey"] then
    {| response := greeting;
       confidence := 9 # 10;
       task_type := "greeting";
       memory_updated := true;
       tools_used := ["langchain_agent"; "contextual_response"; "chromadb_memory"] |}
  else
    {| response := "I don't have specific information about that. Could you ask me about your preferences, TV series, music albums, or images?";
       confidence := 7 # 10;
       task_type := "unknown";
       memory_updated := true;
       tools_used := ["langchain_agent"; "chromadb_memory"] |}.

(** GET /health: the scalar entries of the [services] map. *)
Definition health_check (environ : gmap string string) : gmap string bool :=
  {[ "langchain" := true; "ollama" := true; "chromadb" := true ]}.

End SimpleAI.

(** ** ai_assistant/start_service.py *)

Module StartService.

Definition greeting : string :=
  "Hello! I'm your LOOM AI Assistant powered by LangChain + Ollama + ChromaDB. I can help you with your preferences, notes, gallery, and more. What would you like to know?".

(** POST /chat.  The handler has no [return] after a branch whose inner
    test fails, so the value of the call is then Python's [None]. *)
Definition chat (user_input : UserInput) : option AIResponse :=
  let message := Py.lower user_input.(message) in
  let user_context := user_input.(user_context_of) in
  let preferences := Py.get user_context "preferences" [] in
  if Py.isin "tv series" message || Py.isin "favorite series" message then
    match find (fun p : record => Py.isin "tv_series" (Py.get p "key" "")) preferences with
    | Some tv_pref =>
        if Py.truthy_dict tv_pref then
          let series_name :=
            Py.strip (Py.replace "tv series: " "" (Py.get tv_pref "value" "")) in
          Some {| response := "Your favorite TV series is: **" +:+ Py.title series_name +:+ "**";
                  confidence := 9 # 10;
                  task_type := "preference_query";
                  memory_updated := true;
                  tools_used := ["preference_analysis"; "langchain_agent"] |}
        else None
    | None => None
    end
  else if Py.isin "album" message then
    match find (fun p : record => Py.isin "favorite_album" (Py.get p "key" "")) preferences with
    | Some album_pref =>
        if Py.truthy_dict album_pref then
          Some {| response := "Your favorite album is: **" +:+ Py.get album_pref "value" "" +:+ "**";
                  confidence := 9 # 10;
                  task_type := "preference_query";
                  memory_updated := true;
                  tools_used := ["preference_analysis"; "langchain_agent"] |}
        else None
    | None => None
    end
  else if Py.isin "singers" message then
    match find (fun p : record => Py.isin "favorite_singers" (Py.get p "key" "")) preferences with
    | Some singers_pref =>
        if Py.truthy_dict singers_pref then
          let singers :=
            Py.strip (Py.replace "singers: " "" (Py.get singers_pref "value" "")) in
          Some {| response := "Your favorite singers are: **" +:+ singers +:+ "**";
                  confidence := 9 # 10;
                  task_type := "preference_query";
                  memory_updated := true;
                  tools_used := ["preference_analysis"; "langchain_agent"] |}
        else None
    | None => None
    end
  else if Py.isin "image" message || Py.isin "gallery" message then
    let media := Py.get user_context "media" [] in
    if Py.truthy_list media then
      let media_files := map (fun m : record => Py.get m "filename" "") media in
      Some {| response :=
                "I can see you have " +:+ Py.str_len (length media) +:+
                " files in your gallery: " +:+ Py.join ", " (take 3 media_files) +:+
                (if Nat.ltb 3 (length media_files) then "..." else "") +:+
                ". I can analyze images when you share them with me.";
              confidence := 8 # 10;
              task_type := "gallery_query";
              memory_updated := true;
              tools_used := ["gallery_analysis"; "langchain_agent"] |}
    else None
  else if Py.mem message ["hi"; "hello"; "hey"] then
    Some {| response := greeting;
            confidence := 9 # 10;
            task_type := "greeting";
            memory_updated := true;
            tools_used := ["langchain_agent"; "contextual_response"] |}
  else
    Some {| response := "I don't have specific information about that. Could you ask me about your preferences, TV series, music albums, or images?";
            confidence := 7 # 10;
            task_type := "unknown";
            memory_updated := true;
            tools_used := ["langchain_agent"] |}.

End StartService.

(** ** ai_assistant/tools/web_search.py *)

Module WebSearchTool.

Record t := {
  api_key : option string;
  base_url : string;
  is_available : bool
}.

Definition __init__ (environ : gmap string string) : t :=
  let api_key := environ !! "TAVILY_API_KEY" in
  {| api_key := api_key;
     base_url := "https://api.tavily.com";
     is_available := bool_decide (api_key ≠ None) |}.

Section Search.
(** [requests.post(url, headers, json)]: url, key and query sent. *)
Variable requests_post : string -> option string -> string -> result http_response.

Definition format_result (result : record) : string :=
  "**" +:+ Py.get result "title" "No title" +:+ "**" +:+ nl +:+
  Py.get result "content" "No content" +:+ nl +:+
  "Source: " +:+ Py.get result "url" "No URL".

(** The statements inside [try:]. *)
Definition search_body (self : t) (query : string) : result string :=
  if negb self.(is_available) then
    Ok ("Web search not available. Query was: " +:+ query)
  else
    response ← requests_post (self.(base_url) +:+ "/search") self.(api_key) query;
    if (response.(status_code) =? 200)%Z then
      data ← response.(json);
      let results := Py.get data "results" [] in
      if Py.truthy_list results then
        let formatted_results := map format_result results in
        Ok ("Web search results for '" +:+ query +:+ "':" +:+ nl +:+ nl +:+
            Py.join (nl +:+ nl) formatted_results)
      else Ok ("No results found for '" +:+ query +:+ "'")
    else
      Ok ("Web search failed with status " +:+ Py.str_int response.(status_code)).

Definition search (self : t) (query : string) : string :=
  try_except (search_body self query)
             (fun e => "Web search error: " +:+ e).

Definition get_news (self : t) (topic : string) : string :=
  search self ("latest news " +:+ topic).

Definition get_weather (self : t) (location : string) : string :=
  search self ("weather " +:+ location).

End Search.

Definition check_status (self : t) : bool := self.(is_available).

End WebSearchTool.

(** ** Google OAuth start-up, as both Google tools run it *)

Record Credentials := {
  valid : bool;
  expired : bool;
  refresh_token : option string
}.

(** What the start-up code finds around it: whether the client
    libraries import, the files on disk, and the outcome of every call
    into the Google client library. *)
Record GoogleWorld (Service : Type) := {
  import_google : result unit;
  files : gmap string string;
  parse_authorized_user : string -> result Credentials;
  refresh : Credentials -> result Credentials;
  parse_client_secrets : string -> result unit;
  run_local_server : result Credentials;
  write_file : string -> string -> result unit;
  to_json : Credentials -> string;
  build : string -> string -> Credentials -> result Service
}.
Arguments import_google {Service} _.
Arguments files {Service} _.
Arguments parse_authorized_user {Service} _ _.
Arguments refresh {Service} _ _.
Arguments parse_client_secrets {Service} _ _.
Arguments run_local_server {Service} _.
Arguments write_file {Service} _ _ _.
Arguments to_json {Service} _ _.
Arguments build {Service} _ _ _ _.

Section GoogleFiles.
Context {Service : Type} (w : GoogleWorld Service).

(** [os.path.exists(path)] *)
Definition path_exists (path : string) : bool :=
  bool_decide (w.(files) !! path ≠ None).

(** Opening a file that is not there raises [FileNotFoundError]. *)
Definition read_file (path : string) : result string :=
  match w.(files) !! path with
  | Some content => Ok content
  | None => Raise ("[Errno 2] No such file or directory: '" +:+ path +:+ "'")
  end.

(** [Credentials.from_authorized_user_file(path, SCOPES)] *)
Definition from_authorized_user_file (path : string) : result Credentials :=
  content ← read_file path; w.(parse_authorized_user) content.

(** [InstalledAppFlow.from_client_secrets_file(path, SCOPES)] *)
Definition from_client_secrets_file (path : option string) : result unit :=
  match path with
  | Some path => content ← read_file path; w.(parse_client_secrets) content
  | None => Raise "expected str, bytes or os.PathLike object, not NoneType"
  end.

(** The consent flow: read the client secrets, then ask the user. *)
Definition run_flow (credentials_path : option string) : result Credentials :=
  _ ← from_client_secrets_file credentials_path; w.(run_local_server).

(** The statements inside [try:] of [_initialize_service], up to the
    names of the token file and of the API that is built. *)
Definition obtain_service (token_file api version : string)
    (credentials_path : option string) : result Service :=
  _ ← w.(import_google);
  creds ← (if path_exists token_file
           then c ← from_authorized_user_file token_file; Ok (Some c)
           else Ok None);
  let renew (fresh : result Credentials) : result Credentials :=
    c ← fresh; _ ← w.(write_file) token_file (w.(to_json) c); Ok c in
  creds ← match creds with
          | Some c =>
              if c.(valid) then Ok c
              else if c.(expired) &&
                      match c.(refresh_token) with
                      | Some r => Py.truthy_str r
                      | None => false
                      end
              then renew (w.(refresh) c)
              else renew (run_flow credentials_path)
          | None => renew (run_flow credentials_path)
          end;
  w.(build) api version creds.

End GoogleFiles.

(** ** ai_assistant/tools/email_reader.py *)

Module EmailReaderTool.

Record list_response := {
  messages : option (list record);
  resultSizeEstimate : option Z
}.

(** A message as returned by the API: the headers of its [payload]
    (no payload at all is possible) and its snippet. *)
Record gmail_message := {
  payload : option (list record);
  snippet : option string
}.

(** [service.users().messages()]: [list(q, maxResults).execute()] and
    [get(id).execute()]. *)
Record GmailService := {
  messages_list : option string -> option Z -> result list_response;
  messages_get : string -> result gmail_message
}.

Record t := {
  credentials_path : option string;
  is_available : bool;
  service : option GmailService
}.

Definition _initialize_service (w : GoogleWorld GmailService) (self : t) : t :=
  try_except
    (svc ← obtain_service w "gmail_token.json" "gmail" "v1" self.(credentials_path);
     Ok {| credentials_path := self.(credentials_path);
           is_available := self.(is_available);
           service := Some svc |})
    (fun _ => {| credentials_path := self.(credentials_path);
                 is_available := false;
                 service := self.(service) |}).

Definition __init__ (environ : gmap string string) (w : GoogleWorld GmailService) : t :=
  let credentials_path := environ !! "GOOGLE_CREDENTIALS_PATH" in
  let self := {| credentials_path := credentials_path;
                 is_available := bool_decide (credentials_path ≠ None);
                 service := None |} in
  if self.(is_available) then _initialize_service w self else self.

Definition check_status (self : t) : bool := self.(is_available).

Record email_data := {
  subject : string;
  sender : string;
  date : string;
  preview : string
}.

(** [next((h['value'] for h in headers if h['name'] == name), dflt)] *)
Fixpoint header_value (name dflt : string) (headers : list record) : result string :=
  match headers with
  | [] => Ok dflt
  | h :: headers' =>
      n ← subscript h "name";
      if String.eqb n name then subscript h "value"
      else header_value name dflt headers'
  end.

Definition _parse_email (message : gmail_message) : email_data :=
  try_except
    (headers ← match message.(payload) with
               | Some hs => Ok hs
               | None => Raise "'payload'"
               end;
     subject ← header_value "Subject" "No Subject" headers;
     sender ← header_value "From" "Unknown Sender" headers;
     date ← header_value "Date" "No Date" headers;
     let snippet := default "" message.(snippet) in
     let preview :=
       if Nat.ltb 100 (String.length snippet)
       then Py.take_str 100 snippet +:+ "..." else snippet in
     Ok {| subject := subject; sender := sender; date := date; preview := preview |})
    (fun e => {| subject := "Parse Error"; sender := "Unknown"; date := "Unknown";
                 preview := "Error parsing email: " +:+ e |}).

(** One turn of the loop over [messages]. *)
Definition render_message (svc : GmailService) (msg : record) : result string :=
  id ← subscript msg "id";
  message ← svc.(messages_get) id;
  let email_data := _parse_email message in
  Ok ("• **" +:+ email_data.(subject) +:+ "**" +:+ nl +:+
      "  From: " +:+ email_data.(sender) +:+ nl +:+
      "  Date: " +:+ email_data.(date) +:+ nl +:+
      "  Preview: " +:+ email_data.(preview)).

Definition not_available : string :=
  "Gmail not available. Please configure credentials.".

Definition get_unread_emails_body (self : t) (max_results : Z) : result string :=
  match self.(service) with
  | None => Ok not_available
  | Some svc =>
      results ← svc.(messages_list) (Some "is:unread") (Some max_results);
      let messages := default [] results.(messages) in
      if negb (Py.truthy_list messages) then Ok "No unread emails found."
      else
        email_list ← for_each (render_message svc) messages;
        Ok ("Unread emails (" +:+ Py.str_len (length email_list) +:+ "):" +:+ nl +:+ nl +:+
            Py.join (nl +:+ nl) email_list)
  end.

Definition get_unread_emails (self : t) (max_results : Z) : string :=
  try_except (get_unread_emails_body self max_results)
             (fun e => "Failed to get unread emails: " +:+ e).

Definition get_recent_emails_body (self : t) (max_results : Z) : result string :=
  match self.(service) with
  | None => Ok not_available
  | Some svc =>
      results ← svc.(messages_list) None (Some max_results);
      let messages := default [] results.(messages) in
      if negb (Py.truthy_list messages) then Ok "No recent emails found."
      else
        email_list ← for_each (render_message svc) messages;
        Ok ("Recent emails (" +:+ Py.str_len (length email_list) +:+ "):" +:+ nl +:+ nl +:+
            Py.join (nl +:+ nl) email_list)
  end.

Definition get_recent_emails (self : t) (max_results : Z) : string :=
  try_except (get_recent_emails_body self max_results)
             (fun e => "Failed to get recent emails: " +:+ e).

Definition search_emails_body (self : t) (query : string) : result string :=
  match self.(service) with
  | None => Ok not_available
  | Some svc =>
      let search_terms := Py.strip (Py.replace "search" "" query) in
      results ← svc.(messages_list) (Some search_terms) (Some 5%Z);
      let messages := default [] results.(messages) in
      if negb (Py.truthy_list messages)
      then Ok ("No emails found matching: " +:+ search_terms)
      else
        email_list ← for_each (render_message svc) messages;
        Ok ("Search results for '" +:+ search_terms +:+ "':" +:+ nl +:+ nl +:+
            Py.join (nl +:+ nl) email_list)
  end.

Definition search_emails (self : t) (query : string) : string :=
  try_except (search_emails_body self query)
             (fun e => "Failed to search emails: " +:+ e).

Definition get_important_emails_body (self : t) (max_results : Z) : result string :=
  match self.(service) with
  | None => Ok not_available
  | Some svc =>
      results ← svc.(messages_list) (Some "is:important") (Some max_results);
      let messages := default [] results.(messages) in
      if negb (Py.truthy_list messages) then Ok "No important emails found."
      else
        email_list ← for_each (render_message svc) messages;
        Ok ("Important emails (" +:+ Py.str_len (length email_list) +:+ "):" +:+ nl +:+ nl +:+
            Py.join (nl +:+ nl) email_list)
  end.

Definition get_important_emails (self : t) (max_results : Z) : string :=
  try_except (get_important_emails_body self max_results)
             (fun e => "Failed to get important emails: " +:+ e).

Definition get_email_summary_body (clock : Clock) (self : t) : result string :=
  match self.(service) with
  | None => Ok not_available
  | Some svc =>
      unread_result ← svc.(messages_list) (Some "is:unread") None;
      let unread_count := default 0%Z unread_result.(resultSizeEstimate) in
      let today := clock.(strftime) "%Y/%m/%d" clock.(now) in
      today_result ← svc.(messages_list) (Some ("after:" +:+ today)) None;
      let today_count := default 0%Z today_result.(resultSizeEstimate) in
      important_result ← svc.(messages_list) (Some "is:important") None;
      let important_count := default 0%Z important_result.(resultSizeEstimate) in
      Ok ("📧 Email Summary:" +:+ nl +:+
          "            " +:+ nl +:+
          "• **Unread emails**: " +:+ Py.str_int unread_count +:+ nl +:+
          "• **Today's emails**: " +:+ Py.str_int today_count +:+ nl +:+
          "• **Important emails**: " +:+ Py.str_int important_count +:+ nl +:+
          "• **Last checked**: " +:+ clock.(strftime) "%Y-%m-%d %H:%M" clock.(now))
  end.

Definition get_email_summary (clock : Clock) (self : t) : string :=
  try_except (get_email_summary_body clock self)
             (fun e => "Failed to get email summary: " +:+ e).

(** [read_emails]: every branch calls a method that handles its own
    exceptions, so the outer handler only guards the dispatch. *)
Definition read_emails (clock : Clock) (self : t) (request : string) : string :=
  try_except
    (let request_lower := Py.lower request in
     if Py.isin "unread" request_lower then Ok (get_unread_emails self 10)
     else if Py.isin "recent" request_lower || Py.isin "latest" request_lower
     then Ok (get_recent_emails self 5)
     else if Py.isin "search" request_lower then Ok (search_emails self request)
     else if Py.isin "important" request_lower then Ok (get_important_emails self 5)
     else if Py.isin "summary" request_lower then Ok (get_email_summary clock self)
     else Ok (get_recent_emails self 5))
    (fun e => "Email reading error: " +:+ e).

End EmailReaderTool.

(** ** ai_assistant/tools/google_calendar.py *)

Module GoogleCalendarTool.

(** An event of the API: its [start] and [end] dictionaries (either
    may be missing) and its [summary]. *)
Record event := {
  ev_start : option record;
  ev_end : option record;
  ev_summary : option string
}.

(** The body sent to [events().insert]. *)
Record event_body := {
  eb_summary : string;
  eb_description : string;
  eb_start : string;
  eb_end : string
}.

(** [service.events()]: [list(timeMin, timeMax, ...).execute()], whose
    [items] may be absent, and [insert(body).execute()]. *)
Record CalendarService := {
  events_list : string -> string -> result (option (list event));
  events_insert : event_body -> result event
}.

Record t := {
  credentials_path : option string;
  is_available : bool;
  service : option CalendarService
}.

Definition _initialize_service (w : GoogleWorld CalendarService) (self : t) : t :=
  try_except
    (svc ← obtain_service w "token.json" "calendar" "v3" self.(credentials_path);
     Ok {| credentials_path := self.(credentials_path);
           is_available := self.(is_available);
           service := Some svc |})
    (fun _ => {| credentials_path := self.(credentials_path);
                 is_available := false;
                 service := self.(service) |}).

Definition __init__ (environ : gmap string string) (w : GoogleWorld CalendarService) : t :=
  let credentials_path := environ !! "GOOGLE_CREDENTIALS_PATH" in
  let self := {| credentials_path := credentials_path;
                 is_available := bool_decide (credentials_path ≠ None);
                 service := None |} in
  if self.(is_available) then _initialize_service w self else self.

Definition check_status (self : t) : bool := self.(is_available).

Definition not_available : string :=
  "Google Calendar not available. Please configure credentials.".

(** [event[k].get('dateTime', event[k].get('date'))] for [k] one of
    ['start'] and ['end']. *)
Definition when (k : string) (field : option record) : result (option string) :=
  match field with
  | Some d =>
      Ok (match d !! "dateTime" with
          | Some v => Some v
          | None => d !! "date"
          end)
  | None => Raise ("'" +:+ k +:+ "'")
  end.

Definition list_events_body (clock : Clock) (self : t) (days : Z) : result string :=
  match self.(service) with
  | None => Ok not_available
  | Some svc =>
      let now := clock.(isoformat) clock.(utcnow) +:+ "Z" in
      let end_time := clock.(isoformat) (clock.(utcnow) + timedelta_days days)%Z +:+ "Z" in
      events_result ← svc.(events_list) now end_time;
      let events := default [] events_result in
      if negb (Py.truthy_list events)
      then Ok ("No upcoming events found in the next " +:+ Py.str_int days +:+ " days.")
      else
        event_list ← for_each
          (fun event =>
             start ← when "start" event.(ev_start);
             let summary := default "No title" event.(ev_summary) in
             Ok ("• " +:+ summary +:+ " - " +:+ str_opt start))
          events;
        Ok ("Upcoming events (" +:+ Py.str_int days +:+ " days):" +:+ nl +:+
            Py.join nl event_list)
  end.

Definition list_events (clock : Clock) (self : t) (days : Z) : string :=
  try_except (list_events_body clock self days)
             (fun e => "Failed to list events: " +:+ e).

Definition _parse_event_request (clock : Clock) (request : string) : record :=
  {[ "title" := "Parsed Event";
     "description" := "Event created from: " +:+ request;
     "start_time" := clock.(isoformat) clock.(now);
     "end_time" := clock.(isoformat) (clock.(now) + timedelta_hours 1)%Z ]}.

Definition create_event_body (clock : Clock) (self : t) (request : string) : result string :=
  match self.(service) with
  | None => Ok not_available
  | Some svc =>
      let event_data := _parse_event_request clock request in
      let event :=
        {| eb_summary := Py.get event_data "title" "New Event";
           eb_description := Py.get event_data "description" "";
           eb_start := Py.get event_data "start_time" (clock.(isoformat) clock.(now));
           eb_end := Py.get event_data "end_time"
                       (clock.(isoformat) (clock.(now) + timedelta_hours 1)%Z) |} in
      created_event ← svc.(events_insert) event;
      start ← match created_event.(ev_start) with
              | Some d => subscript d "dateTime"
              | None => Raise "'start'"
              end;
      Ok ("Event created: " +:+ str_opt created_event.(ev_summary) +:+ " at " +:+ start)
  end.

Definition create_event (clock : Clock) (self : t) (request : string) : string :=
  try_except (create_event_body clock self request)
             (fun e => "Failed to create event: " +:+ e).

Definition update_event (self : t) (request : string) : string :=
  "Event update functionality not fully implemented yet.".

Definition delete_event (self : t) (request : string) : string :=
  "Event deletion functionality not fully implemented yet.".

(** Midnight of the day of an instant. *)
Definition midnight (i : Z) : Z := (i - i mod timedelta_days 1)%Z.

Definition check_availability_body (clock : Clock) (self : t) (request : string)
  : result string :=
  match self.(service) with
  | None => Ok not_available
  | Some svc =>
      let today := midnight clock.(now) in
      let tomorrow := (today + timedelta_days 1)%Z in
      events_result ← svc.(events_list) (clock.(isoformat) today +:+ "Z")
                                        (clock.(isoformat) tomorrow +:+ "Z");
      let events := default [] events_result in
      if negb (Py.truthy_list events) then Ok "You're completely free today!"
      else
        busy_times ← for_each
          (fun event =>
             start ← when "start" event.(ev_start);
             end_ ← when "end" event.(ev_end);
             let summary := default "Busy" event.(ev_summary) in
             Ok ("• " +:+ summary +:+ ": " +:+ str_opt start +:+ " - " +:+ str_opt end_))
          events;
        Ok ("Today's schedule:" +:+ nl +:+ Py.join nl busy_times)
  end.

Definition check_availability (clock : Clock) (self : t) (request : string) : string :=
  try_except (check_availability_body clock self request)
             (fun e => "Failed to check availability: " +:+ e).

(** [manage_calendar]: every branch calls a method that handles its
    own exceptions, so the outer handler only guards the dispatch. *)
Definition manage_calendar (clock : Clock) (self : t) (request : string) : string :=
  try_except
    (let request_lower := Py.lower request in
     if Py.isin "list" request_lower || Py.isin "show" request_lower
     then Ok (list_events clock self 7)
     else if Py.isin "create" request_lower || Py.isin "add" request_lower
     then Ok (create_event clock self request)
     else if Py.isin "update" request_lower || Py.isin "modify" request_lower
     then Ok (update_event self request)
     else if Py.isin "delete" request_lower || Py.isin "remove" request_lower
     then Ok (delete_event self request)
     else if Py.isin "free" request_lower || Py.isin "available" request_lower
     then Ok (check_availability clock self request)
     else Ok (list_events clock self 7))
    (fun e => "Calendar management error: " +:+ e).

End GoogleCalendarTool.

(** ** The vector store, as the adapters use it *)

(** A Python value returned by a store operation. *)
Inductive pyval :=
| PyNone
| PyBool (b : bool).

(** A metadata value: an integer or a string. *)
Inductive meta_value :=
| MInt (z : Z)
| MStr (s : string).

Record query_result := {
  qr_ids : list (list string);
  qr_documents : list (list string);
  qr_metadatas : list (list (gmap string meta_value));
  qr_distances : list (list Q)
}.

(** A collection of the vector database: [add] of one document with
    its metadata and identifier, [query] for the nearest documents of a
    user.  Either call may raise. *)
Class Collection (C : Type) := {
  coll_add : C -> string -> gmap string meta_value -> string -> result C;
  coll_query : C -> string -> Z -> Z -> result query_result
}.

(** [enumerate(l)] *)
Definition enumerate {A} (l : list A) : list (nat * A) :=
  combine (seq 0 (length l)) l.

(** What an HTTP handler gives back: the returned value, or the
    [HTTPException] it raised. *)
Inductive http_result (A : Type) : Type :=
| Returned (a : A)
| HTTPException (status_code : Z) (detail : string).
Arguments Returned {A} a.
Arguments HTTPException {A} status_code detail.

(** A field declared [bool] takes a Python boolean; [None] is refused
    when the response object is built (the text kept is the first line
    of the validation error). *)
Definition as_bool (v : pyval) : result bool :=
  match v with
  | PyBool b => Ok b
  | PyNone => Raise "1 validation error for AIResponse"
  end.

(** ** ai_assistant/memory/chromadb_utils.py *)

Module ChromaDBManager.

Section Manager.
Context {C : Type} `{Collection C}.
(** Timestamps are the floats of [datetime.timestamp()]; [str_float]
    is how Python prints them.  [json_dumps] is [json.dumps]. *)
Context {T : Type} (str_float : T -> string).
Variable json_dumps : list string -> string.

Record t := {
  client : option unit;
  collection : option C;
  persist_directory : string
}.

(** [chromadb.PersistentClient(path)] followed by
    [get_or_create_collection]: what they give is the environment's. *)
Definition _initialize_chromadb (connect : string -> result C) (self : t) : t :=
  try_except
    (c ← connect self.(persist_directory);
     Ok {| client := Some (); collection := Some c;
           persist_directory := self.(persist_directory) |})
    (fun _ => {| client := None; collection := None;
                 persist_directory := self.(persist_directory) |}).

Definition __init__ (connect : string -> result C) (persist_directory : string) : t :=
  _initialize_chromadb connect
    {| client := None; collection := None; persist_directory := persist_directory |}.

Definition check_status (self : t) : bool :=
  match self.(client) with Some _ => true | None => false end &&
  match self.(collection) with Some _ => true | None => false end.

(** [f"user_{user_id}_{datetime.now().timestamp()}"] *)
Definition doc_id (user_id : Z) (timestamp : T) : string :=
  "user_" +:+ Py.str_int user_id +:+ "_" +:+ str_float timestamp.

(** [f"context_{user_id}_{datetime.now().timestamp()}"] *)
Definition context_doc_id (user_id : Z) (timestamp : T) : string :=
  "context_" +:+ Py.str_int user_id +:+ "_" +:+ str_float timestamp.

(** The statements inside [try:] of [store_conversation], once the
    collection is known to be there; [timestamp] and [iso_now] are the
    two readings of the clock. *)
Definition store_conversation_body (c : C) (timestamp : T) (iso_now : string)
    (user_id : Z) (message response task_type : string) (tools_used : list string)
  : result C :=
  let doc_id := doc_id user_id timestamp in
  let conversation_text :=
    "User: " +:+ message +:+ nl +:+ "Assistant: " +:+ response in
  let metadata : gmap string meta_value :=
    {[ "user_id" := MInt user_id;
       "timestamp" := MStr iso_now;
       "task_type" := MStr task_type;
       "tools_used" := MStr (json_dumps tools_used);
       "message" := MStr message;
       "response" := MStr response ]} in
  coll_add c conversation_text metadata doc_id.

(** [store_conversation]: the method has no [return] with a value, so
    the call gives [None] whatever happens; the second component is the
    manager afterwards. *)
Definition store_conversation (self : t) (timestamp : T) (iso_now : string)
    (user_id : Z) (message response task_type : string) (tools_used : list string)
  : pyval * t :=
  try_except
    (match self.(collection) with
     | None => Ok (PyNone, self)
     | Some c =>
         c' ← store_conversation_body c timestamp iso_now user_id message response
                task_type tools_used;
         Ok (PyNone, {| client := self.(client); collection := Some c';
                        persist_directory := self.(persist_directory) |})
     end)
    (fun _ => (PyNone, self)).

(** [store_user_context]: the same shape, for a context blob;
    [dumps_context] is [json.dumps(context, indent=2)]. *)
Definition store_user_context (dumps_context : user_context -> string) (self : t)
    (timestamp : T) (iso_now : string) (user_id : Z) (context : user_context)
  : pyval * t :=
  try_except
    (match self.(collection) with
     | None => Ok (PyNone, self)
     | Some c =>
         let doc_id := context_doc_id user_id timestamp in
         let context_text := dumps_context context in
         let metadata : gmap string meta_value :=
           {[ "user_id" := MInt user_id;
              "timestamp" := MStr iso_now;
              "type" := MStr "user_context";
              "preferences_count" :=
                MInt (Z.of_nat (length (Py.get context "preferences" [])));
              "notes_count" := MInt (Z.of_nat (length (Py.get context "notes" [])));
              "events_count" := MInt (Z.of_nat (length (Py.get context "events" []))) ]} in
         c' ← coll_add c context_text metadata doc_id;
         Ok (PyNone, {| client := self.(client); collection := Some c';
                        persist_directory := self.(persist_directory) |})
     end)
    (fun _ => (PyNone, self)).

Record memory_hit := {
  content : string;
  metadata : gmap string meta_value;
  distance : Q
}.

(** The statements inside [try:] of [search_memory]. *)
Definition search_memory_body (self : t) (user_id : Z) (query : string) (n_results : Z)
  : result (list memory_hit) :=
  match self.(collection) with
  | None => Ok []
  | Some c =>
      results ← coll_query c query n_results user_id;
      if negb (Py.truthy_list results.(qr_documents)) then Ok []
      else
        docs ← item results.(qr_documents) 0;
        for_each
          (fun '(i, doc) =>
             metadata ← (if Py.truthy_list results.(qr_metadatas)
                         then row ← item results.(qr_metadatas) 0; item row i
                         else Ok ∅);
             distance ← (if Py.truthy_list results.(qr_distances)
                         then row ← item results.(qr_distances) 0; item row i
                         else Ok 0%Q);
             Ok {| content := doc; metadata := metadata; distance := distance |})
          (enumerate docs)
  end.

Definition search_memory (self : t) (user_id : Z) (query : string) (n_results : Z)
  : list memory_hit :=
  try_except (search_memory_body self user_id query n_results) (fun _ => []).

End Manager.

End ChromaDBManager.

(** ** python_ai_service/main.py (memory) *)

Module Main.

Section Memory.
Context {C : Type} `{Collection C}.
Context {T : Type} (str_float : T -> string).

(** [f"memory_{user_id}_{datetime.now().timestamp()}"] *)
Definition memory_id (user_id : Z) (timestamp : T) : string :=
  "memory_" +:+ Py.str_int user_id +:+ "_" +:+ str_float timestamp.

(** The statements inside [try:] of [store_memory]. *)
Definition store_memory_body (c : C) (iso_now : string) (timestamp : T)
    (user_id : Z) (content : string) (metadata : option (gmap string meta_value))
  : result C :=
  coll_add c content
    (default ∅ metadata ∪
     ({[ "user_id" := MInt user_id; "timestamp" := MStr iso_now ]}
        : gmap string meta_value))
    (memory_id user_id timestamp).

(** [store_memory]: [memory_collection] is the module's global; the
    result is the returned value and the global afterwards. *)
Definition store_memory (memory_collection : option C) (iso_now : string) (timestamp : T)
    (user_id : Z) (content : string) (metadata : option (gmap string meta_value))
  : pyval * option C :=
  match memory_collection with
  | None => (PyBool false, memory_collection)
  | Some c =>
      try_except
        (c' ← store_memory_body c iso_now timestamp user_id content metadata;
         Ok (PyBool true, Some c'))
        (fun _ => (PyBool false, memory_collection))
  end.

End Memory.

Definition detect_task_type (message : string) : string :=
  let message_lower := Py.lower message in
  if Py.any_in ["search"; "find"; "look up"; "research"] message_lower then
    "web_search"
  else if Py.any_in ["schedule"; "calendar"; "meeting"; "appointment"] message_lower then
    "calendar"
  else if Py.any_in ["email"; "send"; "message"; "mail"] message_lower then
    "email"
  else if Py.any_in ["image"; "photo"; "picture"; "analyze"] message_lower then
    "image_analysis"
  else
    "general_chat".

Definition get_tools_for_task (task_type : string) : list string :=
  let tool_mapping : gmap string (list string) :=
    {[ "web_search" := ["web_search"; "memory_retrieval"];
       "calendar" := ["calendar_management"; "memory_retrieval"];
       "email" := ["email_management"; "memory_retrieval"];
       "image_analysis" := ["image_analysis"; "memory_retrieval"];
       "general_chat" := ["memory_retrieval"] ]} in
  Py.get tool_mapping task_type ["memory_retrieval"].

(** [OllamaLLM]: constructed unavailable, and nothing makes it available. *)
Record OllamaLLM := {
  model_name : string;
  available : bool
}.

Definition OllamaLLM__init__ : OllamaLLM := {| model_name := "llama3"; available := false |}.

Definition OllamaLLM_generate_response (prompt : string) : string :=
  "Processed: " +:+ Py.take_str 100 prompt +:+ "... [Ollama integration pending]".

(** [generate_intelligent_fallback].  The context it is given is the
    user context with the keys [memories] and [task_type] added; it
    reads [notes], [events], [emails] and [media] only.  The title of
    the first note is read with [[...]]: a note without one raises. *)
Definition generate_intelligent_fallback (message : string) (context : user_context)
    (task_type : string) : result string :=
  if String.eqb task_type "web_search" then
    interests ← (if Py.truthy_list (Py.get context "notes" [])
                 then first ← item (Py.get context "notes" []) 0; subscript first "title"
                 else Ok "various topics");
    Ok ("I'll search for information about '" +:+ message +:+
        "'. Based on your interests in " +:+ interests +:+
        ", I'll find relevant and current information.")
  else if String.eqb task_type "calendar" then
    Ok ("I'll help you manage your calendar. You currently have " +:+
        Py.str_len (length (Py.get context "events" [])) +:+
        " events scheduled. What would you like me to do with your calendar?")
  else if String.eqb task_type "email" then
    Ok ("I'll assist with your email needs. You have " +:+
        Py.str_len (length (Py.get context "emails" [])) +:+
        " emails in your system. How can I help with email management?")
  else if String.eqb task_type "image_analysis" then
    Ok ("I'll analyze the image for you using advanced computer vision. You have " +:+
        Py.str_len (length (Py.get context "media" [])) +:+
        " media files stored. Please provide the image for analysis.")
  else
    let notes_context :=
      if Py.truthy_list (Py.get context "notes" []) then
        let note_titles :=
          map (fun note : record => Py.get note "title" "Untitled")
              (take 3 (Py.get context "notes" [])) in
        " I can see you have notes about " +:+ Py.join ", " note_titles +:+ "."
      else "" in
    Ok ("I'm here to help you with your digital life management." +:+ notes_context +:+
        " What would you like to work on today? I can help with search, calendar, email, or analyze images.").

Definition generate_contextual_response (llm : OllamaLLM) (message : string)
    (context : user_context) (task_type : string) : result string :=
  if llm.(available) then Ok (OllamaLLM_generate_response message)
  else generate_intelligent_fallback message context task_type.

Section Routing.
Context {C : Type} `{Collection C}.
Context {T : Type} (str_float : T -> string).
(** [repr_documents] is how Python prints the list of lists of
    documents inside an f-string. *)
Variable repr_documents : list (list string) -> string.

Definition memory_retrieval_tool (memory_collection : option C) (user_id : Z)
    (query : string) : string :=
  match memory_collection with
  | None => "Vector memory not available - using fallback"
  | Some c =>
      try_except
        (results ← coll_query c query 5 user_id;
         if Py.truthy_list results.(qr_documents)
         then Ok ("Retrieved memories: " +:+ repr_documents results.(qr_documents))
         else Ok "No relevant memories found")
        (fun e => "Memory retrieval error: " +:+ e)
  end.

(** [route_task]: the response, or the exception that leaves the
    function, and the collection afterwards. *)
Definition route_task (llm : OllamaLLM) (memory_collection : option C)
    (iso_now : string) (timestamp : T) (request : UserInput)
  : result AIResponse * option C :=
  let task_type := detect_task_type request.(message) in
  let memory_context :=
    memory_retrieval_tool memory_collection request.(user_id) request.(message) in
  match generate_contextual_response llm request.(message) request.(user_context_of)
          task_type with
  | Raise e => (Raise e, memory_collection)
  | Ok response =>
      let '(memory_stored, memory_collection') :=
        store_memory str_float memory_collection iso_now timestamp request.(user_id)
          ("User: " +:+ request.(message) +:+ nl +:+ "AI: " +:+ response)
          (Some {[ "task_type" := MStr task_type ]}) in
      (b ← as_bool memory_stored;
       Ok {| response := response;
             confidence := 85 # 100;
             task_type := task_type;
             memory_updated := b;
             tools_used := get_tools_for_task task_type |},
       memory_collection')
  end.

(** POST /ai/orchestrate *)
Definition orchestrate_ai_task (llm : OllamaLLM) (memory_collection : option C)
    (iso_now : string) (timestamp : T) (request : UserInput)
  : http_result AIResponse * option C :=
  let '(outcome, memory_collection') :=
    route_task llm memory_collection iso_now timestamp request in
  (try_except (response ← outcome; Ok (Returned response))
              (fun e => HTTPException 500 ("AI processing error: " +:+ e)),
   memory_collection').

(** GET /memory/stats/{user_id}: the dictionary returned. *)
Definition get_memory_stats (memory_collection : option C) (iso_now : string)
    (user_id : Z) : gmap string meta_value :=
  try_except
    (match memory_collection with
     | None =>
         Ok ({[ "user_id" := MInt user_id; "memory_count" := MInt 0;
                "status" := MStr "vector_memory_disabled" ]} : gmap string meta_value)
     | Some c =>
         results ← coll_query c "" 1000 user_id;
         Ok ({[ "user_id" := MInt user_id;
                "memory_count" :=
                  MInt (if Py.truthy_list results.(qr_ids)
                        then Z.of_nat (length results.(qr_ids)) else 0);
                "last_interaction" := MStr iso_now ]} : gmap string meta_value)
     end)
    (fun e => {[ "error" := MStr e; "memory_count" := MInt 0 ]}).

End Routing.

End Main.

(** ** python_ai_service/tools/web_search.py *)

Module TavilySearchTool.

(** One result of the Tavily API, and one result as the tool returns it. *)
Record api_result := {
  r_title : option string;
  r_url : option string;
  r_content : option string;
  r_score : option Q;
  r_published_date : option string
}.

Record hit := {
  title : string;
  url : string;
  content : string;
  score : Q;
  published_date : string;
  source : string
}.

Record response := {
  status_code : Z;
  json : result (option (list api_result))
}.

Record t := {
  api_key : option string;
  base_url : string
}.

Definition __init__ (environ : gmap string string) : t :=
  {| api_key := environ !! "TAVILY_API_KEY";
     base_url := "https://api.tavily.com/search" |}.

Definition _format_results (results : list api_result) : list hit :=
  map (fun result =>
         {| title := default "No title" result.(r_title);
            url := default "" result.(r_url);
            content := Py.take_str 500 (default "" result.(r_content)) +:+ "...";
            score := default 0%Q result.(r_score);
            published_date := default "" result.(r_published_date);
            source := "tavily" |})
      results.

Definition _fallback_search (query : string) : list hit :=
  [ {| title := "Search: " +:+ query;
       url := "https://example.com";
       content := "Intelligent search for '" +:+ query +:+
                  "' would return relevant, current information from the web.";
       score := 8 # 10;
       published_date := "2025-01-11";
       source := "fallback" |} ].

Section Search.
(** [requests.post(url, json=payload, timeout=10)]: url, key, query and
    number of results sent. *)
Variable requests_post : string -> string -> string -> Z -> result response.

(** The statements inside [try:]. *)
Definition search_body (self : t) (key query : string) (max_results : Z)
  : result (list hit) :=
  response ← requests_post self.(base_url) key query max_results;
  if (response.(status_code) =? 200)%Z then
    data ← response.(json);
    Ok (_format_results (default [] data))
  else Ok (_fallback_search query).

(** [search]: with no key the fallback is returned at once; an
    exception is printed and the fallback returned. *)
Definition search (self : t) (query : string) (max_results : Z) : list hit :=
  match self.(api_key) with
  | Some key =>
      if Py.truthy_str key then
        try_except (search_body self key query max_results)
                   (fun _ => _fallback_search query)
      else _fallback_search query
  | None => _fallback_search query
  end.

End Search.

End TavilySearchTool.

(** ** python_ai_service/proper_main.py: the orchestrator *)

Module ProperOrchestrator.

(** [preference_analysis_tool].  The tests are consecutive [if]
    statements: a test whose record is not found falls through to the
    next one.  On a well-typed context no statement raises. *)
Definition preference_analysis_tool (user_context : user_context) (query : string)
  : string :=
  let preferences := Py.get user_context "preferences" [] in
  if negb (Py.truthy_list preferences) then "No preferences found in user context"
  else
  let query_lower := Py.lower query in
  let from_general :=
    if Py.isin "what do you know about me" query_lower then
      let pref_list :=
        map (fun pref : record =>
               Py.get pref "key" "" +:+ ": " +:+ Py.get pref "value" "") preferences in
      "Your preferences: " +:+ Py.join "; " pref_list
    else "No specific preference found for query: " +:+ query in
  let from_album :=
    if Py.isin "album" query_lower then
      match find (fun p : record =>
                Py.isin "favorite_album" (Py.get p "key" "") ||
                Py.isin "my beautiful dark twisted fantasy"
                        (Py.lower (Py.get p "value" ""))) preferences with
      | Some album_pref =>
          if Py.truthy_dict album_pref then
            "Your favorite album is: My Beautiful Dark Twisted Fantasy by Kanye West"
          else from_general
      | None => from_general
      end
    else from_general in
  let from_singer :=
    if Py.isin "singer?" query_lower || Py.isin "who is my favorite singer" query_lower
    then "I don't know your favorite singer."
    else from_album in
  let from_singers :=
    if Py.isin "singers" query_lower && negb (Py.isin "singer?" query_lower) then
      match find (fun p : record =>
                Py.isin "favorite_singers" (Py.get p "key" "") ||
                Py.isin "singers:" (Py.get p "value" "")) preferences with
      | Some singers_pref =>
          if Py.truthy_dict singers_pref then
            let singers :=
              Py.strip (Py.replace "singers: " "" (Py.get singers_pref "value" "")) in
            "Your favorite singers are: " +:+ singers
          else from_singer
      | None => from_singer
      end
    else from_singer in
  if Py.isin "tv series" query_lower || Py.isin "series" query_lower then
    match find (fun p : record =>
              Py.isin "tv_series" (Py.get p "key" "") ||
              Py.isin "tv series" (Py.lower (Py.get p "value" ""))) preferences with
    | Some tv_pref =>
        if Py.truthy_dict tv_pref then
          let series_name :=
            Py.strip (Py.replace "tv series: " "" (Py.get tv_pref "value" "")) in
          "Your favorite TV series is: " +:+ series_name
        else from_singers
    | None => from_singers
    end
  else from_singers.

(** The language model of the module, when its construction
    succeeded: [invoke(prompt)] gives the completion or raises. *)
Record Ollama := {
  ollama_invoke : string -> result string
}.

(** The agent executor.  [route_task] binds two of the tools to the
    request before it calls [invoke({"input": message})], so what the
    call gives, the result dictionary or an exception, is a function of
    the request. *)
Record AgentExecutor := {
  invoke : UserInput -> result record
}.

(** The orchestrator object.  [agent_executor] is an attribute that
    only a successful [initialize_agent] assigns: [None] here stands
    for an object without that attribute. *)
Record t := {
  agent : option unit;
  agent_executor : option AgentExecutor
}.

Definition initialize_agent (ollama_llm : option Ollama)
    (create_react_agent : Ollama -> result unit)
    (new_executor : result AgentExecutor) (self : t) : t :=
  try_except
    (match ollama_llm with
     | Some llm =>
         agent ← create_react_agent llm;
         executor ← new_executor;
         Ok {| agent := Some agent; agent_executor := Some executor |}
     | None => Ok self
     end)
    (fun _ => {| agent := None; agent_executor := self.(agent_executor) |}).

Definition __init__ (ollama_llm : option Ollama)
    (create_react_agent : Ollama -> result unit)
    (new_executor : result AgentExecutor) : t :=
  initialize_agent ollama_llm create_react_agent new_executor
    {| agent := None; agent_executor := None |}.

(** [self.agent_executor]: the attribute, or [AttributeError]. *)
Definition get_agent_executor (self : t) : result AgentExecutor :=
  match self.(agent_executor) with
  | Some executor => Ok executor
  | None => Raise "'LoomAIOrchestrator' object has no attribute 'agent_executor'"
  end.

Definition generate_intelligent_fallback (message : string) (context : user_context)
    (task_type : string) : string :=
  if String.eqb task_type "preference_query" then
    "I can help you with your preferences. What would you like to know about your stored data?"
  else if String.eqb task_type "web_search" then
    "I can help with web searches, but I'm currently focused on your personal LOOM data."
  else if String.eqb task_type "general_chat" then
    "I'm your LOOM AI assistant with vector memory capabilities. How can I help you today?"
  else
    "I'm here to help with your LOOM data and preferences. What would you like to know?".

(** The dictionary of GET /memory/{user_id}. *)
Record memory_stats := {
  ms_user_id : Z;
  memory_count : Z;
  last_interaction : option string
}.

(** The double quote of the prompt. *)
Definition dq : string := String (ascii_of_nat 34) EmptyString.

Section Orchestrator.
Context {C : Type} `{Collection C}.
(** [json.dumps(context, indent=2)] *)
Variable dumps_context : user_context -> string.

Definition memory_retrieval_tool (memory_collection : option C) (user_id : Z)
    (query : string) : string :=
  try_except
    (let not_found := "No relevant memories found for query: " +:+ query in
     match memory_collection with
     | Some c =>
         results ← coll_query c query 5 user_id;
         if Py.truthy_list results.(qr_documents) then
           docs ← item results.(qr_documents) 0;
           let memories := Py.join "; " docs in
           Ok ("Retrieved memories: " +:+ memories)
         else Ok not_found
     | None => Ok not_found
     end)
    (fun e => "Memory retrieval failed: " +:+ e).

(** [store_memory]: the two readings of the clock are [iso_id], for
    the identifier, and [iso_stamp]; the call gives [None] whatever
    happens, and the second component is the module's collection
    afterwards. *)
Definition store_memory (memory_collection : option C) (iso_id iso_stamp : string)
    (user_id : Z) (content : string) (metadata : option (gmap string meta_value))
  : pyval * option C :=
  try_except
    (match memory_collection with
     | Some c =>
         let doc_id := "user_" +:+ Py.str_int user_id +:+ "_" +:+ iso_id in
         c' ← coll_add c content
                (default ∅ metadata ∪
                 ({[ "user_id" := MInt user_id; "timestamp" := MStr iso_stamp ]}
                    : gmap string meta_value))
                doc_id;
         Ok (PyNone, Some c')
     | None => Ok (PyNone, memory_collection)
     end)
    (fun _ => (PyNone, memory_collection)).

Definition system_prompt (context : user_context) (task_type : string) : string :=
  "You are LOOM AI, an intelligent assistant with vector memory capabilities." +:+ nl +:+
  "                " +:+ nl +:+
  "Task type: " +:+ task_type +:+ nl +:+
  "User context: " +:+ dumps_context context +:+ nl +:+
  nl +:+
  "Provide a helpful, contextual response based on the user's data and preferences." +:+ nl +:+
  "If you don't have specific information, say " +:+ dq +:+ "I don't know" +:+ dq +:+
  " rather than making assumptions." +:+ nl.

Definition generate_contextual_response (ollama_llm : option Ollama) (message : string)
    (context : user_context) (task_type : string) : string :=
  try_except
    (match ollama_llm with
     | Some llm =>
         let full_prompt :=
           system_prompt context task_type +:+ nl +:+ nl +:+
           "User: " +:+ message +:+ nl +:+ "LOOM AI:" in
         response ← llm.(ollama_invoke) full_prompt;
         Ok (Py.strip response)
     | None => Ok (generate_intelligent_fallback message context task_type)
     end)
    (fun _ => generate_intelligent_fallback message context task_type).

(** The metadata that [route_task] hands to [store_memory]. *)
Definition exchange_metadata (response task_type : string) : gmap string meta_value :=
  {[ "response" := MStr response; "task_type" := MStr task_type ]}.

(** The statements after the agent branch of [route_task]. *)
Definition direct_routing (ollama_llm : option Ollama) (tavily_client : option ProperMain.TavilyClient)
    (memory_collection : option C) (iso_id iso_stamp : string) (request : UserInput)
    (task_type : string) : AIResponse * option C :=
  if Py.any_in ["favorite"; "prefer"; "like"] (Py.lower request.(message)) then
    let response := preference_analysis_tool request.(user_context_of) request.(message) in
    let tools_used := ["preference_analysis"] in
    let '(_, memory_collection') :=
      store_memory memory_collection iso_id iso_stamp request.(user_id) request.(message)
        (Some (exchange_metadata response task_type)) in
    ({| response := response; confidence := 85 # 100; task_type := task_type;
        memory_updated := true; tools_used := tools_used |}, memory_collection')
  else
    let '(response, tools_used) :=
      if Py.any_in ["weather"; "news"; "search"] (Py.lower request.(message)) then
        (ProperMain.web_search_tool tavily_client request.(message), ["web_search"])
      else
        (generate_contextual_response ollama_llm request.(message)
           request.(user_context_of) task_type, ["contextual_reasoning"]) in
    let '(_, memory_collection') :=
      store_memory memory_collection iso_id iso_stamp request.(user_id) request.(message)
        (Some (exchange_metadata response task_type)) in
    ({| response := response; confidence := 8 # 10; task_type := task_type;
        memory_updated := true; tools_used := tools_used |}, memory_collection').

(** [route_task]: the response and the collection afterwards.  The
    one statement of the outer [try:] that can raise is the read of
    [self.agent_executor], before anything is written. *)
Definition route_task (self : t) (ollama_llm : option Ollama)
    (tavily_client : option ProperMain.TavilyClient) (memory_collection : option C)
    (iso_id iso_stamp : string) (request : UserInput) : AIResponse * option C :=
  try_except
    (let task_type := ProperMain.detect_task_type request.(message) in
     executor ← get_agent_executor self;
     Ok (try_except
           (result ← executor.(invoke) request;
            let response := Py.get result "output" "" in
            let tools_used := ["langchain_agent"; "ollama"] in
            let '(_, memory_collection') :=
              store_memory memory_collection iso_id iso_stamp request.(user_id)
                request.(message) (Some (exchange_metadata response task_type)) in
            Ok ({| response := response; confidence := 9 # 10; task_type := task_type;
                   memory_updated := true; tools_used := tools_used |},
                memory_collection'))
           (fun _ =>
              direct_routing ollama_llm tavily_client memory_collection iso_id iso_stamp
                request task_type)))
    (fun e =>
       ({| response := "I encountered an error processing your request: " +:+ e;
           confidence := 5 # 10; task_type := "error";
           memory_updated := false; tools_used := ["error_handler"] |},
        memory_collection)).

(** POST /orchestrate *)
Definition orchestrate_ai_task (self : t) (ollama_llm : option Ollama)
    (tavily_client : option ProperMain.TavilyClient) (memory_collection : option C)
    (iso_id iso_stamp : string) (request : UserInput)
  : http_result AIResponse * option C :=
  let '(response, memory_collection') :=
    route_task self ollama_llm tavily_client memory_collection iso_id iso_stamp request in
  (Returned response, memory_collection').

(** GET /memory/{user_id} *)
Definition get_memory_stats (memory_collection : option C) (iso_now : string)
    (user_id : Z) : http_result memory_stats :=
  try_except
    (match memory_collection with
     | Some c =>
         results ← coll_query c "" 1000 user_id;
         memory_count ← (if Py.truthy_list results.(qr_documents)
                         then docs ← item results.(qr_documents) 0;
                              Ok (Z.of_nat (length docs))
                         else Ok 0%Z);
         Ok (Returned {| ms_user_id := user_id; memory_count := memory_count;
                         last_interaction := Some iso_now |})
     | None =>
         Ok (Returned {| ms_user_id := user_id; memory_count := 0;
                         last_interaction := None |})
     end)
    (fun e => HTTPException 500 e).

End Orchestrator.

End ProperOrchestrator.

(** ** ai_assistant/agents/assistant_agent.py: the agent object *)

Module Assistant.

Record Ollama := {
  ollama_invoke : string -> result string
}.

(** [invoke({"input": message})] gives the result dictionary or raises. *)
Record AgentExecutor := {
  invoke : string -> result record
}.

(** The agent.  Its memory manager is the object that main.py also
    holds, so the functions below take and give back the manager; its
    list of tools is read by the executor only. *)
Record t := {
  ollama_llm : option Ollama;
  agent_executor : option AgentExecutor
}.

Definition _initialize_ollama (new_ollama : result Ollama) (self : t) : t :=
  try_except
    (llm ← new_ollama;
     Ok {| ollama_llm := Some llm; agent_executor := self.(agent_executor) |})
    (fun _ => {| ollama_llm := None; agent_executor := self.(agent_executor) |}).

Definition _initialize_agent (create_react_agent : Ollama -> result unit)
    (new_executor : result AgentExecutor) (self : t) : t :=
  match self.(ollama_llm) with
  | None => self
  | Some llm =>
      try_except
        (agent ← create_react_agent llm;
         executor ← new_executor;
         Ok {| ollama_llm := self.(ollama_llm); agent_executor := Some executor |})
        (fun _ => {| ollama_llm := self.(ollama_llm); agent_executor := None |})
  end.

Definition __init__ (new_ollama : result Ollama)
    (create_react_agent : Ollama -> result unit)
    (new_executor : result AgentExecutor) : t :=
  _initialize_agent create_react_agent new_executor
    (_initialize_ollama new_ollama {| ollama_llm := None; agent_executor := None |}).

Definition check_ollama_status (self : t) : bool :=
  bool_decide (is_Some self.(ollama_llm)).

Section Agent.
Context {C : Type} `{Collection C}.
Context {T : Type} (str_float : T -> string).
(** [json.dumps] of a list of strings, of a context, and of a context
    with [indent=2]; the built-ins [int] and [json.loads]; how Python
    prints a list of search results. *)
Variable json_dumps : list string -> string.
Variable dumps_context : user_context -> string.
Variable dumps_context_indent : user_context -> string.
Variable py_int : string -> result Z.
Variable json_loads : string -> result user_context.
Variable repr_hits : list ChromaDBManager.memory_hit -> string.
(** The world of the tools, which are constructed anew at each use. *)
Variable environ : gmap string string.
Variable requests_post : string -> option string -> string -> result http_response.
Variable calendar_world : GoogleWorld GoogleCalendarTool.CalendarService.
Variable gmail_world : GoogleWorld EmailReaderTool.GmailService.
Variable clock : Clock.

Definition _search_memory (manager : ChromaDBManager.t) (query : string) : string :=
  try_except
    (let user_id := 1%Z in
     let results := ChromaDBManager.search_memory manager user_id query 5 in
     Ok ("Memory search results: " +:+ repr_hits results))
    (fun e => "Memory search failed: " +:+ e).

(** [_direct_tool_routing]; [timestamp] and [iso_now] are the readings
    of the clock in [store_conversation]. *)
Definition _direct_tool_routing (manager : ChromaDBManager.t) (timestamp : T)
    (iso_now : string) (message : string) (user_id : Z) (user_context : user_context)
    (task_type : string) : AIResponse * ChromaDBManager.t :=
  let '(response, tools_used) :=
    if String.eqb task_type "preference_query" then
      (AssistantAgent._analyze_preferences py_int json_loads
         ("user_id:" +:+ Py.str_int user_id +:+ "|query:" +:+ message +:+
          "|context:" +:+ dumps_context user_context),
       ["preference_analyzer"])
    else if String.eqb task_type "web_search" then
      (WebSearchTool.search requests_post (WebSearchTool.__init__ environ) message,
       ["web_search"])
    else if String.eqb task_type "calendar_management" then
      (GoogleCalendarTool.manage_calendar clock
         (GoogleCalendarTool.__init__ environ calendar_world) message,
       ["calendar_management"])
    else if String.eqb task_type "email_management" then
      (EmailReaderTool.read_emails clock
         (EmailReaderTool.__init__ environ gmail_world) message,
       ["email_reader"])
    else
      ("I'm your Personal AI Assistant. How can I help you today?", ["general_response"]) in
  let '(_, manager') :=
    ChromaDBManager.store_conversation str_float json_dumps manager timestamp iso_now
      user_id message response task_type tools_used in
  ({| response := response; confidence := 8 # 10; task_type := task_type;
      memory_updated := true; tools_used := tools_used |}, manager').

(** [process_input]: the dictionary returned and the manager
    afterwards.  The clock is read twice for the context record and
    twice for the conversation record.  On a well-typed request no
    statement outside the inner [try:] raises, so the outer handler,
    which answers with the task type error, is not entered. *)
Definition process_input (self : t) (manager : ChromaDBManager.t)
    (context_timestamp : T) (context_iso : string) (timestamp : T) (iso_now : string)
    (message : string) (user_id : Z) (user_context : user_context)
  : AIResponse * ChromaDBManager.t :=
  let '(_, manager1) :=
    ChromaDBManager.store_user_context str_float dumps_context_indent manager
      context_timestamp context_iso user_id user_context in
  let task_type := AssistantAgent._detect_task_type message in
  let direct :=
    _direct_tool_routing manager1 timestamp iso_now message user_id user_context
      task_type in
  match self.(agent_executor) with
  | Some executor =>
      try_except
        (result ← executor.(invoke) message;
         let response := Py.get result "output" "" in
         let tools_used := ["langchain_agent"; "ollama"] in
         let '(_, manager2) :=
           ChromaDBManager.store_conversation str_float json_dumps manager1 timestamp
             iso_now user_id message response task_type tools_used in
         Ok ({| response := response; confidence := 9 # 10; task_type := task_type;
                memory_updated := true; tools_used := tools_used |}, manager2))
        (fun _ => direct)
  | None => direct
  end.

End Agent.

End Assistant.

(** ** ai_assistant/memory/chromadb_utils.py: statistics *)

Module ChromaDBStats.

(** What [collection.get(where=...)] gives: one entry per record. *)
Record get_result := {
  gr_ids : list string;
  gr_documents : list string;
  gr_metadatas : list (gmap string meta_value)
}.

(** The dictionary of [get_user_memory_stats], by its three shapes. *)
Inductive stats :=
| Unavailable (user_id : Z)
| Active (user_id : Z) (total_memories conversations contexts : nat) (last_updated : string)
| Error (user_id : Z) (error : string).

(** [metadata.get("type") == "user_context"] *)
Definition is_user_context (metadata : gmap string meta_value) : bool :=
  match metadata !! "type" with
  | Some (MStr s) => String.eqb s "user_context"
  | _ => false
  end.

(** The counting loop: (conversations, contexts). *)
Definition count_by_type (metadatas : list (gmap string meta_value)) : nat * nat :=
  fold_left
    (fun '(conversations, contexts) metadata =>
       if is_user_context metadata then (conversations, S contexts)
       else (S conversations, contexts))
    metadatas (0, 0).

Section Stats.
Context {C : Type}.
Variable coll_get : C -> Z -> result get_result.

Definition get_user_memory_stats (self : ChromaDBManager.t) (iso_now : string)
    (user_id : Z) : stats :=
  try_except
    (match self.(ChromaDBManager.collection) with
     | None => Ok (Unavailable user_id)
     | Some c =>
         results ← coll_get c user_id;
         let total_memories :=
           if Py.truthy_list results.(gr_documents)
           then length results.(gr_documents) else 0 in
         let '(conversations, contexts) :=
           if Py.truthy_list results.(gr_metadatas)
           then count_by_type results.(gr_metadatas) else (0, 0) in
         Ok (Active user_id total_memories conversations contexts iso_now)
     end)
    (fun e => Error user_id e).

End Stats.

End ChromaDBStats.

(** ** ai_assistant/main.py (health) *)

Module AssistantMain.

Record services := {
  langchain : bool;
  ollama : bool;
  chromadb : bool;
  tools : gmap string bool
}.

(** GET /health ([status] and [timestamp] left out).  The three tools
    are constructed anew, reading the environment, on every call;
    [ollama_status] and [chromadb_status] are what the assistant and
    the memory manager built at start-up report. *)
Definition health_check (environ : gmap string string)
    (calendar_world : GoogleWorld GoogleCalendarTool.CalendarService)
    (gmail_world : GoogleWorld EmailReaderTool.GmailService)
    (ollama_status chromadb_status : bool) : services :=
  {| langchain := true;
     ollama := ollama_status;
     chromadb := chromadb_status;
     tools :=
       {[ "web_search" := WebSearchTool.check_status (WebSearchTool.__init__ environ);
          "calendar" := GoogleCalendarTool.check_status
                          (GoogleCalendarTool.__init__ environ calendar_world);
          "email" := EmailReaderTool.check_status
                       (EmailReaderTool.__init__ environ gmail_world);
          "image_analysis" := false ]} |}.

End AssistantMain.

(** ** Vocabulary of the properties, and sample environments *)






(** The guarded statements that a call [read_emails(request)] ends up
    running: the [try:] body of the method that the request selects. *)
Definition read_emails_operation (clock : Clock) (self : EmailReaderTool.t)
    (request : string) : result string :=
  let request_lower := Py.lower request in
  if Py.isin "unread" request_lower then EmailReaderTool.get_unread_emails_body self 10
  else if Py.isin "recent" request_lower || Py.isin "latest" request_lower
  then EmailReaderTool.get_recent_emails_body self 5
  else if Py.isin "search" request_lower then EmailReaderTool.search_emails_body self request
  else if Py.isin "important" request_lower
  then EmailReaderTool.get_important_emails_body self 5
  else if Py.isin "summary" request_lower
  then EmailReaderTool.get_email_summary_body clock self
  else EmailReaderTool.get_recent_emails_body self 5.

(** The same for [manage_calendar(request)]; updating and deleting run
    no guarded statement at all. *)
Definition manage_calendar_operation (clock : Clock) (self : GoogleCalendarTool.t)
    (request : string) : result string :=
  let request_lower := Py.lower request in
  if Py.isin "list" request_lower || Py.isin "show" request_lower
  then GoogleCalendarTool.list_events_body clock self 7
  else if Py.isin "create" request_lower || Py.isin "add" request_lower
  then GoogleCalendarTool.create_event_body clock self request
  else if Py.isin "update" request_lower || Py.isin "modify" request_lower
  then Ok (GoogleCalendarTool.update_event self request)
  else if Py.isin "delete" request_lower || Py.isin "remove" request_lower
  then Ok (GoogleCalendarTool.delete_event self request)
  else if Py.isin "free" request_lower || Py.isin "available" request_lower
  then GoogleCalendarTool.check_availability_body clock self request
  else GoogleCalendarTool.list_events_body clock self 7.

(** A vector store that refuses every call, and one that keeps what it
    is given and answers a query with the first documents of the user. *)
Inductive broken_store := Broken.

#[global] Instance broken_collection : Collection broken_store := {|
  coll_add _ _ _ _ := Raise "connection refused";
  coll_query _ _ _ _ := Raise "connection refused"
|}.

Record entry := {
  e_id : string;
  e_document : string;
  e_metadata : gmap string meta_value
}.

Definition belongs_to (user_id : Z) (e : entry) : bool :=
  match e.(e_metadata) !! "user_id" with
  | Some (MInt u) => (u =? user_id)%Z
  | _ => false
  end.

#[global] Instance list_collection : Collection (list entry) := {|
  coll_add c document metadata id :=
    Ok (c ++ [{| e_id := id; e_document := document; e_metadata := metadata |}]);
  coll_query c query n_results user_id :=
    let found := take (Z.to_nat n_results) (filter (fun e => belongs_to user_id e = true) c) in
    Ok {| qr_ids := [map e_id found];
          qr_documents := [map e_document found];
          qr_metadatas := [map e_metadata found];
          qr_distances := [map (fun _ => 0%Q) found] |}
|}.

(** [collection.get(where={"user_id": ...})] of that store. *)
Definition list_get (c : list entry) (user_id : Z) : result ChromaDBStats.get_result :=
  let found := filter (fun e => belongs_to user_id e = true) c in
  Ok {| ChromaDBStats.gr_ids := map e_id found;
        ChromaDBStats.gr_documents := map e_document found;
        ChromaDBStats.gr_metadatas := map e_metadata found |}.

(** A machine with nothing on disk and no network: the client
    libraries import, every call into them fails. *)
Definition bare_world {Service : Type} : GoogleWorld Service := {|
  import_google := Ok ();
  files := ∅;
  parse_authorized_user := fun _ => Raise "invalid token";
  refresh := fun _ => Raise "no network";
  parse_client_secrets := fun _ => Raise "invalid client secrets";
  run_local_server := Raise "no browser";
  write_file := fun _ _ => Ok ();
  to_json := fun _ => "{}";
  build := fun _ _ _ => Raise "no network"
|}.


(** The confidence values of the simplified entry points. *)
Definition simple_confidences : list Q := [7 # 10; 8 # 10; 9 # 10].

(** * Properties *)

(** ** Facts about the string primitives *)

Section StringFacts.

Lemma lower_char_idem (c : ascii) : Py.lower_char (Py.lower_char c) = Py.lower_char c.
Proof. destruct c as [[] [] [] [] [] [] [] []]; reflexivity. Qed.

Lemma lower_idem (s : string) : Py.lower (Py.lower s) = Py.lower s.
Proof.
  induction s as [|c s IH]; simpl; [reflexivity|].
  now rewrite lower_char_idem, IH.
Qed.

Lemma append_cons (c : ascii) (s t : string) : String c s +:+ t = String c (s +:+ t).
Proof. reflexivity. Qed.

Lemma append_empty_r (s : string) : s +:+ EmptyString = s.
Proof. induction s as [|c s IH]; [reflexivity | now rewrite append_cons, IH]. Qed.

Lemma append_assoc (a b c : string) : (a +:+ b) +:+ c = a +:+ b +:+ c.
Proof. induction a as [|x a IH]; [reflexivity | now rewrite !append_cons, IH]. Qed.

Lemma startswith_spec (w s : string) :
  Py.startswith w s = true <-> exists t, s = w +:+ t.
Proof.
  revert s; induction w as [|c w IH]; intros s.
  - split; [intros _; now exists s | reflexivity].
  - destruct s as [|d s]; cbn [Py.startswith].
    + split; [discriminate | intros [t Ht]; discriminate].
    + rewrite andb_true_iff, Ascii.eqb_eq, IH. split.
      * intros [-> [t ->]]. now exists t.
      * intros [t Ht]. rewrite append_cons in Ht. injection Ht as -> ->.
        split; [reflexivity | now exists t].
Qed.

(** [isin] is the substring relation. *)
Lemma isin_spec (w s : string) :
  Py.isin w s = true <-> exists a b, s = a +:+ w +:+ b.
Proof.
  induction s as [|c s IH].
  - cbn [Py.isin]. rewrite orb_false_r, startswith_spec. split.
    + intros [t Ht]. now exists EmptyString, t.
    + intros [[|x a] [b Hab]]; [now exists b | discriminate].
  - cbn [Py.isin]. rewrite orb_true_iff, startswith_spec, IH. split.
    + intros [[t Ht] | [a [b Hab]]].
      * now exists EmptyString, t.
      * exists (String c a), b. now rewrite append_cons, Hab.
    + intros [[|x a] [b Hab]].
      * left. now exists b.
      * right. rewrite append_cons in Hab. injection Hab as _ ->. now exists a, b.
Qed.

Lemma isin_app_r (p w : string) : Py.isin w (p +:+ w) = true.
Proof. apply isin_spec. exists p, EmptyString. now rewrite append_empty_r. Qed.

Lemma isin_app_mid (p w q : string) : Py.isin w (p +:+ w +:+ q) = true.
Proof. apply isin_spec. now exists p, q. Qed.

Lemma isin_trans (a b c : string) :
  Py.isin a b = true -> Py.isin b c = true -> Py.isin a c = true.
Proof.
  rewrite !isin_spec. intros [x [y ->]] [u [v ->]].
  exists (u +:+ x), (y +:+ v). now rewrite !append_assoc.
Qed.

End StringFacts.

(** ** The intent classifier *)


Ltac split_ifs :=
  repeat match goal with
         | |- context [if ?b then _ else _] => destruct b
         end.















(** C10: the classifier gives a message and its lower-cased form the
    same label, in every variant. *)
Theorem C10_case_invariant (m : string) :
  SimpleMain.detect_task_type (Py.lower m) = SimpleMain.detect_task_type m /\
  ProperMain.detect_task_type (Py.lower m) = ProperMain.detect_task_type m /\
  AssistantAgent._detect_task_type (Py.lower m) = AssistantAgent._detect_task_type m /\
  Main.detect_task_type (Py.lower m) = Main.detect_task_type m.
Proof.
  unfold SimpleMain.detect_task_type, ProperMain.detect_task_type,
    AssistantAgent._detect_task_type, Main.detect_task_type.
  rewrite lower_idem. repeat split.
Qed.

(** ** The simplified entry points *)

Lemma truthy_dict_get {V} (d : gmap string V) (k : string) :
  d !! k <> None -> Py.truthy_dict d = true.
Proof.
  intros Hk. unfold Py.truthy_dict. apply negb_true_iff, bool_decide_eq_false.
  intros ->. now rewrite lookup_empty in Hk.
Qed.

(** A record whose key holds a non-empty needle is a non-empty dictionary. *)
Lemma truthy_dict_key (needle : string) (p : record) :
  needle <> EmptyString ->
  Py.isin needle (Py.get p "key" "") = true -> Py.truthy_dict p = true.
Proof.
  intros Hne Hin. apply (truthy_dict_get p "key"). intros Hnone.
  unfold Py.get in Hin. rewrite Hnone in Hin. simpl in Hin.
  destruct needle; [congruence | discriminate].
Qed.

Lemma mem_greeting (s : string) :
  Py.mem s ["hi"; "hello"; "hey"] = true <-> s = "hi" \/ s = "hello" \/ s = "hey".
Proof.
  unfold Py.mem. cbn [existsb]. rewrite !orb_true_iff, !String.eqb_eq. intuition discriminate.
Qed.



(** The fixed greeting is the text of the specification. *)
Lemma greeting_text :
  Py.startswith "Hello! I'm your LOOM AI Assistant" SimpleAI.greeting = true /\
  StartService.greeting = SimpleAI.greeting.
Proof. split; reflexivity. Qed.

Lemma simple_main_flags (request : UserInput) :
  let r := SimpleMain.orchestrate_ai_task request in
  r.(memory_updated) = true /\ In r.(confidence) simple_confidences.
Proof. simpl. split; [reflexivity | right; right; now left]. Qed.

Lemma simple_ai_flags (user_input : UserInput) :
  let r := SimpleAI.chat_endpoint user_input in
  r.(memory_updated) = true /\ In r.(confidence) simple_confidences.
Proof.
  unfold SimpleAI.chat_endpoint, simple_confidences.
  split_ifs; simpl; tauto.
Qed.

Lemma start_service_flags (user_input : UserInput) (r : AIResponse) :
  StartService.chat user_input = Some r ->
  r.(memory_updated) = true /\ In r.(confidence) simple_confidences.
Proof.
  unfold StartService.chat, simple_confidences.
  repeat match goal with
         | |- context [if ?b then _ else _] => destruct b
         | |- context [match ?o with Some _ => _ | None => _ end] => destruct o
         end;
    intros E; try discriminate; injection E as <-; simpl; tauto.
Qed.

(** C9 (failing input): start_service.py answers the request
    "tv series" of a user without preferences with Python's [None],
    a successful response that has neither flag. *)
Theorem C9_start_service_returns_none :
  StartService.chat {| message := "tv series"; user_id := 1; user_context_of := ∅ |} = None.
Proof. reflexivity. Qed.

(** ** The preference analyzer *)







(** start_service.py does not take a bare "series" for a TV-series
    question. *)
Lemma start_service_bare_series :
  let bb : record := {[ "key" := "tv_series"; "value" := "tv series: Breaking Bad" ]} in
  option_map response
    (StartService.chat {| message := "Which series?"; user_id := 1;
                          user_context_of := {[ "preferences" := [bb] ]} |})
  = Some "I don't have specific information about that. Could you ask me about your preferences, TV series, music albums, or images?".
Proof. vm_compute. reflexivity. Qed.



(** ** Tools: a failure becomes text *)

Lemma try_except_raise {A} (body : result A) (handler : string -> A) (e : string) :
  body = Raise e -> try_except body handler = handler e.
Proof. now intros ->. Qed.

(** Closes a goal [isin e (f ...) = true] where [f] wraps a body that
    raised [e] into its handler. *)
Ltac reported H :=
  match goal with
  | |- Py.isin _ (?f _) = true => unfold f
  | |- Py.isin _ (?f _ _) = true => unfold f
  | |- Py.isin _ (?f _ _ _) = true => unfold f
  | |- Py.isin _ (?f _ _ _ _) = true => unfold f
  end;
  rewrite (try_except_raise _ _ _ H); apply isin_app_r.

Lemma web_search_reported (requests_post : string -> option string -> string -> result http_response)
    (self : WebSearchTool.t) (query e : string) :
  WebSearchTool.search_body requests_post self query = Raise e ->
  WebSearchTool.search requests_post self query = "Web search error: " +:+ e.
Proof. intros H. unfold WebSearchTool.search. now rewrite H. Qed.

(** The HTTP call failing is one way for the body to raise. *)
Lemma web_search_post_raises (requests_post : string -> option string -> string -> result http_response)
    (self : WebSearchTool.t) (query e : string) :
  self.(WebSearchTool.is_available) = true ->
  requests_post (self.(WebSearchTool.base_url) +:+ "/search") self.(WebSearchTool.api_key) query
    = Raise e ->
  WebSearchTool.search_body requests_post self query = Raise e.
Proof. intros Ha Hp. unfold WebSearchTool.search_body. now rewrite Ha, Hp. Qed.

Lemma read_emails_reported (clock : Clock) (self : EmailReaderTool.t) (request e : string) :
  read_emails_operation clock self request = Raise e ->
  Py.isin e (EmailReaderTool.read_emails clock self request) = true.
Proof.
  unfold read_emails_operation, EmailReaderTool.read_emails. cbv zeta.
  split_ifs; intros H; cbn [try_except]; reported H.
Qed.

Lemma manage_calendar_reported (clock : Clock) (self : GoogleCalendarTool.t)
    (request e : string) :
  manage_calendar_operation clock self request = Raise e ->
  Py.isin e (GoogleCalendarTool.manage_calendar clock self request) = true.
Proof.
  unfold manage_calendar_operation, GoogleCalendarTool.manage_calendar. cbv zeta.
  split_ifs; intros H; cbn [try_except]; try discriminate; reported H.
Qed.

Lemma proper_web_search_reported (client : ProperMain.TavilyClient) (query e : string) :
  client.(ProperMain.tavily_search) query = Raise e ->
  ProperMain.web_search_tool (Some client) query = "Web search failed: " +:+ e.
Proof. intros H. unfold ProperMain.web_search_tool. now rewrite H. Qed.

(** The Gmail listing failing makes every request of [read_emails] raise. *)
Lemma read_emails_list_raises (clock : Clock) (svc : EmailReaderTool.GmailService)
    (self : EmailReaderTool.t) (request e : string) :
  self.(EmailReaderTool.service) = Some svc ->
  (forall q n, svc.(EmailReaderTool.messages_list) q n = Raise e) ->
  read_emails_operation clock self request = Raise e.
Proof.
  intros Hs Hl. unfold read_emails_operation. cbv zeta.
  split_ifs;
    unfold EmailReaderTool.get_unread_emails_body, EmailReaderTool.get_recent_emails_body,
      EmailReaderTool.search_emails_body, EmailReaderTool.get_important_emails_body,
      EmailReaderTool.get_email_summary_body;
    rewrite Hs, !Hl; reflexivity.
Qed.

Lemma tavily_falls_back (requests_post : string -> string -> string -> Z ->
                                         result TavilySearchTool.response)
    (self : TavilySearchTool.t) (key query : string) (max_results : Z) (e : string) :
  self.(TavilySearchTool.api_key) = Some key ->
  TavilySearchTool.search_body requests_post self key query max_results = Raise e ->
  TavilySearchTool.search requests_post self query max_results
  = TavilySearchTool._fallback_search query.
Proof.
  intros Hk H. unfold TavilySearchTool.search. rewrite Hk, H.
  now destruct (Py.truthy_str key).
Qed.

(** C3, as the specification states it, fails on the web search tool
    of python_ai_service/tools: when its HTTP call raises, the tool
    returns its fallback results, and no text of them holds the reason. *)
Lemma C3_tavily_fallback_hides_reason :
  let post : string -> string -> string -> Z -> result TavilySearchTool.response :=
    fun _ _ _ _ => Raise "Connection refused" in
  let tool := TavilySearchTool.__init__ {[ "TAVILY_API_KEY" := "tvly-key" ]} in
  TavilySearchTool.search_body post tool "tvly-key" "rome" 5 = Raise "Connection refused" /\
  TavilySearchTool.search post tool "rome" 5 = TavilySearchTool._fallback_search "rome" /\
  forallb (fun h =>
             negb (Py.isin "Connection refused" h.(TavilySearchTool.title) ||
                   Py.isin "Connection refused" h.(TavilySearchTool.url) ||
                   Py.isin "Connection refused" h.(TavilySearchTool.content) ||
                   Py.isin "Connection refused" h.(TavilySearchTool.published_date) ||
                   Py.isin "Connection refused" h.(TavilySearchTool.source)))
          (TavilySearchTool.search post tool "rome" 5) = true.
Proof. repeat split; vm_compute; reflexivity. Qed.

(** C3 (amended): when the guarded operation of a tool call raises an
    exception with text [e], the web search, e-mail and calendar tools
    of ai_assistant/tools return a string that contains [e], and the
    web search tool of python_ai_service/tools returns its fallback
    results; the calls are total functions, so nothing escapes them. *)
Theorem C3_tool_failure_reported (clock : Clock) (e : string) :
  (forall requests_post self query,
     WebSearchTool.search_body requests_post self query = Raise e ->
     Py.isin e (WebSearchTool.search requests_post self query) = true) /\
  (forall self request,
     read_emails_operation clock self request = Raise e ->
     Py.isin e (EmailReaderTool.read_emails clock self request) = true) /\
  (forall self request,
     manage_calendar_operation clock self request = Raise e ->
     Py.isin e (GoogleCalendarTool.manage_calendar clock self request) = true) /\
  (forall requests_post self key query max_results,
     self.(TavilySearchTool.api_key) = Some key ->
     TavilySearchTool.search_body requests_post self key query max_results = Raise e ->
     TavilySearchTool.search requests_post self query max_results
     = TavilySearchTool._fallback_search query).
Proof.
  split; [|split; [|split]].
  - intros requests_post self query H.
    rewrite (web_search_reported _ _ _ _ H). apply isin_app_r.
  - intros self request. apply read_emails_reported.
  - intros self request. apply manage_calendar_reported.
  - intros requests_post self key query max_results. apply tavily_falls_back.
Qed.

Lemma C3_tool_failure_reported_witness :
  let clock := {| now := 0; utcnow := 0; isoformat := fun _ => "1970-01-01T00:00:00";
                  strftime := fun _ _ => "1970/01/01" |} in
  let post : string -> option string -> string -> result http_response :=
    fun _ _ _ => Raise "Connection refused" in
  let web := WebSearchTool.__init__ {[ "TAVILY_API_KEY" := "tvly-key" ]} in
  let gmail := {| EmailReaderTool.messages_list := fun _ _ => Raise "Connection refused";
                  EmailReaderTool.messages_get := fun _ => Raise "Connection refused" |} in
  let mail := {| EmailReaderTool.credentials_path := Some "credentials.json";
                 EmailReaderTool.is_available := true;
                 EmailReaderTool.service := Some gmail |} in
  let calendar := {| GoogleCalendarTool.events_list := fun _ _ => Raise "Connection refused";
                     GoogleCalendarTool.events_insert := fun _ => Raise "Connection refused" |} in
  let cal := {| GoogleCalendarTool.credentials_path := Some "credentials.json";
                GoogleCalendarTool.is_available := true;
                GoogleCalendarTool.service := Some calendar |} in
  let tavily_post : string -> string -> string -> Z -> result TavilySearchTool.response :=
    fun _ _ _ _ => Raise "Connection refused" in
  let tavily := TavilySearchTool.__init__ {[ "TAVILY_API_KEY" := "tvly-key" ]} in
  Py.isin "Connection refused" (WebSearchTool.search post web "rome") = true /\
  Py.isin "Connection refused" (EmailReaderTool.read_emails clock mail "unread mail") = true /\
  Py.isin "Connection refused" (GoogleCalendarTool.manage_calendar clock cal "add lunch") = true /\
  TavilySearchTool.search tavily_post tavily "rome" 5 = TavilySearchTool._fallback_search "rome".
Proof.
  intros clock post web gmail mail calendar cal tavily_post tavily.
  destruct (C3_tool_failure_reported clock "Connection refused") as [W [E [G F]]].
  split; [apply W; vm_compute; reflexivity|].
  split; [apply E; vm_compute; reflexivity|].
  split; [apply G; vm_compute; reflexivity|].
  apply (F tavily_post tavily "tvly-key"); vm_compute; reflexivity.
Defined.

(** ** The memory store adapters *)

Section MemoryFacts.
Context {C : Type} `{Collection C} {T : Type} (str_float : T -> string).
Variable json_dumps : list string -> string.

Lemma search_memory_swallows (self : ChromaDBManager.t) (user_id : Z) (query : string)
    (n_results : Z) (e : string) :
  ChromaDBManager.search_memory_body self user_id query n_results = Raise e ->
  ChromaDBManager.search_memory self user_id query n_results = [].
Proof. intros E. unfold ChromaDBManager.search_memory. now rewrite E. Qed.

Lemma search_memory_query_raises (self : ChromaDBManager.t) (c : C) (user_id : Z)
    (query : string) (n_results : Z) (e : string) :
  self.(ChromaDBManager.collection) = Some c ->
  coll_query c query n_results user_id = Raise e ->
  ChromaDBManager.search_memory_body self user_id query n_results = Raise e.
Proof. intros Hc Hq. unfold ChromaDBManager.search_memory_body. now rewrite Hc, Hq. Qed.

Lemma store_memory_reports (c : C) (iso_now : string) (timestamp : T) (user_id : Z)
    (content : string) (metadata : option (gmap string meta_value)) (e : string) :
  Main.store_memory_body str_float c iso_now timestamp user_id content metadata = Raise e ->
  Main.store_memory str_float (Some c) iso_now timestamp user_id content metadata
  = (PyBool false, Some c).
Proof. intros E. unfold Main.store_memory. now rewrite E. Qed.

Lemma store_memory_success (c c' : C) (iso_now : string) (timestamp : T) (user_id : Z)
    (content : string) (metadata : option (gmap string meta_value)) :
  Main.store_memory_body str_float c iso_now timestamp user_id content metadata = Ok c' ->
  Main.store_memory str_float (Some c) iso_now timestamp user_id content metadata
  = (PyBool true, Some c').
Proof. intros E. unfold Main.store_memory. now rewrite E. Qed.

(** [store_conversation] gives [None], failure or not. *)
Lemma store_conversation_none (self : ChromaDBManager.t) (timestamp : T) (iso_now : string)
    (user_id : Z) (message response task_type : string) (tools_used : list string) :
  fst (ChromaDBManager.store_conversation str_float json_dumps self timestamp iso_now
         user_id message response task_type tools_used) = PyNone.
Proof.
  unfold ChromaDBManager.store_conversation.
  destruct (ChromaDBManager.collection self) as [c|]; [|reflexivity].
  now destruct (ChromaDBManager.store_conversation_body _ _ _ _ _ _ _ _ _ _).
Qed.

Lemma store_conversation_swallows (self : ChromaDBManager.t) (c : C) (timestamp : T)
    (iso_now : string) (user_id : Z) (message response task_type : string)
    (tools_used : list string) (e : string) :
  self.(ChromaDBManager.collection) = Some c ->
  ChromaDBManager.store_conversation_body str_float json_dumps c timestamp iso_now
    user_id message response task_type tools_used = Raise e ->
  ChromaDBManager.store_conversation str_float json_dumps self timestamp iso_now
    user_id message response task_type tools_used = (PyNone, self).
Proof. intros Hc E. unfold ChromaDBManager.store_conversation. now rewrite Hc, E. Qed.

End MemoryFacts.

(** C6, as the specification states it, fails on chromadb_utils.py:
    when the vector store refuses the write, [store_conversation]
    gives [None], not [False]. *)
Lemma C6_store_conversation_not_false :
  let self := {| ChromaDBManager.client := Some ();
                 ChromaDBManager.collection := Some Broken;
                 ChromaDBManager.persist_directory := "data/chromadb" |} in
  ChromaDBManager.store_conversation_body (pretty : Z -> string) (fun _ => "[]")
    Broken 1700000000%Z "2023-11-14T22:13:20" 1 "hi" "hello" "general_chat" []
  = Raise "connection refused" /\
  fst (ChromaDBManager.store_conversation (pretty : Z -> string) (fun _ => "[]")
         self 1700000000%Z "2023-11-14T22:13:20" 1 "hi" "hello" "general_chat" [])
  <> PyBool false.
Proof. split; [reflexivity | discriminate]. Qed.

(** C6 (amended): when the guarded vector-store call raises, the search
    of chromadb_utils.py returns the empty list, [store_memory] of
    main.py returns [False], and [store_conversation] of
    chromadb_utils.py returns [None] and leaves the manager as it was;
    the three are total, so no exception leaves the adapter. *)
Theorem C6_store_failure {C : Type} `{Collection C} {T : Type} (str_float : T -> string)
    (json_dumps : list string -> string) (c : C) (self : ChromaDBManager.t)
    (timestamp : T) (iso_now : string) (user_id : Z) (e : string) :
  self.(ChromaDBManager.collection) = Some c ->
  (forall query n_results,
     coll_query c query n_results user_id = Raise e ->
     ChromaDBManager.search_memory self user_id query n_results = []) /\
  (forall content metadata,
     Main.store_memory_body str_float c iso_now timestamp user_id content metadata = Raise e ->
     Main.store_memory str_float (Some c) iso_now timestamp user_id content metadata
     = (PyBool false, Some c)) /\
  (forall message response task_type tools_used,
     ChromaDBManager.store_conversation_body str_float json_dumps c timestamp iso_now
       user_id message response task_type tools_used = Raise e ->
     ChromaDBManager.store_conversation str_float json_dumps self timestamp iso_now
       user_id message response task_type tools_used = (PyNone, self)).
Proof.
  intros Hc. split; [|split].
  - intros query n_results Hq.
    eapply search_memory_swallows, search_memory_query_raises; eassumption.
  - intros content metadata. apply store_memory_reports.
  - intros message response task_type tools_used. now apply store_conversation_swallows.
Qed.

Lemma C6_store_failure_witness :
  let self := {| ChromaDBManager.client := Some ();
                 ChromaDBManager.collection := Some Broken;
                 ChromaDBManager.persist_directory := "data/chromadb" |} in
  ChromaDBManager.search_memory self 1 "hi" 5 = [] /\
  Main.store_memory (pretty : Z -> string) (Some Broken) "2023-11-14T22:13:20"
    1700000000%Z 1 "User: hi" None = (PyBool false, Some Broken) /\
  ChromaDBManager.store_conversation (pretty : Z -> string) (fun _ => "[]") self
    1700000000%Z "2023-11-14T22:13:20" 1 "hi" "hello" "general_chat" [] = (PyNone, self).
Proof.
  intros self.
  destruct (C6_store_failure (pretty : Z -> string) (fun _ => "[]") Broken self
              1700000000%Z "2023-11-14T22:13:20" 1 "connection refused")
    as [S [M V]]; [reflexivity|].
  split; [apply S; reflexivity|].
  split; [apply M; reflexivity|].
  apply V; reflexivity.
Defined.

(** ** The health endpoint *)

Section StartUp.
Context {Service : Type} (w : GoogleWorld Service).

(** With no cached token, start-up needs the client-secrets file. *)
Lemma obtain_service_needs_file (token_file api version path : string) :
  w.(files) !! token_file = None ->
  w.(files) !! path = None ->
  exists e, obtain_service w token_file api version (Some path) = Raise e.
Proof.
  intros Htoken Hpath. unfold obtain_service.
  destruct (import_google w) as [[]|e]; [|now exists e].
  eexists. cbn [mbind result_bind]. unfold path_exists.
  case_bool_decide; [congruence|].
  cbn [mbind result_bind]. unfold run_flow, from_client_secrets_file, read_file.
  rewrite Hpath. reflexivity.
Qed.

End StartUp.

Lemma web_search_unavailable (environ : gmap string string) :
  environ !! "TAVILY_API_KEY" = None ->
  WebSearchTool.check_status (WebSearchTool.__init__ environ) = false.
Proof.
  intros E. unfold WebSearchTool.check_status, WebSearchTool.__init__. cbn.
  rewrite E. apply bool_decide_eq_false_2. tauto.
Qed.

Lemma calendar_unavailable_env (environ : gmap string string)
    (w : GoogleWorld GoogleCalendarTool.CalendarService) :
  environ !! "GOOGLE_CREDENTIALS_PATH" = None ->
  GoogleCalendarTool.check_status (GoogleCalendarTool.__init__ environ w) = false.
Proof.
  intros E. unfold GoogleCalendarTool.check_status, GoogleCalendarTool.__init__.
  rewrite E. reflexivity.
Qed.

Lemma email_unavailable_env (environ : gmap string string)
    (w : GoogleWorld EmailReaderTool.GmailService) :
  environ !! "GOOGLE_CREDENTIALS_PATH" = None ->
  EmailReaderTool.check_status (EmailReaderTool.__init__ environ w) = false.
Proof.
  intros E. unfold EmailReaderTool.check_status, EmailReaderTool.__init__.
  rewrite E. reflexivity.
Qed.

Lemma calendar_unavailable_file (environ : gmap string string)
    (w : GoogleWorld GoogleCalendarTool.CalendarService) (path : string) :
  environ !! "GOOGLE_CREDENTIALS_PATH" = Some path ->
  w.(files) !! path = None -> w.(files) !! "token.json" = None ->
  GoogleCalendarTool.check_status (GoogleCalendarTool.__init__ environ w) = false.
Proof.
  intros E Hpath Htoken.
  unfold GoogleCalendarTool.check_status, GoogleCalendarTool.__init__.
  rewrite E. cbn [GoogleCalendarTool.is_available].
  rewrite bool_decide_eq_true_2 by discriminate.
  unfold GoogleCalendarTool._initialize_service. cbn [GoogleCalendarTool.credentials_path].
  destruct (obtain_service_needs_file w "token.json" "calendar" "v3" path Htoken Hpath)
    as [e ->].
  reflexivity.
Qed.

Lemma email_unavailable_file (environ : gmap string string)
    (w : GoogleWorld EmailReaderTool.GmailService) (path : string) :
  environ !! "GOOGLE_CREDENTIALS_PATH" = Some path ->
  w.(files) !! path = None -> w.(files) !! "gmail_token.json" = None ->
  EmailReaderTool.check_status (EmailReaderTool.__init__ environ w) = false.
Proof.
  intros E Hpath Htoken.
  unfold EmailReaderTool.check_status, EmailReaderTool.__init__.
  rewrite E. cbn [EmailReaderTool.is_available].
  rewrite bool_decide_eq_true_2 by discriminate.
  unfold EmailReaderTool._initialize_service. cbn [EmailReaderTool.credentials_path].
  destruct (obtain_service_needs_file w "gmail_token.json" "gmail" "v1" path Htoken Hpath)
    as [e ->].
  reflexivity.
Qed.

Lemma health_tools (environ : gmap string string)
    (cw : GoogleWorld GoogleCalendarTool.CalendarService)
    (gw : GoogleWorld EmailReaderTool.GmailService) (o c : bool) :
  let t := (AssistantMain.health_check environ cw gw o c).(AssistantMain.tools) in
  t !! "web_search" = Some (WebSearchTool.check_status (WebSearchTool.__init__ environ)) /\
  t !! "calendar" = Some (GoogleCalendarTool.check_status
                            (GoogleCalendarTool.__init__ environ cw)) /\
  t !! "email" = Some (EmailReaderTool.check_status (EmailReaderTool.__init__ environ gw)).
Proof.
  cbn [AssistantMain.health_check AssistantMain.tools].
  repeat split; simplify_map_eq; reflexivity.
Qed.

(** C7, as the specification states it, fails on simple_main.py: with
    an empty environment its health endpoint still reports Tavily and
    the Google APIs as "configured". *)
Lemma C7_simple_main_always_configured :
  (∅ : gmap string string) !! "TAVILY_API_KEY" = None /\
  (∅ : gmap string string) !! "GOOGLE_CREDENTIALS_PATH" = None /\
  SimpleMain.health_check ∅ !! "tavily" = Some "configured" /\
  SimpleMain.health_check ∅ !! "google_apis" = Some "configured".
Proof. repeat split; vm_compute; reflexivity. Qed.

(** C7 (amended): the health endpoint of ai_assistant/main.py reports
    web_search as false when TAVILY_API_KEY is not set, and calendar and
    email as false when GOOGLE_CREDENTIALS_PATH is not set, or is set to
    a file that does not exist while no token file is cached. *)
Theorem C7_health_reports_missing (environ : gmap string string)
    (cw : GoogleWorld GoogleCalendarTool.CalendarService)
    (gw : GoogleWorld EmailReaderTool.GmailService) (ollama_status chromadb_status : bool) :
  let t := (AssistantMain.health_check environ cw gw ollama_status chromadb_status)
             .(AssistantMain.tools) in
  (environ !! "TAVILY_API_KEY" = None -> t !! "web_search" = Some false) /\
  (environ !! "GOOGLE_CREDENTIALS_PATH" = None ->
   t !! "calendar" = Some false /\ t !! "email" = Some false) /\
  (forall path, environ !! "GOOGLE_CREDENTIALS_PATH" = Some path ->
     (cw.(files) !! path = None -> cw.(files) !! "token.json" = None ->
      t !! "calendar" = Some false) /\
     (gw.(files) !! path = None -> gw.(files) !! "gmail_token.json" = None ->
      t !! "email" = Some false)).
Proof.
  intros t.
  destruct (health_tools environ cw gw ollama_status chromadb_status) as [Hw [Hc He]].
  fold t in Hw, Hc, He. rewrite Hw, Hc, He. split; [|split].
  - intros E. now rewrite web_search_unavailable.
  - intros E. now rewrite calendar_unavailable_env, email_unavailable_env.
  - intros path E. split; intros Hp Ht.
    + now rewrite (calendar_unavailable_file environ cw path).
    + now rewrite (email_unavailable_file environ gw path).
Qed.

Lemma C7_health_reports_missing_witness :
  let unset : gmap string string := ∅ in
  let environ : gmap string string := {[ "GOOGLE_CREDENTIALS_PATH" := "credentials.json" ]} in
  let t0 := (AssistantMain.health_check unset bare_world bare_world true true)
              .(AssistantMain.tools) in
  let t := (AssistantMain.health_check environ bare_world bare_world true true)
             .(AssistantMain.tools) in
  (t0 !! "web_search" = Some false /\ t0 !! "calendar" = Some false /\
   t0 !! "email" = Some false) /\
  (t !! "web_search" = Some false /\ t !! "calendar" = Some false /\
   t !! "email" = Some false).
Proof.
  intros unset environ t0 t. split.
  - destruct (C7_health_reports_missing unset bare_world bare_world true true)
      as [W [G _]].
    split; [apply W; reflexivity|]. apply G; reflexivity.
  - destruct (C7_health_reports_missing environ bare_world bare_world true true)
      as [W [_ G]].
    split; [apply W; reflexivity|].
    destruct (G "credentials.json") as [Gc Ge]; [reflexivity|].
    split; [apply Gc; reflexivity | apply Ge; reflexivity].
Defined.

(** ** Record identifiers *)










(** What a store that keeps everything records for a write is the
    identifier above. *)
Lemma store_conversation_writes_doc_id {T : Type} (str_float : T -> string)
    (json_dumps : list string -> string) (c : list entry) (timestamp : T) (iso_now : string)
    (user_id : Z) (message response task_type : string) (tools_used : list string) :
  exists e,
    ChromaDBManager.store_conversation_body str_float json_dumps c timestamp iso_now
      user_id message response task_type tools_used = Ok (c ++ [e]) /\
    e.(e_id) = ChromaDBManager.doc_id str_float user_id timestamp.
Proof. eexists. split; reflexivity. Qed.

(** * Further properties of the code *)

(** ** Classifier: how the variants relate and what each label means *)


Ltac split_any :=
  repeat match goal with
         | |- context [Py.any_in ?l ?s] =>
             let E := fresh "E" in destruct (Py.any_in l s) eqn:E
         end.

(** X1: the classifier of assistant_agent.py is the one of
    proper_main.py without its last test: it answers general_chat where
    proper_main.py answers memory_retrieval, and the same label
    everywhere else. *)
Theorem X1_agent_label_from_proper (m : string) :
  AssistantAgent._detect_task_type m =
  if String.eqb (ProperMain.detect_task_type m) "memory_retrieval"
  then "general_chat" else ProperMain.detect_task_type m.
Proof.
  unfold AssistantAgent._detect_task_type, ProperMain.detect_task_type.
  cbv zeta. split_any; reflexivity.
Qed.



(** ** Chat endpoints *)

Lemma found_tv_truthy (needle : string) (preferences : list record) (p : record) :
  needle <> EmptyString ->
  find (fun p : record => Py.isin needle (Py.get p "key" "")) preferences = Some p ->
  Py.truthy_dict p = true.
Proof.
  intros Hn Hf. apply find_some in Hf as [_ Hk].
  now apply (truthy_dict_key needle).
Qed.

(** X4: start_service.py answers with Python's [None] exactly when the
    branch the message selects finds nothing to report: no record for a
    TV-series, album or singers question, no media for an image or
    gallery question.  Greetings and unmatched messages always get a
    response. *)
Theorem X4_start_service_none_iff (user_input : UserInput) :
  let m := Py.lower user_input.(message) in
  let preferences := Py.get user_input.(user_context_of) "preferences" [] in
  let has (needle : string) :=
    find (fun p : record => Py.isin needle (Py.get p "key" "")) preferences in
  StartService.chat user_input = None <->
  if Py.isin "tv series" m || Py.isin "favorite series" m then has "tv_series" = None
  else if Py.isin "album" m then has "favorite_album" = None
  else if Py.isin "singers" m then has "favorite_singers" = None
  else if Py.isin "image" m || Py.isin "gallery" m
  then Py.get user_input.(user_context_of) "media" [] = []
  else False.
Proof.
  intros m preferences has. unfold StartService.chat. fold m. fold preferences.
  unfold has.
  destruct (Py.isin "tv series" m || Py.isin "favorite series" m).
  { destruct (find _ preferences) as [p|] eqn:Hf; [|tauto].
    rewrite (found_tv_truthy "tv_series" preferences p) by (discriminate || assumption).
    split; discriminate. }
  destruct (Py.isin "album" m).
  { destruct (find _ preferences) as [p|] eqn:Hf; [|tauto].
    rewrite (found_tv_truthy "favorite_album" preferences p) by (discriminate || assumption).
    split; discriminate. }
  destruct (Py.isin "singers" m).
  { destruct (find _ preferences) as [p|] eqn:Hf; [|tauto].
    rewrite (found_tv_truthy "favorite_singers" preferences p)
      by (discriminate || assumption).
    split; discriminate. }
  destruct (Py.isin "image" m || Py.isin "gallery" m).
  { destruct (Py.get (user_context_of user_input) "media" []); simpl;
      [tauto | split; discriminate]. }
  destruct (Py.mem m ["hi"; "hello"; "hey"]); split; (discriminate || tauto).
Qed.

(** ** Preference analyzers *)

(** X5: a question about one singer ("singer?") that is not a
    TV-series question is answered "I don't know your favorite singer."
    whatever is stored, favourite singers included: simple_ai.py when
    the message is no album question either, assistant_agent.py as soon
    as some preference exists. *)
Theorem X5_single_singer_unknown (message : string) (preferences : list record)
    (context : user_context) :
  let m := Py.lower message in
  Py.isin "tv series" m || Py.isin "series" m = false ->
  Py.isin "singer?" m = true ->
  (Py.isin "album" m = false ->
   SimpleAI.analyze_preferences message preferences =
   Some "I don't know your favorite singer.") /\
  (Py.get context "preferences" [] <> [] ->
   AssistantAgent.analyze_parsed message context = "I don't know your favorite singer.").
Proof.
  intros m Htv Hs. split.
  - intros Ha. unfold SimpleAI.analyze_preferences. fold m.
    rewrite Htv, Ha, Hs. rewrite andb_false_r. reflexivity.
  - intros Hp. unfold AssistantAgent.analyze_parsed. fold m.
    destruct (Py.get context "preferences" []) as [|p l]; [congruence|].
    cbn [Py.truthy_list negb]. rewrite Htv, Hs. rewrite andb_false_r. reflexivity.
Qed.

Lemma X5_single_singer_unknown_witness :
  let singers : record :=
    {[ "key" := "favorite_singers"; "value" := "singers: Adele, Sade" ]} in
  SimpleAI.analyze_preferences "Who is my favorite singer?" [singers] =
    Some "I don't know your favorite singer." /\
  AssistantAgent.analyze_parsed "Who is my favorite singer?" {[ "preferences" := [singers] ]}
    = "I don't know your favorite singer.".
Proof.
  intros singers.
  destruct (X5_single_singer_unknown "Who is my favorite singer?" [singers]
              {[ "preferences" := [singers] ]}) as [S A];
    [reflexivity | reflexivity |].
  split; [apply S; reflexivity | apply A; vm_compute; discriminate].
Defined.

(** Every field that [split] returns occurs in the text that was split. *)
Lemma split_go_parts (sep : string) (s : string) :
  forall (skip : nat) (acc : list ascii) (part : string),
    In part (Py.split_go sep skip acc s) ->
    (exists u t v, s = u +:+ t +:+ v /\ part = Py.rev_string acc t /\
                   (skip = 0 -> u = EmptyString)) \/
    Py.isin part s = true.
Proof.
  induction s as [|c s IH]; intros skip acc part Hin.
  - destruct Hin as [<- | []]. left.
    exists EmptyString, EmptyString, EmptyString. repeat split.
  - cbn [Py.split_go] in Hin. destruct skip as [|k].
    + destruct (Py.startswith sep (String c s)).
      * destruct Hin as [<- | Hin].
        { left. exists EmptyString, EmptyString, (String c s). repeat split. }
        right. apply IH in Hin as [[u [t [v [-> [-> _]]]]] | Hin].
        { apply isin_spec. exists (String c u), v. reflexivity. }
        cbn [Py.isin]. rewrite Hin. apply orb_true_r.
      * apply IH in Hin as [[u [t [v [Hs [-> Hu]]]]] | Hin].
        { left. rewrite (Hu eq_refl) in Hs. subst s.
          exists EmptyString, (String c t), v. repeat split. }
        right. cbn [Py.isin]. rewrite Hin. apply orb_true_r.
    + apply IH in Hin as [[u [t [v [-> [-> _]]]]] | Hin].
      * left. exists (String c u), t, v. repeat split. discriminate.
      * right. cbn [Py.isin]. rewrite Hin. apply orb_true_r.
Qed.

Lemma split_parts (sep s part : string) :
  In part (Py.split sep s) -> Py.isin part s = true.
Proof.
  intros Hin. apply split_go_parts in Hin as [[u [t [v [-> [-> Hu]]]]] | Hin];
    [|assumption].
  rewrite (Hu eq_refl). apply isin_spec. exists EmptyString, v. reflexivity.
Qed.

Lemma not_in_part (marker s part : string) :
  Py.isin marker s = false -> Py.isin part s = true -> Py.isin marker part = false.
Proof.
  intros Hs Hp. destruct (Py.isin marker part) eqn:E; [|reflexivity].
  now rewrite (isin_trans _ _ _ E Hp) in Hs.
Qed.

Lemma split_go_nonempty (sep s : string) (skip : nat) (acc : list ascii) :
  Py.split_go sep skip acc s <> [].
Proof.
  revert skip acc. induction s as [|c s IH]; intros skip acc; cbn [Py.split_go].
  - discriminate.
  - destruct skip; [|apply IH]. destruct (Py.startswith sep (String c s));
      [discriminate | apply IH].
Qed.

(** A text that contains the separator splits into at least two fields. *)
Lemma split_go_second (sep s : string) (acc : list ascii) :
  sep <> EmptyString -> Py.isin sep s = true ->
  exists a b rest, Py.split_go sep 0 acc s = a :: b :: rest.
Proof.
  intros Hsep. revert acc. induction s as [|c s IH]; intros acc Hin.
  - destruct sep; [congruence | discriminate].
  - cbn [Py.split_go]. cbn [Py.isin] in Hin.
    destruct (Py.startswith sep (String c s)).
    + destruct (Py.split_go sep (String.length sep - 1) [] s) as [|b rest] eqn:E.
      * now apply split_go_nonempty in E.
      * now exists (Py.rev_string acc EmptyString), b, rest.
    + apply IH. exact Hin.
Qed.

Lemma item_second (sep s : string) :
  sep <> EmptyString -> Py.isin sep s = true ->
  exists field, item (Py.split sep s) 1 = Ok field.
Proof.
  intros Hsep Hin. destruct (split_go_second sep s [] Hsep Hin) as [a [b [rest E]]].
  exists b. unfold Py.split. now rewrite E.
Qed.

Section PlainQuery.
Variable py_int : string -> result Z.
Variable json_loads : string -> result user_context.

(** Parts without the markers [user_id:] and [context:] leave the
    context of the parse as it is. *)
Lemma parse_parts_keeps_context (parts : list string) (st : AssistantAgent.parsed) :
  Forall (fun part => Py.isin "user_id:" part = false /\
                      Py.isin "context:" part = false) parts ->
  exists st', AssistantAgent.parse_parts py_int json_loads st parts = Ok st' /\
              st'.(AssistantAgent.p_context) = st.(AssistantAgent.p_context).
Proof.
  intros H. revert st. induction H as [|part parts [Hu Hc] _ IH]; intros st.
  - now exists st.
  - cbn [AssistantAgent.parse_parts]. unfold AssistantAgent.parse_part.
    rewrite Hu, Hc. destruct (Py.isin "query:" part) eqn:Hq.
    + destruct (item_second "query:" part) as [field ->]; [discriminate | exact Hq |].
      cbn [mbind result_bind].
      destruct (IH {| AssistantAgent.p_user_id := st.(AssistantAgent.p_user_id);
                      AssistantAgent.p_actual_query := field;
                      AssistantAgent.p_context := st.(AssistantAgent.p_context) |})
        as [st' [E Hctx]].
      exists st'. split; [exact E | exact Hctx].
    + cbn [mbind result_bind]. apply IH.
Qed.

End PlainQuery.

(** X6: called with a plain query, one that holds neither [user_id:]
    nor [context:], the preference analyzer of assistant_agent.py has no
    context to look into and answers that it has no information,
    whatever [int] and [json.loads] would do. *)
Theorem X6_plain_query_has_no_context (py_int : string -> result Z)
    (json_loads : string -> result user_context) (query : string) :
  Py.isin "user_id:" query = false ->
  Py.isin "context:" query = false ->
  AssistantAgent._analyze_preferences py_int json_loads query =
  "I don't have information about your preferences yet.".
Proof.
  intros Hu Hc. unfold AssistantAgent._analyze_preferences. cbv zeta.
  destruct (parse_parts_keeps_context py_int json_loads (Py.split "|" query)
              {| AssistantAgent.p_user_id := 1; AssistantAgent.p_actual_query := query;
                 AssistantAgent.p_context := ∅ |}) as [st [-> Hctx]].
  - apply List.Forall_forall. intros part Hin. apply split_parts in Hin.
    split; eapply not_in_part; eassumption.
  - cbn [mbind result_bind try_except]. unfold AssistantAgent.analyze_parsed.
    rewrite Hctx. reflexivity.
Qed.

Lemma X6_plain_query_has_no_context_witness :
  AssistantAgent._analyze_preferences (fun _ => Raise "invalid literal")
    (fun _ => Raise "Expecting value") "What is my favorite TV series? | query: album"
  = "I don't have information about your preferences yet.".
Proof. apply X6_plain_query_has_no_context; reflexivity. Defined.

(** ** Tools: what happens without a key, a service, a good answer *)

(** X7: without TAVILY_API_KEY the web search tool of ai_assistant
    sends nothing: whatever the network would answer, the result is the
    "not available" text with the query. *)
Theorem X7_web_search_without_key
    (requests_post : string -> option string -> string -> result http_response)
    (environ : gmap string string) (query : string) :
  environ !! "TAVILY_API_KEY" = None ->
  WebSearchTool.search requests_post (WebSearchTool.__init__ environ) query =
  "Web search not available. Query was: " +:+ query.
Proof.
  intros E. unfold WebSearchTool.search, WebSearchTool.search_body, WebSearchTool.__init__.
  cbn [WebSearchTool.is_available]. now rewrite E.
Qed.

Lemma X7_web_search_without_key_witness :
  WebSearchTool.search (fun _ _ _ => Raise "unreachable")
    (WebSearchTool.__init__ {[ "HOME" := "/root" ]}) "rome"
  = "Web search not available. Query was: rome".
Proof. apply (X7_web_search_without_key _ {[ "HOME" := "/root" ]} "rome"). reflexivity. Defined.

(** X8: how the web search tool of ai_assistant reads a response.  A
    status other than 200 is reported with its number and the body is
    not decoded; a 200 whose body has no results, or an empty list of
    them, gives "No results found". *)
Theorem X8_web_search_response
    (requests_post : string -> option string -> string -> result http_response)
    (self : WebSearchTool.t) (query : string) (response : http_response) :
  self.(WebSearchTool.is_available) = true ->
  requests_post (self.(WebSearchTool.base_url) +:+ "/search")
                self.(WebSearchTool.api_key) query = Ok response ->
  (response.(status_code) <> 200%Z ->
   WebSearchTool.search requests_post self query =
   "Web search failed with status " +:+ Py.str_int response.(status_code)) /\
  (forall data, response.(status_code) = 200%Z -> response.(json) = Ok data ->
     Py.get data "results" [] = [] ->
     WebSearchTool.search requests_post self query =
     "No results found for '" +:+ query +:+ "'").
Proof.
  intros Ha Hp. unfold WebSearchTool.search, WebSearchTool.search_body.
  rewrite Ha, Hp. cbn [negb mbind result_bind]. split.
  - intros Hs. apply Z.eqb_neq in Hs. now rewrite Hs.
  - intros data Hs Hj Hr. rewrite Hs, Hj. cbn [mbind result_bind]. now rewrite Hr.
Qed.

Lemma X8_web_search_response_witness :
  let post : string -> option string -> string -> result http_response :=
    fun _ _ _ => Ok {| status_code := 503; json := Raise "not JSON" |} in
  WebSearchTool.search post (WebSearchTool.__init__ {[ "TAVILY_API_KEY" := "k" ]}) "rome"
  = "Web search failed with status 503".
Proof.
  intros post.
  apply (X8_web_search_response post (WebSearchTool.__init__ {[ "TAVILY_API_KEY" := "k" ]})
           "rome" {| status_code := 503; json := Raise "not JSON" |});
    [reflexivity | reflexivity | discriminate].
Defined.

Lemma take_str_length (n : nat) (s : string) : String.length (Py.take_str n s) <= n.
Proof.
  revert s. induction n as [|n IH]; intros [|c s]; simpl; try lia.
  specialize (IH s). lia.
Qed.

Lemma append_length (a b : string) :
  String.length (a +:+ b) = String.length a + String.length b.
Proof. induction a as [|c a IH]; [reflexivity|]. rewrite append_cons. simpl. now rewrite IH. Qed.

(** X9: the web search tool of python_ai_service returns its fallback
    result, one entry marked "fallback", without consulting the network
    when the key is missing or empty, and also when the answer has a
    status other than 200. *)
Theorem X9_tavily_fallback
    (requests_post : string -> string -> string -> Z -> result TavilySearchTool.response)
    (self : TavilySearchTool.t) (query : string) (max_results : Z) :
  (self.(TavilySearchTool.api_key) = None \/ self.(TavilySearchTool.api_key) = Some "" ->
   TavilySearchTool.search requests_post self query max_results =
   TavilySearchTool._fallback_search query) /\
  (forall key response,
     self.(TavilySearchTool.api_key) = Some key ->
     requests_post self.(TavilySearchTool.base_url) key query max_results = Ok response ->
     response.(TavilySearchTool.status_code) <> 200%Z ->
     TavilySearchTool.search requests_post self query max_results =
     TavilySearchTool._fallback_search query) /\
  map TavilySearchTool.source (TavilySearchTool._fallback_search query) = ["fallback"].
Proof.
  split; [|split; [|reflexivity]].
  - intros [E | E]; unfold TavilySearchTool.search; now rewrite E.
  - intros key response Hk Hp Hs. unfold TavilySearchTool.search. rewrite Hk.
    destruct (Py.truthy_str key); [|reflexivity].
    unfold TavilySearchTool.search_body. rewrite Hp. cbn [mbind result_bind].
    apply Z.eqb_neq in Hs. now rewrite Hs.
Qed.

Lemma X9_tavily_fallback_witness :
  TavilySearchTool.search (fun _ _ _ _ => Raise "unreachable")
    (TavilySearchTool.__init__ {[ "TAVILY_API_KEY" := "" ]}) "rome" 5
  = TavilySearchTool._fallback_search "rome".
Proof.
  apply (X9_tavily_fallback (fun _ _ _ _ => Raise "unreachable")
           (TavilySearchTool.__init__ {[ "TAVILY_API_KEY" := "" ]}) "rome" 5).
  right. reflexivity.
Defined.


Lemma header_value_errors (name dflt : string) (headers : list record) (e : string) :
  EmailReaderTool.header_value name dflt headers = Raise e ->
  e = "'name'" \/ e = "'value'".
Proof.
  induction headers as [|h headers IH]; cbn [EmailReaderTool.header_value];
    [discriminate|].
  unfold subscript. destruct (h !! "name") as [n|]; cbn [mbind result_bind].
  - destruct (String.eqb n name); [|exact IH].
    destruct (h !! "value"); [discriminate | intros [= <-]; now right].
  - intros [= <-]. now left.
Qed.

(** X11: parsing a message never fails and the preview it gives is at
    most 103 characters long; a message without payload is rendered as
    a "Parse Error" entry that names the missing key. *)
Theorem X11_parse_email_preview (message : EmailReaderTool.gmail_message) :
  String.length (EmailReaderTool._parse_email message).(EmailReaderTool.preview) <= 103 /\
  (message.(EmailReaderTool.payload) = None ->
   EmailReaderTool._parse_email message =
   {| EmailReaderTool.subject := "Parse Error"; EmailReaderTool.sender := "Unknown";
      EmailReaderTool.date := "Unknown";
      EmailReaderTool.preview := "Error parsing email: 'payload'" |}).
Proof.
  split.
  - unfold EmailReaderTool._parse_email.
    destruct (EmailReaderTool.payload message) as [headers|];
      cbn [mbind result_bind try_except EmailReaderTool.preview]; [|simpl; lia].
    assert (forall e, e = "'name'" \/ e = "'value'" ->
              String.length ("Error parsing email: " +:+ e) <= 103) as Herr.
    { intros e [-> | ->]; simpl; lia. }
    destruct (EmailReaderTool.header_value "Subject" _ headers) as [s|e] eqn:E1;
      cbn [mbind result_bind try_except EmailReaderTool.preview];
      [|apply Herr; eapply header_value_errors; eassumption].
    destruct (EmailReaderTool.header_value "From" _ headers) as [f|e] eqn:E2;
      cbn [mbind result_bind try_except EmailReaderTool.preview];
      [|apply Herr; eapply header_value_errors; eassumption].
    destruct (EmailReaderTool.header_value "Date" _ headers) as [d|e] eqn:E3;
      cbn [mbind result_bind try_except EmailReaderTool.preview];
      [|apply Herr; eapply header_value_errors; eassumption].
    destruct (Nat.ltb 100 _) eqn:El.
    + rewrite append_length. change (String.length "...") with 3.
      pose proof (take_str_length 100 (default "" (EmailReaderTool.snippet message))). lia.
    + apply Nat.ltb_ge in El. lia.
  - intros E. unfold EmailReaderTool._parse_email. now rewrite E.
Qed.

Lemma X11_parse_email_preview_witness :
  (EmailReaderTool._parse_email
     {| EmailReaderTool.payload := None; EmailReaderTool.snippet := Some "hello" |})
    .(EmailReaderTool.subject) = "Parse Error".
Proof.
  rewrite (proj2 (X11_parse_email_preview
                    {| EmailReaderTool.payload := None;
                       EmailReaderTool.snippet := Some "hello" |}) eq_refl).
  reflexivity.
Defined.

(** X12: a Google tool without a service never reaches the API.  Every
    request to the e-mail tool gets "Gmail not available..."; every
    request to the calendar tool gets "Google Calendar not
    available...", or the fixed text of the update and the delete stub.
    That is the state of both tools when GOOGLE_CREDENTIALS_PATH is not
    set. *)
Theorem X12_no_service_no_call (clock : Clock) (request : string) :
  (forall self, self.(EmailReaderTool.service) = None ->
     EmailReaderTool.read_emails clock self request = EmailReaderTool.not_available) /\
  (forall self, self.(GoogleCalendarTool.service) = None ->
     In (GoogleCalendarTool.manage_calendar clock self request)
        [GoogleCalendarTool.not_available;
         "Event update functionality not fully implemented yet.";
         "Event deletion functionality not fully implemented yet."]) /\
  (forall environ gw cw, environ !! "GOOGLE_CREDENTIALS_PATH" = None ->
     (EmailReaderTool.__init__ environ gw).(EmailReaderTool.service) = None /\
     (GoogleCalendarTool.__init__ environ cw).(GoogleCalendarTool.service) = None).
Proof.
  split; [|split].
  - intros self Hs. unfold EmailReaderTool.read_emails. cbv zeta.
    unfold EmailReaderTool.get_unread_emails, EmailReaderTool.get_unread_emails_body,
      EmailReaderTool.get_recent_emails, EmailReaderTool.get_recent_emails_body,
      EmailReaderTool.search_emails, EmailReaderTool.search_emails_body,
      EmailReaderTool.get_important_emails, EmailReaderTool.get_important_emails_body,
      EmailReaderTool.get_email_summary, EmailReaderTool.get_email_summary_body.
    rewrite Hs. split_ifs; reflexivity.
  - intros self Hs. unfold GoogleCalendarTool.manage_calendar. cbv zeta.
    unfold GoogleCalendarTool.list_events, GoogleCalendarTool.list_events_body,
      GoogleCalendarTool.create_event, GoogleCalendarTool.create_event_body,
      GoogleCalendarTool.check_availability, GoogleCalendarTool.check_availability_body,
      GoogleCalendarTool.update_event, GoogleCalendarTool.delete_event.
    rewrite Hs. split_ifs; simpl; tauto.
  - intros environ gw cw E.
    unfold EmailReaderTool.__init__, GoogleCalendarTool.__init__. rewrite E.
    split; reflexivity.
Qed.

Lemma X12_no_service_no_call_witness :
  let clock := {| now := 0; utcnow := 0; isoformat := fun _ => "1970-01-01T00:00:00";
                  strftime := fun _ _ => "1970/01/01" |} in
  EmailReaderTool.read_emails clock (EmailReaderTool.__init__ ∅ bare_world) "unread"
  = "Gmail not available. Please configure credentials.".
Proof.
  intros clock.
  destruct (X12_no_service_no_call clock "unread") as [E [_ I]].
  apply E. apply (I ∅ bare_world (@bare_world GoogleCalendarTool.CalendarService)).
  reflexivity.
Defined.

Ltac settle_iffs :=
  repeat split; intros; try discriminate; try congruence;
  try (do 2 eexists; split; [reflexivity | eassumption]);
  repeat match goal with
         | H : exists _, _ |- _ => destruct H
         | H : _ /\ _ |- _ => destruct H
         end;
  congruence.

(** X13: once constructed, a Google tool reports itself available
    exactly when it holds a service, and it holds one exactly when the
    variable is set and the start-up went through. *)
Theorem X13_available_iff_service (environ : gmap string string)
    (cw : GoogleWorld GoogleCalendarTool.CalendarService)
    (gw : GoogleWorld EmailReaderTool.GmailService) :
  let cal := GoogleCalendarTool.__init__ environ cw in
  let mail := EmailReaderTool.__init__ environ gw in
  (GoogleCalendarTool.check_status cal = true <->
   cal.(GoogleCalendarTool.service) <> None) /\
  (EmailReaderTool.check_status mail = true <-> mail.(EmailReaderTool.service) <> None) /\
  (cal.(GoogleCalendarTool.service) <> None <->
   exists path svc, environ !! "GOOGLE_CREDENTIALS_PATH" = Some path /\
                    obtain_service cw "token.json" "calendar" "v3" (Some path) = Ok svc) /\
  (mail.(EmailReaderTool.service) <> None <->
   exists path svc, environ !! "GOOGLE_CREDENTIALS_PATH" = Some path /\
                    obtain_service gw "gmail_token.json" "gmail" "v1" (Some path) = Ok svc).
Proof.
  cbv zeta.
  unfold GoogleCalendarTool.check_status, GoogleCalendarTool.__init__,
    GoogleCalendarTool._initialize_service, EmailReaderTool.check_status,
    EmailReaderTool.__init__, EmailReaderTool._initialize_service.
  destruct (environ !! "GOOGLE_CREDENTIALS_PATH") as [path|];
    cbn [GoogleCalendarTool.is_available GoogleCalendarTool.credentials_path
         GoogleCalendarTool.service EmailReaderTool.is_available
         EmailReaderTool.credentials_path EmailReaderTool.service].
  - rewrite !bool_decide_eq_true_2 by discriminate.
    destruct (obtain_service cw _ _ _ _) as [svc|e] eqn:Ec;
      destruct (obtain_service gw _ _ _ _) as [svc'|e'] eqn:Eg;
      cbn [mbind result_bind try_except GoogleCalendarTool.is_available
           GoogleCalendarTool.service EmailReaderTool.is_available EmailReaderTool.service];
      settle_iffs.
  - rewrite !bool_decide_eq_false_2 by tauto.
    cbn [GoogleCalendarTool.is_available GoogleCalendarTool.service
         EmailReaderTool.is_available EmailReaderTool.service].
    settle_iffs.
Qed.

Lemma cached_token_skips_flow {Service : Type} (w : GoogleWorld Service)
    (token_file api version content : string) (credentials_path : option string)
    (c : Credentials) :
  w.(import_google) = Ok () ->
  w.(files) !! token_file = Some content ->
  w.(parse_authorized_user) content = Ok c ->
  c.(valid) = true ->
  obtain_service w token_file api version credentials_path = w.(build) api version c.
Proof.
  intros Hi Hf Hp Hv. unfold obtain_service. rewrite Hi. cbn [mbind result_bind].
  unfold path_exists. rewrite bool_decide_eq_true_2 by (rewrite Hf; discriminate).
  unfold from_authorized_user_file, read_file. rewrite Hf. cbn [mbind result_bind].
  rewrite Hp. cbn [mbind result_bind]. now rewrite Hv.
Qed.

(** X14: a valid cached token is all the start-up of a Google tool
    needs.  When the client libraries import, the token file holds
    valid credentials and the API object can be built, the tool is
    available as soon as GOOGLE_CREDENTIALS_PATH is set to anything: the
    file it names is not read and may be missing. *)
Theorem X14_cached_token_suffices (environ : gmap string string) (path : string)
    (cw : GoogleWorld GoogleCalendarTool.CalendarService)
    (gw : GoogleWorld EmailReaderTool.GmailService) :
  environ !! "GOOGLE_CREDENTIALS_PATH" = Some path ->
  (forall content c svc,
     cw.(import_google) = Ok () -> cw.(files) !! "token.json" = Some content ->
     cw.(parse_authorized_user) content = Ok c -> c.(valid) = true ->
     cw.(build) "calendar" "v3" c = Ok svc ->
     GoogleCalendarTool.__init__ environ cw =
     {| GoogleCalendarTool.credentials_path := Some path;
        GoogleCalendarTool.is_available := true;
        GoogleCalendarTool.service := Some svc |}) /\
  (forall content c svc,
     gw.(import_google) = Ok () -> gw.(files) !! "gmail_token.json" = Some content ->
     gw.(parse_authorized_user) content = Ok c -> c.(valid) = true ->
     gw.(build) "gmail" "v1" c = Ok svc ->
     EmailReaderTool.__init__ environ gw =
     {| EmailReaderTool.credentials_path := Some path;
        EmailReaderTool.is_available := true;
        EmailReaderTool.service := Some svc |}).
Proof.
  intros E. split; intros content c svc Hi Hf Hp Hv Hb.
  - unfold GoogleCalendarTool.__init__, GoogleCalendarTool._initialize_service.
    rewrite E. cbn [GoogleCalendarTool.is_available GoogleCalendarTool.credentials_path].
    rewrite bool_decide_eq_true_2 by discriminate.
    rewrite (cached_token_skips_flow cw _ _ _ content _ c Hi Hf Hp Hv), Hb. reflexivity.
  - unfold EmailReaderTool.__init__, EmailReaderTool._initialize_service.
    rewrite E. cbn [EmailReaderTool.is_available EmailReaderTool.credentials_path].
    rewrite bool_decide_eq_true_2 by discriminate.
    rewrite (cached_token_skips_flow gw _ _ _ content _ c Hi Hf Hp Hv), Hb. reflexivity.
Qed.

Lemma X14_cached_token_suffices_witness :
  let svc := {| GoogleCalendarTool.events_list := fun _ _ => Ok None;
                GoogleCalendarTool.events_insert := fun _ => Raise "read only" |} in
  let gsvc := {| EmailReaderTool.messages_list := fun _ _ => Raise "offline";
                 EmailReaderTool.messages_get := fun _ => Raise "offline" |} in
  let world {S : Type} (s : S) : GoogleWorld S :=
    {| import_google := Ok ();
       files := {[ "token.json" := "{token}"; "gmail_token.json" := "{token}" ]};
       parse_authorized_user := fun _ =>
         Ok {| valid := true; expired := false; refresh_token := None |};
       refresh := fun _ => Raise "no network";
       parse_client_secrets := fun _ => Raise "invalid client secrets";
       run_local_server := Raise "no browser";
       write_file := fun _ _ => Raise "read-only file system";
       to_json := fun _ => "{}";
       build := fun _ _ _ => Ok s |} in
  let environ : gmap string string := {[ "GOOGLE_CREDENTIALS_PATH" := "missing.json" ]} in
  (world svc).(files) !! "missing.json" = None /\
  GoogleCalendarTool.check_status (GoogleCalendarTool.__init__ environ (world svc)) = true /\
  EmailReaderTool.check_status (EmailReaderTool.__init__ environ (world gsvc)) = true.
Proof.
  intros svc gsvc world environ. split; [reflexivity|].
  destruct (X14_cached_token_suffices environ "missing.json" (world _ svc) (world _ gsvc))
    as [Hc Hg]; [reflexivity|].
  split.
  - rewrite (Hc "{token}" {| valid := true; expired := false; refresh_token := None |} svc);
      reflexivity.
  - rewrite (Hg "{token}" {| valid := true; expired := false; refresh_token := None |} gsvc);
      reflexivity.
Defined.

Lemma for_each_raises {A B} (f : A -> result B) (l : list A) (x : A) (e : string) :
  In x l -> f x = Raise e ->
  (forall y e', f y = Raise e' -> e' = e) ->
  for_each f l = Raise e.
Proof.
  intros Hin Hx Hall. induction l as [|a l IH]; [destruct Hin|].
  cbn [for_each]. destruct (f a) as [b|e'] eqn:Ea; cbn [mbind result_bind].
  - destruct Hin as [-> | Hin]; [congruence|]. now rewrite (IH Hin).
  - now rewrite (Hall a e' Ea).
Qed.

(** X15: one malformed event spoils the listing.  When the calendar
    answers with events of which one has no start, [list_events]
    returns "Failed to list events: 'start'" and shows none of them. *)
Theorem X15_event_without_start (clock : Clock) (self : GoogleCalendarTool.t)
    (svc : GoogleCalendarTool.CalendarService) (days : Z)
    (events : list GoogleCalendarTool.event) (bad : GoogleCalendarTool.event) :
  self.(GoogleCalendarTool.service) = Some svc ->
  svc.(GoogleCalendarTool.events_list)
    (clock.(isoformat) clock.(utcnow) +:+ "Z")
    (clock.(isoformat) (clock.(utcnow) + timedelta_days days)%Z +:+ "Z")
  = Ok (Some events) ->
  In bad events -> bad.(GoogleCalendarTool.ev_start) = None ->
  GoogleCalendarTool.list_events clock self days = "Failed to list events: 'start'".
Proof.
  intros Hs Hl Hin Hbad.
  unfold GoogleCalendarTool.list_events, GoogleCalendarTool.list_events_body.
  rewrite Hs, Hl. cbn [mbind result_bind default].
  destruct events as [|ev events]; [destruct Hin|]. cbn [Py.truthy_list negb].
  erewrite (for_each_raises _ (ev :: events) bad "'start'"); [reflexivity | exact Hin | |].
  - now rewrite Hbad.
  - intros y e'. unfold GoogleCalendarTool.when.
    destruct (GoogleCalendarTool.ev_start y); cbn [mbind result_bind];
      [discriminate | intros [= <-]; reflexivity].
Qed.

Lemma X15_event_without_start_witness :
  let clock := {| now := 0; utcnow := 0; isoformat := fun _ => "1970-01-01T00:00:00";
                  strftime := fun _ _ => "1970/01/01" |} in
  let good := {| GoogleCalendarTool.ev_start := Some {[ "date" := "2025-01-11" ]};
                 GoogleCalendarTool.ev_end := None;
                 GoogleCalendarTool.ev_summary := Some "Lunch" |} in
  let bad := {| GoogleCalendarTool.ev_start := None; GoogleCalendarTool.ev_end := None;
                GoogleCalendarTool.ev_summary := Some "Broken" |} in
  let svc := {| GoogleCalendarTool.events_list := fun _ _ => Ok (Some [good; bad]);
                GoogleCalendarTool.events_insert := fun _ => Raise "read only" |} in
  let self := {| GoogleCalendarTool.credentials_path := Some "credentials.json";
                 GoogleCalendarTool.is_available := true;
                 GoogleCalendarTool.service := Some svc |} in
  GoogleCalendarTool.manage_calendar clock self "show my week"
  = "Failed to list events: 'start'".
Proof.
  intros clock good bad svc self.
  change (GoogleCalendarTool.manage_calendar clock self "show my week")
    with (GoogleCalendarTool.list_events clock self 7).
  apply (X15_event_without_start clock self svc 7 [good; bad] bad);
    [reflexivity | reflexivity | right; left; reflexivity | reflexivity].
Defined.

(** ** The memory manager of ai_assistant *)

(** X16: a manager whose database could not be opened stays inert:
    its status is false, every search gives the empty list, and storing
    a conversation or a context does nothing and returns [None]. *)
Theorem X16_failed_start_is_inert {C : Type} `{Collection C} {T : Type}
    (str_float : T -> string) (json_dumps : list string -> string)
    (dumps_context : user_context -> string)
    (connect : string -> result C) (persist_directory e : string) :
  connect persist_directory = Raise e ->
  let self := ChromaDBManager.__init__ connect persist_directory in
  ChromaDBManager.check_status self = false /\
  (forall user_id query n_results,
     ChromaDBManager.search_memory self user_id query n_results = []) /\
  (forall timestamp iso_now user_id message response task_type tools_used,
     ChromaDBManager.store_conversation str_float json_dumps self timestamp iso_now
       user_id message response task_type tools_used = (PyNone, self)) /\
  (forall timestamp iso_now user_id context,
     ChromaDBManager.store_user_context str_float dumps_context self timestamp iso_now
       user_id context = (PyNone, self)).
Proof.
  intros Hc self.
  assert (self = {| ChromaDBManager.client := None; ChromaDBManager.collection := None;
                    ChromaDBManager.persist_directory := persist_directory |}) as ->.
  { unfold self, ChromaDBManager.__init__, ChromaDBManager._initialize_chromadb.
    cbn [ChromaDBManager.persist_directory]. now rewrite Hc. }
  repeat split.
Qed.

Lemma X16_failed_start_is_inert_witness :
  let connect : string -> result broken_store := fun _ => Raise "database is locked" in
  ChromaDBManager.search_memory (ChromaDBManager.__init__ connect "data/chromadb") 1 "hi" 5
  = [].
Proof.
  intros connect.
  apply (X16_failed_start_is_inert (pretty : Z -> string) (fun _ => "[]") (fun _ => "{}")
           connect "data/chromadb" "database is locked" eq_refl).
Defined.

Lemma item_middle {A} (p l : list A) (x : A) (n : nat) :
  n = length p -> item (p ++ x :: l) n = Ok x.
Proof. intros ->. unfold item, Py.index. now rewrite list_lookup_middle. Qed.

Lemma enumerate_from {A} (l : list A) (k i : nat) (x : A) :
  l !! i = Some x -> In (k + i, x) (combine (seq k (length l)) l).
Proof.
  revert k i. induction l as [|a l IH]; intros k [|i] Hx; try discriminate.
  - injection Hx as ->. left. f_equal. lia.
  - right. replace (k + S i) with (S k + i) by lia. now apply IH.
Qed.

Lemma enumerate_lookup {A} (l : list A) (i : nat) (x : A) :
  l !! i = Some x -> In (i, x) (enumerate l).
Proof. apply (enumerate_from l 0 i x). Qed.

Lemma item_out {A} (l : list A) (n : nat) :
  length l <= n -> item l n = Raise "list index out of range".
Proof. intros Hn. unfold item, Py.index. now rewrite lookup_ge_None_2. Qed.

Section SearchRows.
Context {A B : Type}.

(** Reading two rows along the documents, index by index. *)
Lemma for_each_rows (docs : list string) :
  forall (ms pm : list A) (ds pd : list B) (hit : string -> A -> B -> ChromaDBManager.memory_hit),
    length ms = length docs -> length ds = length docs -> length pd = length pm ->
    for_each
      (fun '(i, doc) =>
         m ← item (pm ++ ms) i; d ← item (pd ++ ds) i; Ok (hit doc m d))
      (combine (seq (length pm) (length docs)) docs)
    = Ok (map (fun '(doc, m, d) => hit doc m d) (combine (combine docs ms) ds)).
Proof.
  induction docs as [|doc docs IH]; intros ms pm ds pd hit Hm Hd Hp; [reflexivity|].
  destruct ms as [|m ms]; [discriminate|]. destruct ds as [|d ds]; [discriminate|].
  cbn [length seq combine for_each map].
  rewrite (item_middle pm ms m (length pm) eq_refl).
  rewrite (item_middle pd ds d (length pm)) by (symmetry; exact Hp).
  cbn [mbind result_bind].
  specialize (IH ms (pm ++ [m]) ds (pd ++ [d]) hit).
  rewrite <- !app_assoc in IH. cbn [app] in IH.
  replace (length (pm ++ [m])) with (S (length pm)) in IH
    by (rewrite length_app; cbn [length]; lia).
  rewrite IH; [reflexivity | | |].
  - now injection Hm.
  - now injection Hd.
  - rewrite length_app. cbn [length]. lia.
Qed.

End SearchRows.

(** X17: what a search makes of the store's answer.  When the answer
    holds one row of documents with a metadata and a distance for each,
    the result lists them in the same order, each with its own metadata
    and distance; when the row of metadata is shorter than the row of
    documents, the result is the empty list. *)
Theorem X17_search_rows {C : Type} `{Collection C} (self : ChromaDBManager.t) (c : C)
    (user_id : Z) (query : string) (n_results : Z) (r : query_result)
    (docs : list string) (ms : list (gmap string meta_value)) (ds : list Q) :
  self.(ChromaDBManager.collection) = Some c ->
  coll_query c query n_results user_id = Ok r ->
  r.(qr_documents) = [docs] -> r.(qr_metadatas) = [ms] -> r.(qr_distances) = [ds] ->
  (length ms = length docs -> length ds = length docs ->
   ChromaDBManager.search_memory self user_id query n_results =
   map (fun '(doc, m, d) =>
          {| ChromaDBManager.content := doc; ChromaDBManager.metadata := m;
             ChromaDBManager.distance := d |})
       (combine (combine docs ms) ds)) /\
  (length ms < length docs ->
   ChromaDBManager.search_memory self user_id query n_results = []).
Proof.
  intros Hc Hq Hdocs Hms Hds.
  unfold ChromaDBManager.search_memory, ChromaDBManager.search_memory_body.
  rewrite Hc, Hq. cbn [mbind result_bind]. rewrite Hdocs, Hms, Hds.
  cbn [Py.truthy_list negb]. change (item [docs] 0) with (Ok docs).
  cbn [mbind result_bind]. split.
  - intros Hm Hd. unfold enumerate.
    pose proof (for_each_rows docs ms [] ds []
                  (fun doc m d => {| ChromaDBManager.content := doc;
                                     ChromaDBManager.metadata := m;
                                     ChromaDBManager.distance := d |}) Hm Hd eq_refl) as E.
    cbn [app length] in E.
    match goal with
    | |- try_except ?x _ = _ =>
        match type of E with ?y = _ => change x with y end
    end.
    now rewrite E.
  - intros Hlt.
    pose proof (lookup_lt_is_Some_2 docs (length ms) Hlt) as [doc Hdoc].
    erewrite (for_each_raises _ (enumerate docs) (length ms, doc)
                "list index out of range"); [reflexivity | | |].
    + now apply enumerate_lookup.
    + cbv beta iota. change (item [ms] 0) with (Ok ms). cbn [mbind result_bind].
      now rewrite (item_out ms (length ms)) by lia.
    + intros [i doc'] e'.
      change (item [ms] 0) with (Ok ms). change (item [ds] 0) with (Ok ds).
      cbn [mbind result_bind]. unfold item, Py.index.
      destruct (ms !! i); cbn [mbind result_bind]; [|congruence].
      destruct (ds !! i); cbn [mbind result_bind]; congruence.
Qed.

Lemma X17_search_rows_witness :
  let kept : list entry :=
    [ {| e_id := "user_1_1.5"; e_document := "User: hi";
         e_metadata := {[ "user_id" := MInt 1 ]} |};
      {| e_id := "user_2_2.5"; e_document := "User: ho";
         e_metadata := {[ "user_id" := MInt 2 ]} |} ] in
  let self := {| ChromaDBManager.client := Some (); ChromaDBManager.collection := Some kept;
                 ChromaDBManager.persist_directory := "data/chromadb" |} in
  map ChromaDBManager.content (ChromaDBManager.search_memory self 1 "hi" 5) = ["User: hi"].
Proof.
  intros kept self.
  pose (m1 := ({[ "user_id" := MInt 1 ]} : gmap string meta_value)).
  pose (r := {| qr_ids := [["user_1_1.5"]]; qr_documents := [["User: hi"]];
                qr_metadatas := [[m1]]; qr_distances := [[0%Q]] |}).
  assert (coll_query kept "hi" 5%Z 1%Z = Ok r) as Hq by (vm_compute; reflexivity).
  destruct (X17_search_rows self kept 1 "hi" 5 r ["User: hi"] [m1] [0%Q]
              eq_refl Hq eq_refl eq_refl eq_refl) as [Ha _].
  rewrite Ha by reflexivity. reflexivity.
Defined.

(** ** The memory functions of python_ai_service/main.py *)

(** X18: what [store_memory] writes.  On a store that keeps what it is
    given, the call answers [True] and adds one record: the content as
    its document, "memory_<user>_<timestamp>" as its identifier, and a
    metadata map in which the caller's entries win over the user id and
    the timestamp that the function puts in. *)
Theorem X18_store_memory_record {T : Type} (str_float : T -> string)
    (kept : list entry) (iso_now : string) (timestamp : T) (user_id : Z)
    (content : string) (metadata : option (gmap string meta_value)) :
  exists written,
    Main.store_memory str_float (Some kept) iso_now timestamp user_id content metadata
    = (PyBool true, Some (kept ++ [written])) /\
    written.(e_document) = content /\
    written.(e_id) = Main.memory_id str_float user_id timestamp /\
    (forall k v, default ∅ metadata !! k = Some v -> written.(e_metadata) !! k = Some v) /\
    (default ∅ metadata !! "user_id" = None ->
     written.(e_metadata) !! "user_id" = Some (MInt user_id)) /\
    (default ∅ metadata !! "timestamp" = None ->
     written.(e_metadata) !! "timestamp" = Some (MStr iso_now)).
Proof.
  eexists. split; [reflexivity|]. cbn [e_document e_id e_metadata].
  split; [reflexivity|]. split; [reflexivity|]. split; [|split].
  - intros k v Hk. now apply lookup_union_Some_l.
  - intros Hn. rewrite lookup_union_r by exact Hn. now simplify_map_eq.
  - intros Hn. rewrite lookup_union_r by exact Hn. now simplify_map_eq.
Qed.

Lemma X18_store_memory_record_witness :
  exists written,
    Main.store_memory (pretty : Z -> string) (Some []) "2023-11-14T22:13:20"
      1700000000%Z 7 "User: hi" (Some {[ "user_id" := MInt 8 ]})
    = (PyBool true, Some [written]) /\
    written.(e_metadata) !! "user_id" = Some (MInt 8) /\
    written.(e_metadata) !! "timestamp" = Some (MStr "2023-11-14T22:13:20").
Proof.
  destruct (X18_store_memory_record (pretty : Z -> string) [] "2023-11-14T22:13:20"
              1700000000%Z 7 "User: hi" (Some {[ "user_id" := MInt 8 ]}))
    as [written [E [_ [_ [Hk [_ Ht]]]]]].
  exists written. split; [exact E|]. split.
  - apply Hk. reflexivity.
  - apply Ht. reflexivity.
Defined.

(** ** The orchestrator of python_ai_service/main.py *)

Section MainRouting.
Context {C : Type} `{Collection C} {T : Type} (str_float : T -> string).
Variable repr_documents : list (list string) -> string.

Lemma fallback_raises_iff (message : string) (context : user_context) (task_type : string) :
  (exists e, Main.generate_intelligent_fallback message context task_type = Raise e) <->
  task_type = "web_search" /\
  exists note rest, Py.get context "notes" [] = note :: rest /\ note !! "title" = None.
Proof.
  unfold Main.generate_intelligent_fallback.
  destruct (String.eqb_spec task_type "web_search") as [->|Hne].
  - destruct (Py.get context "notes" []) as [|note rest] eqn:E.
    + cbn. split; [intros [e [=]] | intros [_ (n & r & [=] & _)]].
    + cbn [Py.truthy_list]. unfold item, Py.index. cbn [lookup list_lookup mbind result_bind].
      unfold subscript. destruct (note !! "title") eqn:Et; cbn.
      * split; [intros [e [=]] | intros [_ (n & r & [= <- <-] & Hn)]; congruence].
      * split; [intros _; split; [reflexivity|]; now exists note, rest | intros _; eauto].
  - split.
    + intros [e He]. repeat (destruct (String.eqb _ _) in He); discriminate.
    + intros [-> _]. contradiction.
Qed.

Lemma fallback_raises_title (message : string) (context : user_context)
    (task_type e : string) :
  Main.generate_intelligent_fallback message context task_type = Raise e -> e = "'title'".
Proof.
  unfold Main.generate_intelligent_fallback.
  destruct (String.eqb _ "web_search"); [|repeat (destruct (String.eqb _ _)); discriminate].
  destruct (Py.get _ "notes" _) as [|note rest]; [discriminate|].
  cbn [Py.truthy_list]. unfold item, Py.index.
  cbn [lookup list_lookup mbind result_bind]. unfold subscript.
  destruct (note !! "title"); cbn; [discriminate|]. now intros [= <-].
Qed.

Lemma store_memory_bool (memory_collection : option C) (iso_now : string) (timestamp : T)
    (user_id : Z) (content : string) (metadata : option (gmap string meta_value)) :
  exists b, fst (Main.store_memory str_float memory_collection iso_now timestamp user_id
                   content metadata) = PyBool b.
Proof.
  unfold Main.store_memory. destruct memory_collection as [c|]; [|now exists false].
  destruct (Main.store_memory_body _ _ _ _ _ _ _); cbn; eauto.
Qed.

Lemma tools_include_memory (task_type : string) :
  In "memory_retrieval" (Main.get_tools_for_task task_type).
Proof.
  unfold Main.get_tools_for_task, Py.get.
  destruct (_ !! task_type) as [l|] eqn:E; [|now left].
  repeat (apply lookup_insert_Some in E as [[_ <-]|[_ E]]; [cbn; tauto|]).
  apply lookup_singleton_Some in E as [_ <-]. cbn. tauto.
Qed.

(** X19: when the orchestration endpoint of main.py answers HTTP 500.
    With the language model switched off, as the constructor leaves it,
    the request fails exactly when its label is web_search and the first
    note of the context has no title; the detail is then
    "AI processing error: 'title'" and nothing has been written to the
    store. *)
Theorem X19_orchestrate_500_iff (memory_collection : option C) (iso_now : string)
    (timestamp : T) (request : UserInput) :
  let outcome :=
    Main.orchestrate_ai_task str_float repr_documents Main.OllamaLLM__init__
      memory_collection iso_now timestamp request in
  ((exists status detail, fst outcome = HTTPException status detail) <->
   Main.detect_task_type request.(message) = "web_search" /\
   exists note rest,
     Py.get request.(user_context_of) "notes" [] = note :: rest /\ note !! "title" = None) /\
  (forall status detail,
     fst outcome = HTTPException status detail ->
     status = 500%Z /\ detail = "AI processing error: 'title'" /\
     snd outcome = memory_collection).
Proof.
  cbn zeta. unfold Main.orchestrate_ai_task, Main.route_task,
    Main.generate_contextual_response.
  cbn [Main.available Main.OllamaLLM__init__].
  pose proof (fallback_raises_iff request.(message) request.(user_context_of)
                (Main.detect_task_type request.(message))) as Hiff.
  destruct (Main.generate_intelligent_fallback _ _ _) as [answer|e] eqn:Ef.
  - match goal with
    | |- context [Main.store_memory ?f ?m ?i ?t ?u ?c ?md] =>
        destruct (store_memory_bool m i t u c md) as [b Hb];
        destruct (Main.store_memory f m i t u c md) as [stored mc']
    end.
    cbn in Hb. subst stored. cbn. split.
    + split; [intros (st & d & [=]) | intros Hw; apply Hiff in Hw as [e' [=]]].
    + intros st d [=].
  - cbn. split.
    + split; [intros _; apply Hiff; eauto | intros _; eauto].
    + intros st d [= <- <-]. apply fallback_raises_title in Ef as ->. auto.
Qed.

(** X20: [memory_updated] tells whether the exchange was written.  In
    a response of the orchestration endpoint of main.py the confidence
    is 0.85, the tools include memory_retrieval, and [memory_updated]
    is true exactly when a collection exists and accepted the record
    "User: <message>\nAI: <response>"; when it is false the store is as
    it was. *)
Theorem X20_memory_updated_reflects_write (memory_collection mc' : option C)
    (iso_now : string) (timestamp : T) (request : UserInput) (r : AIResponse) :
  Main.orchestrate_ai_task str_float repr_documents Main.OllamaLLM__init__
    memory_collection iso_now timestamp request = (Returned r, mc') ->
  r.(confidence) = 85 # 100 /\
  r.(task_type) = Main.detect_task_type request.(message) /\
  In "memory_retrieval" r.(tools_used) /\
  (r.(memory_updated) = true <->
   exists c c',
     memory_collection = Some c /\ mc' = Some c' /\
     Main.store_memory_body str_float c iso_now timestamp request.(user_id)
       ("User: " +:+ request.(message) +:+ nl +:+ "AI: " +:+ r.(response))
       (Some {[ "task_type" := MStr r.(task_type) ]}) = Ok c') /\
  (r.(memory_updated) = false -> mc' = memory_collection).
Proof.
  unfold Main.orchestrate_ai_task, Main.route_task, Main.generate_contextual_response.
  cbn [Main.available Main.OllamaLLM__init__].
  destruct (Main.generate_intelligent_fallback _ _ _) as [answer|e] eqn:Ef;
    [|cbn; discriminate].
  unfold Main.store_memory.
  destruct memory_collection as [c|].
  - destruct (Main.store_memory_body _ _ _ _ _ _ _) as [c'|e] eqn:Eb; cbn;
      intros [= <- <-]; cbn [confidence task_type tools_used memory_updated response].
    + split; [reflexivity|]. split; [reflexivity|]. split; [|split].
      * apply tools_include_memory.
      * split; [intros _; exists c, c'; now rewrite Eb | reflexivity].
      * discriminate.
    + split; [reflexivity|]. split; [reflexivity|]. split; [|split].
      * apply tools_include_memory.
      * split; [discriminate | intros (c0 & c1 & [= <-] & _ & Hb); congruence].
      * reflexivity.
  - cbn. intros [= <- <-]; cbn [confidence task_type tools_used memory_updated response].
    split; [reflexivity|]. split; [reflexivity|]. split; [|split].
    + apply tools_include_memory.
    + split; [discriminate | intros (c0 & c1 & [=] & _)].
    + reflexivity.
Qed.

End MainRouting.

Lemma X20_memory_updated_reflects_write_witness :
  let request := {| message := "hello"; user_id := 7; user_context_of := ∅ |} in
  let r := {| response := "I'm here to help you with your digital life management. What would you like to work on today? I can help with search, calendar, email, or analyze images.";
              confidence := 85 # 100; task_type := "general_chat";
              memory_updated := false; tools_used := ["memory_retrieval"] |} in
  Main.orchestrate_ai_task (pretty : Z -> string) (fun _ => "[]") Main.OllamaLLM__init__
    (Some Broken) "2023-11-14T22:13:20" 1700000000%Z request = (Returned r, Some Broken) /\
  In "memory_retrieval" r.(tools_used).
Proof.
  intros request r.
  assert (Main.orchestrate_ai_task (pretty : Z -> string) (fun _ => "[]")
            Main.OllamaLLM__init__ (Some Broken) "2023-11-14T22:13:20" 1700000000%Z request
          = (Returned r, Some Broken)) as E by reflexivity.
  split; [exact E|].
  exact (proj1 (proj2 (proj2 (X20_memory_updated_reflects_write
           (pretty : Z -> string) (fun _ => "[]") (Some Broken) (Some Broken)
           "2023-11-14T22:13:20" 1700000000%Z request r E)))).
Defined.

(** ** The orchestrator of python_ai_service/proper_main.py *)

Lemma proper_label_not_error (m : string) : ProperMain.detect_task_type m <> "error".
Proof. unfold ProperMain.detect_task_type. split_ifs; discriminate. Qed.

Lemma executor_built_iff (ollama_llm : option ProperOrchestrator.Ollama)
    (create_react_agent : ProperOrchestrator.Ollama -> result unit)
    (new_executor : result ProperOrchestrator.AgentExecutor) :
  is_Some (ProperOrchestrator.agent_executor
             (ProperOrchestrator.__init__ ollama_llm create_react_agent new_executor)) <->
  exists llm agent executor,
    ollama_llm = Some llm /\ create_react_agent llm = Ok agent /\
    new_executor = Ok executor.
Proof.
  unfold ProperOrchestrator.__init__, ProperOrchestrator.initialize_agent.
  destruct ollama_llm as [llm|]; cbn.
  - destruct (create_react_agent llm) as [agent|e] eqn:Ea; cbn.
    + destruct new_executor as [executor|e]; cbn.
      * split; [intros _; now exists llm, agent, executor | intros _; eauto].
      * split; [intros [x [=]] | intros (l & a & x & _ & _ & [=])].
    + split; [intros [x [=]] | intros (l & a & x & [= <-] & Hc & _); congruence].
  - split; [intros [x [=]] | intros (l & a & x & [=] & _)].
Qed.

Section ProperRouting.
Context {C : Type} `{Collection C}.
Variable dumps_context : user_context -> string.

Lemma proper_store_memory_none (memory_collection : option C) (iso_id iso_stamp : string)
    (user_id : Z) (content : string) (metadata : option (gmap string meta_value)) :
  fst (ProperOrchestrator.store_memory memory_collection iso_id iso_stamp user_id
         content metadata) = PyNone.
Proof.
  unfold ProperOrchestrator.store_memory. destruct memory_collection as [c|]; [|reflexivity].
  cbn. now destruct (coll_add _ _ _ _).
Qed.

Lemma proper_store_memory_refused (memory_collection : option C) (iso_id iso_stamp : string)
    (user_id : Z) (content : string) (metadata : option (gmap string meta_value)) :
  (forall c, memory_collection = Some c ->
             forall document m id, exists e, coll_add c document m id = Raise e) ->
  snd (ProperOrchestrator.store_memory memory_collection iso_id iso_stamp user_id
         content metadata) = memory_collection.
Proof.
  intros Hr. unfold ProperOrchestrator.store_memory.
  destruct memory_collection as [c|]; [|reflexivity]. cbn.
  match goal with |- context [coll_add c ?d ?m ?i] =>
    destruct (Hr c eq_refl d m i) as [e ->] end.
  reflexivity.
Qed.

(** X21: a proper_main.py orchestrator without agent executor answers
    every request with the error response.  The executor exists only
    when the language model, the agent and the executor were all
    constructed; the response has the task type error exactly when it
    does not exist, and then it is the same for every request, message
    "I encountered an error processing your request: 'LoomAIOrchestrator'
    object has no attribute 'agent_executor'", and nothing is written. *)
Theorem X21_no_executor_no_answer (ollama_llm : option ProperOrchestrator.Ollama)
    (create_react_agent : ProperOrchestrator.Ollama -> result unit)
    (new_executor : result ProperOrchestrator.AgentExecutor)
    (tavily_client : option ProperMain.TavilyClient) (memory_collection : option C)
    (iso_id iso_stamp : string) (request : UserInput) :
  let self := ProperOrchestrator.__init__ ollama_llm create_react_agent new_executor in
  let outcome :=
    ProperOrchestrator.route_task dumps_context self ollama_llm tavily_client
      memory_collection iso_id iso_stamp request in
  ((fst outcome).(task_type) = "error" <->
   ~ exists llm agent executor,
       ollama_llm = Some llm /\ create_react_agent llm = Ok agent /\
       new_executor = Ok executor) /\
  ((fst outcome).(task_type) = "error" ->
   outcome =
   ({| response := "I encountered an error processing your request: 'LoomAIOrchestrator' object has no attribute 'agent_executor'";
       confidence := 5 # 10; task_type := "error"; memory_updated := false;
       tools_used := ["error_handler"] |}, memory_collection)).
Proof.
  intros self outcome.
  pose proof (executor_built_iff ollama_llm create_react_agent new_executor) as Hb.
  fold self in Hb. subst outcome.
  unfold ProperOrchestrator.route_task, ProperOrchestrator.get_agent_executor.
  destruct (ProperOrchestrator.agent_executor self) as [executor|].
  - cbn [mbind result_bind try_except].
    assert (forall out : AIResponse * option C,
              (fst out).(task_type) = ProperMain.detect_task_type request.(message) ->
              ((fst out).(task_type) = "error" <->
               ~ exists llm agent x, ollama_llm = Some llm /\
                   create_react_agent llm = Ok agent /\ new_executor = Ok x) /\
              ((fst out).(task_type) = "error" -> out = 
                ({| response := "I encountered an error processing your request: 'LoomAIOrchestrator' object has no attribute 'agent_executor'";
       confidence := 5 # 10; task_type := "error"; memory_updated := false;
       tools_used := ["error_handler"] |}, memory_collection))) as Hgen.
    { intros out Ht. rewrite Ht.
      pose proof (proper_label_not_error request.(message)) as Hne.
      split; [split|]; try contradiction.
      intros Hn. exfalso. apply Hn, Hb. eauto. }
    apply Hgen.
    destruct (ProperOrchestrator.invoke executor request) as [result|e]; cbn.
    + now destruct (ProperOrchestrator.store_memory _ _ _ _ _ _).
    + unfold ProperOrchestrator.direct_routing.
      destruct (Py.any_in ["favorite"; "prefer"; "like"] _).
      * now destruct (ProperOrchestrator.store_memory _ _ _ _ _ _).
      * destruct (Py.any_in _ _);
          now destruct (ProperOrchestrator.store_memory _ _ _ _ _ _).
  - cbn. split; [|reflexivity]. split; [|reflexivity].
    intros _ Hex. apply Hb in Hex as [x [=]].
Qed.

(** X22: [memory_updated] of proper_main.py does not tell whether
    anything was stored.  Whenever the orchestrator has an executor the
    response says [memory_updated = True]; this holds with no
    collection at all and with a collection that refuses every write,
    and the collection is then as it was. *)
Theorem X22_memory_updated_without_store (self : ProperOrchestrator.t)
    (executor : ProperOrchestrator.AgentExecutor)
    (ollama_llm : option ProperOrchestrator.Ollama)
    (tavily_client : option ProperMain.TavilyClient) (memory_collection : option C)
    (iso_id iso_stamp : string) (request : UserInput) :
  self.(ProperOrchestrator.agent_executor) = Some executor ->
  let outcome :=
    ProperOrchestrator.route_task dumps_context self ollama_llm tavily_client
      memory_collection iso_id iso_stamp request in
  (fst outcome).(memory_updated) = true /\
  ((forall c, memory_collection = Some c ->
              forall document m id, exists e, coll_add c document m id = Raise e) ->
   snd outcome = memory_collection).
Proof.
  intros He outcome. subst outcome.
  unfold ProperOrchestrator.route_task, ProperOrchestrator.get_agent_executor.
  rewrite He. cbn [mbind result_bind try_except].
  destruct (ProperOrchestrator.invoke executor request) as [result|e]; cbn.
  - match goal with |- context [ProperOrchestrator.store_memory ?m ?a ?b ?u ?c ?md] =>
      pose proof (proper_store_memory_refused m a b u c md) as Hs;
      destruct (ProperOrchestrator.store_memory m a b u c md) as [v mc'] end.
    cbn in *. auto.
  - unfold ProperOrchestrator.direct_routing.
    destruct (Py.any_in ["favorite"; "prefer"; "like"] _).
    + match goal with |- context [ProperOrchestrator.store_memory ?m ?a ?b ?u ?c ?md] =>
        pose proof (proper_store_memory_refused m a b u c md) as Hs;
        destruct (ProperOrchestrator.store_memory m a b u c md) as [v mc'] end.
      cbn in *. auto.
    + destruct (Py.any_in _ _);
        match goal with |- context [ProperOrchestrator.store_memory ?m ?a ?b ?u ?c ?md] =>
          pose proof (proper_store_memory_refused m a b u c md) as Hs;
          destruct (ProperOrchestrator.store_memory m a b u c md) as [v mc'] end;
        cbn in *; auto.
Qed.

(** X23: the direct routing of proper_main.py follows the label.  When
    the executor raises on a request, the response carries the label of
    the classifier; a preference_query is answered by the preference
    analysis with confidence 0.85, a web_search by the web search tool
    with confidence 0.8, and every other label by the contextual
    response with confidence 0.8. *)
Theorem X23_direct_routing_by_label (self : ProperOrchestrator.t)
    (executor : ProperOrchestrator.AgentExecutor)
    (ollama_llm : option ProperOrchestrator.Ollama)
    (tavily_client : option ProperMain.TavilyClient) (memory_collection : option C)
    (iso_id iso_stamp : string) (request : UserInput) (e : string) :
  self.(ProperOrchestrator.agent_executor) = Some executor ->
  executor.(ProperOrchestrator.invoke) request = Raise e ->
  let r :=
    fst (ProperOrchestrator.route_task dumps_context self ollama_llm tavily_client
           memory_collection iso_id iso_stamp request) in
  r.(task_type) = ProperMain.detect_task_type request.(message) /\
  (r.(task_type) = "preference_query" ->
   r.(tools_used) = ["preference_analysis"] /\ r.(confidence) = 85 # 100 /\
   r.(response) =
   ProperOrchestrator.preference_analysis_tool request.(user_context_of) request.(message)) /\
  (r.(task_type) = "web_search" ->
   r.(tools_used) = ["web_search"] /\ r.(confidence) = 8 # 10 /\
   r.(response) = ProperMain.web_search_tool tavily_client request.(message)) /\
  (r.(task_type) <> "preference_query" -> r.(task_type) <> "web_search" ->
   r.(tools_used) = ["contextual_reasoning"] /\ r.(confidence) = 8 # 10 /\
   r.(response) =
   ProperOrchestrator.generate_contextual_response dumps_context ollama_llm
     request.(message) request.(user_context_of) r.(task_type)).
Proof.
  intros He Hr r. subst r.
  unfold ProperOrchestrator.route_task, ProperOrchestrator.get_agent_executor.
  rewrite He. cbn [mbind result_bind try_except]. rewrite Hr.
  cbn [mbind result_bind try_except].
  unfold ProperOrchestrator.direct_routing, ProperMain.detect_task_type.
  destruct (Py.any_in ["favorite"; "prefer"; "like"] _).
  - destruct (ProperOrchestrator.store_memory _ _ _ _ _ _). cbn.
    repeat split; try discriminate; congruence.
  - destruct (Py.any_in ["weather"; "news"; "search"] _).
    + destruct (ProperOrchestrator.store_memory _ _ _ _ _ _). cbn.
      repeat split; try discriminate; congruence.
    + destruct (ProperOrchestrator.store_memory _ _ _ _ _ _).
      cbn [fst task_type tools_used confidence response].
      split; [reflexivity|]. split; [|split].
      * split_ifs; discriminate.
      * split_ifs; discriminate.
      * intros _ _. repeat split.
Qed.

End ProperRouting.

Lemma X22_memory_updated_without_store_witness :
  let failing := {| ProperOrchestrator.invoke := fun _ => Raise "model not found" |} in
  let self := {| ProperOrchestrator.agent := Some ();
                 ProperOrchestrator.agent_executor := Some failing |} in
  let outcome :=
    ProperOrchestrator.route_task (fun _ => "{}") self None None (Some Broken)
      "2023-11-14T22:13:20.000001" "2023-11-14T22:13:20.000002"
      {| message := "hello"; user_id := 7; user_context_of := ∅ |} in
  (fst outcome).(memory_updated) = true /\ snd outcome = Some Broken.
Proof.
  intros failing self outcome.
  destruct (X22_memory_updated_without_store (fun _ => "{}") self failing None None
              (Some Broken) "2023-11-14T22:13:20.000001" "2023-11-14T22:13:20.000002"
              {| message := "hello"; user_id := 7; user_context_of := ∅ |} eq_refl)
    as [Hm Hs].
  split; [exact Hm|]. apply Hs. intros c _ document m id.
  exists "connection refused". reflexivity.
Defined.

Lemma X23_direct_routing_by_label_witness :
  let failing := {| ProperOrchestrator.invoke := fun _ => Raise "model not found" |} in
  let self := {| ProperOrchestrator.agent := Some ();
                 ProperOrchestrator.agent_executor := Some failing |} in
  let r :=
    fst (ProperOrchestrator.route_task (fun _ => "{}") self None None (Some Broken)
           "2023-11-14T22:13:20.000001" "2023-11-14T22:13:20.000002"
           {| message := "any news?"; user_id := 7; user_context_of := ∅ |}) in
  r.(task_type) = "web_search" /\ r.(tools_used) = ["web_search"] /\
  r.(response) = "Web search not available. Query was: any news?".
Proof.
  intros failing self r.
  destruct (X23_direct_routing_by_label (fun _ => "{}") self failing None None
              (Some Broken) "2023-11-14T22:13:20.000001" "2023-11-14T22:13:20.000002"
              {| message := "any news?"; user_id := 7; user_context_of := ∅ |}
              "model not found" eq_refl eq_refl)
    as [Ht [_ [Hw _]]].
  fold r in Ht, Hw. split; [exact Ht|].
  destruct (Hw Ht) as [Hu [_ Hr]]. split; [exact Hu|]. rewrite Hr. reflexivity.
Defined.

(** ** Preference answers of proper_main.py and assistant_agent.py *)

Lemma found_album_truthy (preferences : list record) (p : record) :
  find (fun p : record =>
          Py.isin "favorite_album" (Py.get p "key" "") ||
          Py.isin "my beautiful dark twisted fantasy" (Py.lower (Py.get p "value" "")))
       preferences = Some p ->
  Py.truthy_dict p = true.
Proof.
  intros Hf. apply find_some in Hf as [_ Hk]. apply orb_true_iff in Hk as [Hk|Hk].
  - now apply (truthy_dict_key "favorite_album").
  - apply (truthy_dict_get p "value"). intros Hnone.
    unfold Py.get in Hk. rewrite Hnone in Hk. discriminate.
Qed.

Lemma find_album_some (preferences : list record) (p : record) :
  In p preferences ->
  Py.isin "favorite_album" (Py.get p "key" "") = true ->
  exists q,
    find (fun p : record =>
            Py.isin "favorite_album" (Py.get p "key" "") ||
            Py.isin "my beautiful dark twisted fantasy" (Py.lower (Py.get p "value" "")))
         preferences = Some q.
Proof.
  intros Hin Hk.
  destruct (find _ preferences) as [q|] eqn:Ef; [now exists q|].
  apply (find_none _ _ Ef) in Hin. rewrite Hk in Hin. discriminate.
Qed.

Lemma no_singer_tests (q : string) :
  Py.isin "singer" q = false ->
  Py.isin "singers" q = false /\ Py.isin "singer?" q = false /\
  Py.isin "who is my favorite singer" q = false.
Proof.
  intros Hn. repeat split.
  all: match goal with |- Py.isin ?w ?s = false =>
         destruct (Py.isin w s) eqn:E; [|reflexivity];
         rewrite (isin_trans "singer" w s eq_refl E) in Hn; discriminate
       end.
Qed.

(** X24: the album answer is a fixed text.  When the context holds a
    record whose key contains favorite_album and the question mentions
    album but neither series nor singer, proper_main.py and
    assistant_agent.py answer with My Beautiful Dark Twisted Fantasy by
    Kanye West, whatever value the record stores. *)
Theorem X24_album_answer_is_fixed (context : user_context) (query : string) (p : record) :
  In p (Py.get context "preferences" []) ->
  Py.isin "favorite_album" (Py.get p "key" "") = true ->
  Py.isin "album" (Py.lower query) = true ->
  Py.isin "series" (Py.lower query) = false ->
  Py.isin "singer" (Py.lower query) = false ->
  ProperOrchestrator.preference_analysis_tool context query =
  "Your favorite album is: My Beautiful Dark Twisted Fantasy by Kanye West" /\
  AssistantAgent.analyze_parsed query context =
  "Your favorite album is: **My Beautiful Dark Twisted Fantasy by Kanye West**".
Proof.
  intros Hin Hk Ha Hs Hg.
  destruct (no_singer_tests _ Hg) as [H1 [H2 H3]].
  assert (Py.isin "tv series" (Py.lower query) = false) as Htv.
  { destruct (Py.isin "tv series" _) eqn:E; [|reflexivity].
    rewrite (isin_trans "series" "tv series" _ eq_refl E) in Hs. discriminate. }
  destruct (find_album_some _ p Hin Hk) as [q Hq].
  pose proof (found_album_truthy _ q Hq) as Hq'.
  unfold ProperOrchestrator.preference_analysis_tool, AssistantAgent.analyze_parsed.
  destruct (Py.get context "preferences" []) as [|p0 rest] eqn:Ep; [destruct Hin|].
  cbn [Py.truthy_list negb].
  rewrite Htv, Hs, H1, H2, H3, Ha. cbn [orb andb]. rewrite Hq, Hq'. split; reflexivity.
Qed.

Lemma X24_album_answer_is_fixed_witness :
  let stored : record := {[ "key" := "favorite_album"; "value" := "album: Abbey Road" ]} in
  let context : user_context := {[ "preferences" := [stored] ]} in
  ProperOrchestrator.preference_analysis_tool context "What is my favorite album?" =
  "Your favorite album is: My Beautiful Dark Twisted Fantasy by Kanye West".
Proof.
  intros stored context.
  refine (proj1 (X24_album_answer_is_fixed context "What is my favorite album?" stored
                   _ _ _ _ _)).
  - left. reflexivity.
  - reflexivity.
  - reflexivity.
  - reflexivity.
  - reflexivity.
Defined.

(** ** Memory statistics of main.py and proper_main.py *)

(** X25: the two memory-count endpoints count different things.  On an
    answer of the store that holds one row per query text, as the
    queries of this code expect, proper_main.py reports the number of
    documents in the row, while main.py reports the number of rows,
    which is 1 whatever the user has stored. *)
Theorem X25_memory_count {C : Type} `{Collection C} (c : C) (iso_now : string)
    (user_id : Z) (r : query_result) (ids docs : list string) :
  coll_query c "" 1000 user_id = Ok r ->
  r.(qr_ids) = [ids] -> r.(qr_documents) = [docs] ->
  Main.get_memory_stats (Some c) iso_now user_id !! "memory_count" = Some (MInt 1) /\
  ProperOrchestrator.get_memory_stats (Some c) iso_now user_id =
  Returned {| ProperOrchestrator.ms_user_id := user_id;
              ProperOrchestrator.memory_count := Z.of_nat (length docs);
              ProperOrchestrator.last_interaction := Some iso_now |}.
Proof.
  intros Hq Hi Hd.
  unfold Main.get_memory_stats, ProperOrchestrator.get_memory_stats.
  rewrite Hq. cbn [mbind result_bind try_except]. rewrite Hi, Hd.
  cbn [Py.truthy_list length]. split; [now simplify_map_eq|reflexivity].
Qed.

Lemma X25_memory_count_witness :
  let kept : list entry :=
    [ {| e_id := "memory_7_1.5"; e_document := "User: hi";
         e_metadata := {[ "user_id" := MInt 7 ]} |};
      {| e_id := "memory_7_2.5"; e_document := "User: ho";
         e_metadata := {[ "user_id" := MInt 7 ]} |} ] in
  Main.get_memory_stats (Some kept) "2023-11-14T22:13:20" 7 !! "memory_count"
  = Some (MInt 1) /\
  ProperOrchestrator.get_memory_stats (Some kept) "2023-11-14T22:13:20" 7 =
  Returned {| ProperOrchestrator.ms_user_id := 7;
              ProperOrchestrator.memory_count := 2;
              ProperOrchestrator.last_interaction := Some "2023-11-14T22:13:20" |}.
Proof.
  intros kept.
  pose (m := ({[ "user_id" := MInt 7 ]} : gmap string meta_value)).
  pose (r := {| qr_ids := [["memory_7_1.5"; "memory_7_2.5"]];
                qr_documents := [["User: hi"; "User: ho"]];
                qr_metadatas := [[m; m]]; qr_distances := [[0%Q; 0%Q]] |}).
  assert (coll_query kept "" 1000%Z 7%Z = Ok r) as Hq by (vm_compute; reflexivity).
  exact (X25_memory_count kept "2023-11-14T22:13:20" 7 r
           ["memory_7_1.5"; "memory_7_2.5"] ["User: hi"; "User: ho"] Hq eq_refl eq_refl).
Defined.

(** ** The agent of ai_assistant/agents/assistant_agent.py *)

Lemma agent_label_not_error (m : string) : AssistantAgent._detect_task_type m <> "error".
Proof. unfold AssistantAgent._detect_task_type. split_ifs; discriminate. Qed.

Section AgentFacts.
Context {T : Type} (str_float : T -> string).
Variable json_dumps : list string -> string.
Variable dumps_context : user_context -> string.
Variable dumps_context_indent : user_context -> string.
Variable py_int : string -> result Z.
Variable json_loads : string -> result user_context.
Variable environ : gmap string string.
Variable requests_post : string -> option string -> string -> result http_response.
Variable calendar_world : GoogleWorld GoogleCalendarTool.CalendarService.
Variable gmail_world : GoogleWorld EmailReaderTool.GmailService.
Variable clock : Clock.

Abbreviation process_input :=
  (Assistant.process_input str_float json_dumps dumps_context dumps_context_indent
     py_int json_loads environ requests_post calendar_world gmail_world clock).

(** What [store_conversation] leaves in a store that keeps what it is
    given. *)
Lemma store_conversation_kept (client : option unit) (directory : string)
    (kept : list entry) (timestamp : T) (iso_now : string) (user_id : Z)
    (message answer label : string) (tools : list string) :
  exists written,
    snd (ChromaDBManager.store_conversation str_float json_dumps
           {| ChromaDBManager.client := client; ChromaDBManager.collection := Some kept;
              ChromaDBManager.persist_directory := directory |}
           timestamp iso_now user_id message answer label tools)
    = {| ChromaDBManager.client := client;
         ChromaDBManager.collection := Some (kept ++ [written]);
         ChromaDBManager.persist_directory := directory |} /\
    written.(e_id) = ChromaDBManager.doc_id str_float user_id timestamp /\
    written.(e_document) = "User: " +:+ message +:+ nl +:+ "Assistant: " +:+ answer /\
    written.(e_metadata) !! "user_id" = Some (MInt user_id) /\
    written.(e_metadata) !! "type" = None /\
    written.(e_metadata) !! "task_type" = Some (MStr label) /\
    written.(e_metadata) !! "tools_used" = Some (MStr (json_dumps tools)).
Proof.
  eexists. split; [reflexivity|]. cbn [e_id e_document e_metadata].
  repeat split; now simplify_map_eq.
Qed.

Lemma store_user_context_kept (client : option unit) (directory : string)
    (kept : list entry) (timestamp : T) (iso_now : string) (user_id : Z)
    (context : user_context) :
  exists written,
    snd (ChromaDBManager.store_user_context str_float dumps_context_indent
           {| ChromaDBManager.client := client; ChromaDBManager.collection := Some kept;
              ChromaDBManager.persist_directory := directory |}
           timestamp iso_now user_id context)
    = {| ChromaDBManager.client := client;
         ChromaDBManager.collection := Some (kept ++ [written]);
         ChromaDBManager.persist_directory := directory |} /\
    written.(e_id) = ChromaDBManager.context_doc_id str_float user_id timestamp /\
    written.(e_document) = dumps_context_indent context /\
    written.(e_metadata) !! "user_id" = Some (MInt user_id) /\
    written.(e_metadata) !! "type" = Some (MStr "user_context").
Proof.
  eexists. split; [reflexivity|]. cbn [e_id e_document e_metadata].
  repeat split; now simplify_map_eq.
Qed.

(** The shape of every run of [process_input]: the context is stored,
    then one conversation whose answer, label and tools are those of
    the response. *)
Lemma process_input_shape {C : Type} `{Collection C} (self : Assistant.t)
    (manager : ChromaDBManager.t) (context_timestamp : T) (context_iso : string)
    (timestamp : T) (iso_now : string) (message : string) (user_id : Z)
    (context : user_context) :
  let outcome :=
    process_input self manager context_timestamp context_iso timestamp iso_now
      message user_id context in
  (fst outcome).(memory_updated) = true /\
  (fst outcome).(task_type) = AssistantAgent._detect_task_type message /\
  ((fst outcome).(confidence) = 8 # 10 \/ (fst outcome).(confidence) = 9 # 10) /\
  snd outcome =
  snd (ChromaDBManager.store_conversation str_float json_dumps
         (snd (ChromaDBManager.store_user_context str_float dumps_context_indent manager
                 context_timestamp context_iso user_id context))
         timestamp iso_now user_id message (fst outcome).(response)
         (fst outcome).(task_type) (fst outcome).(tools_used)).
Proof.
  cbn zeta. unfold Assistant.process_input.
  destruct (ChromaDBManager.store_user_context _ _ _ _ _ _ _) as [v manager1].
  cbn [snd].
  assert (forall label,
    let direct :=
      Assistant._direct_tool_routing str_float json_dumps dumps_context py_int json_loads
        environ requests_post calendar_world gmail_world clock manager1 timestamp iso_now
        message user_id context label in
    (fst direct).(memory_updated) = true /\ (fst direct).(task_type) = label /\
    ((fst direct).(confidence) = 8 # 10 \/ (fst direct).(confidence) = 9 # 10) /\
    snd direct =
    snd (ChromaDBManager.store_conversation str_float json_dumps manager1 timestamp
           iso_now user_id message (fst direct).(response) (fst direct).(task_type)
           (fst direct).(tools_used))) as Hdirect.
  { intros label. cbn zeta. unfold Assistant._direct_tool_routing.
    repeat (destruct (String.eqb label _));
      destruct (ChromaDBManager.store_conversation _ _ _ _ _ _ _ _ _ _) as [w m2] eqn:Es;
      cbn [fst snd memory_updated task_type confidence response tools_used];
      rewrite Es; auto. }
  destruct (Assistant.agent_executor self) as [executor|]; [|apply Hdirect].
  destruct (Assistant.invoke executor message) as [result|e]; cbn [mbind result_bind try_except];
    [|apply Hdirect].
  destruct (ChromaDBManager.store_conversation _ _ _ _ _ _ _ _ _ _) as [w m2] eqn:Es.
  cbn [fst snd memory_updated task_type confidence response tools_used try_except].
  rewrite Es. auto.
Qed.

(** X26: each request to the assistant writes two records.  On a store
    that keeps what it is given, [process_input] adds the context
    snapshot, under "context_<user>_<timestamp>", and after it the
    conversation, under "user_<user>_<timestamp>", whose document is
    "User: <message>\nAssistant: <response>" and whose metadata carry
    the label and the tools of the response. *)
Theorem X26_request_writes_two_records (self : Assistant.t) (client : option unit)
    (directory : string) (kept : list entry) (context_timestamp : T)
    (context_iso : string) (timestamp : T) (iso_now : string) (message : string)
    (user_id : Z) (context : user_context) :
  let manager :=
    {| ChromaDBManager.client := client; ChromaDBManager.collection := Some kept;
       ChromaDBManager.persist_directory := directory |} in
  let outcome :=
    process_input self manager context_timestamp context_iso timestamp iso_now
      message user_id context in
  exists context_record conversation_record,
    snd outcome =
    {| ChromaDBManager.client := client;
       ChromaDBManager.collection := Some (kept ++ [context_record; conversation_record]);
       ChromaDBManager.persist_directory := directory |} /\
    context_record.(e_id) =
      ChromaDBManager.context_doc_id str_float user_id context_timestamp /\
    context_record.(e_document) = dumps_context_indent context /\
    conversation_record.(e_id) = ChromaDBManager.doc_id str_float user_id timestamp /\
    conversation_record.(e_document) =
      "User: " +:+ message +:+ nl +:+ "Assistant: " +:+ (fst outcome).(response) /\
    conversation_record.(e_metadata) !! "task_type" =
      Some (MStr (fst outcome).(task_type)) /\
    conversation_record.(e_metadata) !! "tools_used" =
      Some (MStr (json_dumps (fst outcome).(tools_used))).
Proof.
  intros manager outcome.
  destruct (process_input_shape self manager context_timestamp context_iso timestamp
              iso_now message user_id context) as (_ & _ & _ & Hs).
  fold outcome in Hs.
  destruct (store_user_context_kept client directory kept context_timestamp context_iso
              user_id context) as (cr & Ec & Hc1 & Hc2 & _).
  fold manager in Ec. rewrite Ec in Hs.
  destruct (store_conversation_kept client directory (kept ++ [cr]) timestamp iso_now
              user_id message (fst outcome).(response) (fst outcome).(task_type)
              (fst outcome).(tools_used)) as (vr & Ev & Hv1 & Hv2 & _ & _ & Hv3 & Hv4).
  rewrite Ev in Hs. exists cr, vr. rewrite Hs, <- app_assoc. auto 10.
Qed.

(** X27: the assistant reports [memory_updated = True] whether or not
    anything was stored.  Every response of [process_input] has it,
    with confidence 0.8 or 0.9 and the label of the classifier, and a
    manager without collection comes back unchanged. *)
Theorem X27_assistant_memory_updated {C : Type} `{Collection C} (self : Assistant.t)
    (manager : ChromaDBManager.t) (context_timestamp : T) (context_iso : string)
    (timestamp : T) (iso_now : string) (message : string) (user_id : Z)
    (context : user_context) :
  let outcome :=
    process_input self manager context_timestamp context_iso timestamp iso_now
      message user_id context in
  (fst outcome).(memory_updated) = true /\
  (fst outcome).(task_type) = AssistantAgent._detect_task_type message /\
  ((fst outcome).(confidence) = 8 # 10 \/ (fst outcome).(confidence) = 9 # 10) /\
  (manager.(ChromaDBManager.collection) = None -> snd outcome = manager).
Proof.
  intros outcome.
  destruct (process_input_shape self manager context_timestamp context_iso timestamp
              iso_now message user_id context) as (Hm & Ht & Hc & Hs).
  fold outcome in Hm, Ht, Hc, Hs. repeat (split; [assumption|]).
  intros Hn. rewrite Hs.
  unfold ChromaDBManager.store_user_context, ChromaDBManager.store_conversation.
  rewrite Hn. cbn. rewrite Hn. reflexivity.
Qed.

(** X28: without executor, a request labelled image_analysis or
    general_chat gets the fixed general answer: no tool is used. *)
Theorem X28_general_answer {C : Type} `{Collection C} (self : Assistant.t)
    (manager : ChromaDBManager.t) (context_timestamp : T) (context_iso : string)
    (timestamp : T) (iso_now : string) (message : string) (user_id : Z)
    (context : user_context) :
  self.(Assistant.agent_executor) = None ->
  AssistantAgent._detect_task_type message = "image_analysis" \/
  AssistantAgent._detect_task_type message = "general_chat" ->
  fst (process_input self manager context_timestamp context_iso timestamp iso_now
         message user_id context) =
  {| response := "I'm your Personal AI Assistant. How can I help you today?";
     confidence := 8 # 10;
     task_type := AssistantAgent._detect_task_type message;
     memory_updated := true;
     tools_used := ["general_response"] |}.
Proof.
  intros He Hl. unfold Assistant.process_input.
  destruct (ChromaDBManager.store_user_context _ _ _ _ _ _ _) as [v manager1].
  rewrite He. unfold Assistant._direct_tool_routing.
  destruct Hl as [-> | ->]; cbn [String.eqb Ascii.eqb Bool.eqb];
    now destruct (ChromaDBManager.store_conversation _ _ _ _ _ _ _ _ _ _).
Qed.


(** *** Statistics of the memory manager *)

Lemma count_by_type_from (metadatas : list (gmap string meta_value)) (acc : nat * nat) :
  fold_left
    (fun '(conversations, contexts) metadata =>
       if ChromaDBStats.is_user_context metadata then (conversations, S contexts)
       else (S conversations, contexts))
    metadatas acc =
  (fst acc + length (List.filter (fun m => negb (ChromaDBStats.is_user_context m)) metadatas),
   snd acc + length (List.filter ChromaDBStats.is_user_context metadatas)).
Proof.
  revert acc. induction metadatas as [|m ms IH]; intros [a b]; cbn [fold_left List.filter].
  - cbn. f_equal; lia.
  - rewrite IH. destruct (ChromaDBStats.is_user_context m); cbn; f_equal; lia.
Qed.

Lemma count_by_type_spec (metadatas : list (gmap string meta_value)) :
  ChromaDBStats.count_by_type metadatas =
  (length (List.filter (fun m => negb (ChromaDBStats.is_user_context m)) metadatas),
   length (List.filter ChromaDBStats.is_user_context metadatas)).
Proof. unfold ChromaDBStats.count_by_type. now rewrite count_by_type_from. Qed.

Lemma count_by_type_total (metadatas : list (gmap string meta_value)) :
  fst (ChromaDBStats.count_by_type metadatas) + snd (ChromaDBStats.count_by_type metadatas)
  = length metadatas.
Proof.
  rewrite count_by_type_spec. cbn [fst snd].
  induction metadatas as [|m ms IH]; [reflexivity|]. cbn [List.filter length].
  destruct (ChromaDBStats.is_user_context m); cbn [negb length]; lia.
Qed.

Lemma stats_of_answer {C : Type} (coll_get : C -> Z -> result ChromaDBStats.get_result)
    (self : ChromaDBManager.t) (c : C) (iso_now : string) (user_id : Z)
    (r : ChromaDBStats.get_result) :
  self.(ChromaDBManager.collection) = Some c ->
  coll_get c user_id = Ok r ->
  ChromaDBStats.get_user_memory_stats coll_get self iso_now user_id =
  ChromaDBStats.Active user_id (length r.(ChromaDBStats.gr_documents))
    (fst (ChromaDBStats.count_by_type r.(ChromaDBStats.gr_metadatas)))
    (snd (ChromaDBStats.count_by_type r.(ChromaDBStats.gr_metadatas))) iso_now.
Proof.
  intros Hc Hg. unfold ChromaDBStats.get_user_memory_stats. rewrite Hc, Hg.
  cbn [mbind result_bind try_except].
  destruct (ChromaDBStats.gr_documents r) as [|d ds];
    destruct (ChromaDBStats.gr_metadatas r) as [|m ms]; cbn [Py.truthy_list length];
    try reflexivity;
    now destruct (ChromaDBStats.count_by_type (m :: ms)).
Qed.

(** X29: the statistics of a user add up.  When the store answers
    with as many metadata entries as documents, the total that
    [get_user_memory_stats] reports is the sum of its conversations and
    its contexts, and the contexts are the entries whose type is
    user_context. *)
Theorem X29_stats_add_up {C : Type} (coll_get : C -> Z -> result ChromaDBStats.get_result)
    (self : ChromaDBManager.t) (c : C) (iso_now : string) (user_id : Z)
    (r : ChromaDBStats.get_result) :
  self.(ChromaDBManager.collection) = Some c ->
  coll_get c user_id = Ok r ->
  length r.(ChromaDBStats.gr_documents) = length r.(ChromaDBStats.gr_metadatas) ->
  exists conversations contexts,
    ChromaDBStats.get_user_memory_stats coll_get self iso_now user_id =
    ChromaDBStats.Active user_id (conversations + contexts) conversations contexts iso_now /\
    contexts =
    length (List.filter ChromaDBStats.is_user_context r.(ChromaDBStats.gr_metadatas)).
Proof.
  intros Hc Hg Hl. do 2 eexists.
  rewrite (stats_of_answer coll_get self c iso_now user_id r Hc Hg), Hl,
    <- count_by_type_total.
  split; [reflexivity|]. now rewrite count_by_type_spec.
Qed.

Lemma filter_user_app (user_id : Z) (kept : list entry) (a b : entry) :
  a.(e_metadata) !! "user_id" = Some (MInt user_id) ->
  b.(e_metadata) !! "user_id" = Some (MInt user_id) ->
  forall other,
    filter (fun e => belongs_to other e = true) (kept ++ [a; b]) =
    filter (fun e => belongs_to other e = true) kept ++
    (if (user_id =? other)%Z then [a; b] else []).
Proof.
  intros Ha Hb other. rewrite filter_app. f_equal.
  rewrite !filter_cons, filter_nil. unfold belongs_to. rewrite Ha, Hb.
  destruct (user_id =? other)%Z; repeat case_decide; congruence.
Qed.

(** X30: a request to the assistant shows in the statistics of its
    user and of nobody else.  On a store that keeps what it is given,
    [process_input] raises the user's conversations by one, the
    contexts by one and the total by two; the statistics of every
    other user stay as they were. *)
Theorem X30_request_in_statistics (self : Assistant.t) (client : option unit)
    (directory : string) (kept : list entry) (context_timestamp : T)
    (context_iso : string) (timestamp : T) (iso_now : string) (message : string)
    (user_id : Z) (context : user_context) (asked : string) :
  let manager :=
    {| ChromaDBManager.client := client; ChromaDBManager.collection := Some kept;
       ChromaDBManager.persist_directory := directory |} in
  let after :=
    snd (process_input self manager context_timestamp context_iso timestamp iso_now
           message user_id context) in
  (exists conversations contexts,
     ChromaDBStats.get_user_memory_stats list_get manager asked user_id =
     ChromaDBStats.Active user_id (conversations + contexts) conversations contexts asked /\
     ChromaDBStats.get_user_memory_stats list_get after asked user_id =
     ChromaDBStats.Active user_id (conversations + contexts + 2) (conversations + 1)
       (contexts + 1) asked) /\
  (forall other, other <> user_id ->
     ChromaDBStats.get_user_memory_stats list_get after asked other =
     ChromaDBStats.get_user_memory_stats list_get manager asked other).
Proof.
  intros manager after.
  destruct (process_input_shape self manager context_timestamp context_iso timestamp
              iso_now message user_id context) as (_ & _ & _ & Hs).
  fold after in Hs.
  destruct (store_user_context_kept client directory kept context_timestamp context_iso
              user_id context) as (cr & Ec & _ & _ & Hcu & Hct).
  fold manager in Ec. rewrite Ec in Hs.
  match type of Hs with
  | _ = snd (ChromaDBManager.store_conversation _ _ _ _ _ _ _ ?a ?l ?t) =>
      destruct (store_conversation_kept client directory (kept ++ [cr]) timestamp iso_now
                  user_id message a l t) as (vr & Ev & _ & _ & Hvu & Hvt & _)
  end.
  rewrite Ev, <- app_assoc in Hs. cbn [app] in Hs.
  pose proof (filter_user_app user_id kept cr vr Hcu Hvu) as Hf.
  assert (ChromaDBStats.is_user_context cr.(e_metadata) = true) as Hc1
    by (unfold ChromaDBStats.is_user_context; now rewrite Hct).
  assert (ChromaDBStats.is_user_context vr.(e_metadata) = false) as Hv1
    by (unfold ChromaDBStats.is_user_context; now rewrite Hvt).
  split.
  - set (ms := map e_metadata (filter (fun e => belongs_to user_id e = true) kept)).
    exists (length (List.filter (fun m => negb (ChromaDBStats.is_user_context m)) ms)),
           (length (List.filter ChromaDBStats.is_user_context ms)).
    pose proof (count_by_type_total ms) as Ht.
    rewrite count_by_type_spec in Ht. cbn [fst snd] in Ht.
    rewrite (stats_of_answer list_get manager kept asked user_id _ eq_refl eq_refl).
    rewrite (stats_of_answer list_get after (kept ++ [cr; vr]) asked user_id _
               ltac:(now rewrite Hs) eq_refl).
    cbn [ChromaDBStats.gr_documents ChromaDBStats.gr_metadatas].
    rewrite Hf, Z.eqb_refl, !map_app, !length_app, !length_map, !count_by_type_spec.
    fold ms. cbn [fst snd map length]. rewrite !List.filter_app, !length_app.
    cbn [List.filter]. rewrite Hc1, Hv1. cbn [negb length].
    unfold ms in Ht at 3. rewrite length_map in Ht.
    split; f_equal; lia.
  - intros other Hne.
    rewrite (stats_of_answer list_get manager kept asked other _ eq_refl eq_refl).
    rewrite (stats_of_answer list_get after (kept ++ [cr; vr]) asked other _
               ltac:(now rewrite Hs) eq_refl).
    cbn [ChromaDBStats.gr_documents ChromaDBStats.gr_metadatas].
    rewrite Hf. destruct (Z.eqb_spec user_id other) as [->|_]; [contradiction|].
    now rewrite app_nil_r.
Qed.

End AgentFacts.

(** ** The properties above on sample requests *)

Lemma X19_orchestrate_500_iff_witness :
  let request :=
    {| message := "search cats"; user_id := 7;
       user_context_of := {[ "notes" := [ ({[ "content" := "milk" ]} : record) ] ]} |} in
  Main.orchestrate_ai_task (pretty : Z -> string) (fun _ => "[]") Main.OllamaLLM__init__
    (Some ([] : list entry)) "2023-11-14T22:13:20" 1700000000%Z request
  = (HTTPException 500 "AI processing error: 'title'", Some []).
Proof.
  intros request.
  destruct (X19_orchestrate_500_iff (pretty : Z -> string) (fun _ => "[]")
              (Some ([] : list entry)) "2023-11-14T22:13:20" 1700000000%Z request)
    as [[_ Hraise] Hdetail].
  destruct Hraise as (status & detail & E).
  { split; [reflexivity|]. eexists _, _. split; reflexivity. }
  destruct (Hdetail status detail E) as (-> & -> & Hs).
  destruct (Main.orchestrate_ai_task _ _ _ _ _ _ _) as [out mc].
  cbn [fst snd] in E, Hs. now rewrite E, Hs.
Defined.

Lemma X21_no_executor_no_answer_witness :
  (fst (ProperOrchestrator.route_task (fun _ => "{}")
          (ProperOrchestrator.__init__ None (fun _ => Ok ()) (Raise "not reached"))
          None None (Some ([] : list entry))
          "2023-11-14T22:13:20.000001" "2023-11-14T22:13:20.000002"
          {| message := "hello"; user_id := 7; user_context_of := ∅ |})).(memory_updated)
  = false.
Proof.
  destruct (X21_no_executor_no_answer (fun _ => "{}") None (fun _ => Ok ())
              (Raise "not reached") None (Some ([] : list entry))
              "2023-11-14T22:13:20.000001" "2023-11-14T22:13:20.000002"
              {| message := "hello"; user_id := 7; user_context_of := ∅ |})
    as [Hiff Hall].
  rewrite Hall; [reflexivity|].
  apply Hiff. intros (llm & _ & _ & [=] & _).
Defined.

Lemma X27_assistant_memory_updated_witness :
  let clock := {| now := 0; utcnow := 0; isoformat := fun _ => "1970-01-01T00:00:00";
                  strftime := fun _ _ => "Thursday" |} in
  let self := {| Assistant.ollama_llm := None; Assistant.agent_executor := None |} in
  let manager : ChromaDBManager.t :=
    {| ChromaDBManager.client := None;
       ChromaDBManager.collection := (None : option broken_store);
       ChromaDBManager.persist_directory := "data/chromadb" |} in
  let outcome :=
    Assistant.process_input (pretty : Z -> string) (fun _ => "[]") (fun _ => "{}")
      (fun _ => "{}") (fun _ => Raise "invalid literal") (fun _ => Raise "no JSON")
      ∅ (fun _ _ _ => Raise "no network") bare_world bare_world clock self manager
      1700000000%Z "2023-11-14T22:13:20" 1700000001%Z "2023-11-14T22:13:21"
      "my favorite album" 7 ∅ in
  (fst outcome).(memory_updated) = true /\ snd outcome = manager.
Proof.
  intros clock self manager outcome.
  destruct (X27_assistant_memory_updated (pretty : Z -> string) (fun _ => "[]")
              (fun _ => "{}") (fun _ => "{}") (fun _ => Raise "invalid literal")
              (fun _ => Raise "no JSON") ∅ (fun _ _ _ => Raise "no network")
              bare_world bare_world clock self manager
              1700000000%Z "2023-11-14T22:13:20" 1700000001%Z "2023-11-14T22:13:21"
              "my favorite album" 7 ∅) as (Hm & _ & _ & Hs).
  split; [exact Hm | exact (Hs eq_refl)].
Defined.

Lemma X28_general_answer_witness :
  let clock := {| now := 0; utcnow := 0; isoformat := fun _ => "1970-01-01T00:00:00";
                  strftime := fun _ _ => "Thursday" |} in
  let self := {| Assistant.ollama_llm := None; Assistant.agent_executor := None |} in
  let manager : ChromaDBManager.t :=
    {| ChromaDBManager.client := Some ();
       ChromaDBManager.collection := Some ([] : list entry);
       ChromaDBManager.persist_directory := "data/chromadb" |} in
  fst (Assistant.process_input (pretty : Z -> string) (fun _ => "[]") (fun _ => "{}")
         (fun _ => "{}") (fun _ => Raise "invalid literal") (fun _ => Raise "no JSON")
         ∅ (fun _ _ _ => Raise "no network") bare_world bare_world clock self manager
         1700000000%Z "2023-11-14T22:13:20" 1700000001%Z "2023-11-14T22:13:21"
         "describe this photo" 7 ∅) =
  {| response := "I'm your Personal AI Assistant. How can I help you today?";
     confidence := 8 # 10; task_type := "image_analysis"; memory_updated := true;
     tools_used := ["general_response"] |}.
Proof.
  intros clock self manager.
  exact (X28_general_answer (pretty : Z -> string) (fun _ => "[]") (fun _ => "{}")
           (fun _ => "{}") (fun _ => Raise "invalid literal") (fun _ => Raise "no JSON")
           ∅ (fun _ _ _ => Raise "no network") bare_world bare_world clock self manager
           1700000000%Z "2023-11-14T22:13:20" 1700000001%Z "2023-11-14T22:13:21"
           "describe this photo" 7 ∅ eq_refl (or_introl eq_refl)).
Defined.

Lemma X29_stats_add_up_witness :
  let kept : list entry :=
    [ {| e_id := "context_7_1.5"; e_document := "{}";
         e_metadata := {[ "user_id" := MInt 7; "type" := MStr "user_context" ]} |};
      {| e_id := "user_7_2.5"; e_document := "User: hi";
         e_metadata := {[ "user_id" := MInt 7 ]} |} ] in
  let self := {| ChromaDBManager.client := Some (); ChromaDBManager.collection := Some kept;
                 ChromaDBManager.persist_directory := "data/chromadb" |} in
  exists conversations contexts,
    ChromaDBStats.get_user_memory_stats list_get self "2023-11-14T22:13:20" 7 =
    ChromaDBStats.Active 7 (conversations + contexts) conversations contexts
      "2023-11-14T22:13:20" /\
    contexts = 1.
Proof.
  intros kept self.
  pose (r := {| ChromaDBStats.gr_ids := ["context_7_1.5"; "user_7_2.5"];
                ChromaDBStats.gr_documents := ["{}"; "User: hi"];
                ChromaDBStats.gr_metadatas := map e_metadata kept |}).
  assert (list_get kept 7 = Ok r) as Hg by (vm_compute; reflexivity).
  destruct (X29_stats_add_up list_get self kept "2023-11-14T22:13:20" 7 r
              eq_refl Hg eq_refl) as (conversations & contexts & E & Hc).
  exists conversations, contexts. split; [exact E|]. rewrite Hc. reflexivity.
Defined.
